(** * Universal Data Analyzer: a shallow embedding of
      [universal_data_analyzer.py] and the properties of its analysis,
      visualization and report pipeline.

    Modelling conventions.
    - A raster cell or a table number is an IEEE double in the source.  In
      the analyzers and the pipeline, finite doubles are modelled by exact
      rationals ([Q]); the three kinds of non-finite doubles are kept as
      separate constructors, with the IEEE comparison rules (every ordered
      comparison with a not-a-number is false, [!=] with a not-a-number is
      true).  There a square root is a real number: standard deviations live
      in [ext R].
    - Where rounding, underflow or overflow decides the outcome (the no-data
      detector, and the equality of two standard deviations), the computation
      is modelled on the doubles themselves: module [B64] works on the
      primitive binary64 numbers, whose operations are those of IEEE 754.
    - A Python [dict] is an association list in insertion order.
    - Code that can raise returns a [result]; a [try]/[except] block is a
      match on it. *)

From Stdlib Require Import String Ascii DecimalString.
From Stdlib Require Import List ZArith QArith Qround Qreduction Bool Lia Lqa.
From Stdlib Require Import Permutation FinFun Sorted.
From Stdlib Require Import Reals Qreals.
From Stdlib Require Floats Uint63.

#[local] Close Scope R_scope.
#[local] Open Scope Q_scope.
Import ListNotations.

Set Implicit Arguments.

(* ------------------------------------------------------------------ *)
(** * Exceptions *)

Inductive exn : Type :=
| ValueError
| IndexError
| TypeError
| IOError.

Inductive result (A : Type) : Type :=
| Ok (a : A)
| Raise (e : exn).

Arguments Ok {A} a.
Arguments Raise {A} e.

Definition bind {A B : Type} (m : result A) (k : A -> result B) : result B :=
  match m with
  | Ok a => k a
  | Raise e => Raise e
  end.

Notation "x <- m ;; k" := (bind m (fun x => k))
  (at level 61, m at next level, right associativity).

(* ------------------------------------------------------------------ *)
(** * Doubles *)

Inductive ext (A : Type) : Type :=
| Fin (a : A)
| PInf
| NInf
| NaN.

Arguments Fin {A} a.
Arguments PInf {A}.
Arguments NInf {A}.
Arguments NaN {A}.

Definition f64 : Type := ext Q.

Definition Qlt_bool (a b : Q) : bool := negb (Qle_bool b a).

Module F64.

(** [np.isfinite] *)
Definition isfinite (x : f64) : bool :=
  match x with Fin _ => true | _ => false end.

(** [x == y] *)
Definition eqb (x y : f64) : bool :=
  match x, y with
  | Fin a, Fin b => Qeq_bool a b
  | PInf, PInf => true
  | NInf, NInf => true
  | _, _ => false
  end.

(** [x != y]: true as soon as one side is a not-a-number. *)
Definition neb (x y : f64) : bool := negb (eqb x y).

(** [x < y] *)
Definition ltb (x y : f64) : bool :=
  match x, y with
  | Fin a, Fin b => Qlt_bool a b
  | NInf, Fin _ | NInf, PInf | Fin _, PInf => true
  | _, _ => false
  end.

(** [x > y] *)
Definition gtb (x y : f64) : bool := ltb y x.

(** [x <= y] *)
Definition leb (x y : f64) : bool :=
  match x, y with
  | NaN, _ | _, NaN => false
  | _, _ => negb (ltb y x)
  end.

Definition neg (x : f64) : f64 :=
  match x with
  | Fin a => Fin (- a)
  | PInf => NInf
  | NInf => PInf
  | NaN => NaN
  end.

(** [x + y]: opposite infinities cancel to a not-a-number. *)
Definition add (x y : f64) : f64 :=
  match x, y with
  | NaN, _ | _, NaN => NaN
  | Fin a, Fin b => Fin (a + b)
  | PInf, NInf | NInf, PInf => NaN
  | PInf, _ | _, PInf => PInf
  | NInf, _ | _, NInf => NInf
  end.

Definition sub (x y : f64) : f64 := add x (neg y).

Definition sign (a : Q) : comparison := (0 ?= a)%Q.

(** [x * y]: zero times an infinity is a not-a-number. *)
Definition mul (x y : f64) : f64 :=
  match x, y with
  | NaN, _ | _, NaN => NaN
  | Fin a, Fin b => Fin (a * b)
  | Fin a, PInf | PInf, Fin a =>
      match sign a with Lt => PInf | Gt => NInf | Eq => NaN end
  | Fin a, NInf | NInf, Fin a =>
      match sign a with Lt => NInf | Gt => PInf | Eq => NaN end
  | PInf, PInf | NInf, NInf => PInf
  | PInf, NInf | NInf, PInf => NInf
  end.

(** Division by a positive count. *)
Definition divn (x : f64) (n : nat) : f64 :=
  match n with
  | O => match x with
         | Fin a => match sign a with Lt => PInf | Gt => NInf | Eq => NaN end
         | _ => x
         end
  | S _ => match x with
           | Fin a => Fin (a / inject_Z (Z.of_nat n))
           | _ => x
           end
  end.

(** [np.minimum] and [np.maximum]: a not-a-number wins. *)
Definition minimum (x y : f64) : f64 :=
  match x, y with
  | NaN, _ | _, NaN => NaN
  | _, _ => if ltb y x then y else x
  end.

Definition maximum (x y : f64) : f64 :=
  match x, y with
  | NaN, _ | _, NaN => NaN
  | _, _ => if ltb x y then y else x
  end.

End F64.

(* ------------------------------------------------------------------ *)
(** * Arrays *)

(** A raster band is a two-dimensional array, a list of rows. *)
Definition grid : Type := list (list f64).

(** Boolean indexing returns a one-dimensional array; a raster that is used
    as it is stays two-dimensional.  [len] of an array is the size of its
    first axis. *)
Inductive ndarray : Type :=
| Arr1 (cells : list f64)
| Arr2 (rows : grid).

Module Np.

(** [a.flatten()] *)
Definition flatten (a : ndarray) : list f64 :=
  match a with
  | Arr1 cells => cells
  | Arr2 rows => concat rows
  end.

(** [len(a)] *)
Definition len (a : ndarray) : nat :=
  match a with
  | Arr1 cells => length cells
  | Arr2 rows => length rows
  end.

(** [a.size] *)
Definition size (a : ndarray) : nat := length (flatten a).

(** [a[mask]] with the mask given cell by cell. *)
Definition select (keep : f64 -> bool) (a : ndarray) : ndarray :=
  Arr1 (filter keep (flatten a)).

(** The finite cells, as rationals: [a[np.isfinite(a)]]. *)
Fixpoint finite_values (l : list f64) : list Q :=
  match l with
  | [] => []
  | Fin q :: l' => q :: finite_values l'
  | _ :: l' => finite_values l'
  end.

(** Sorting, as [np.sort]. *)
Section Sort.
Context {A : Type} (leb : A -> A -> bool).

Fixpoint insert (x : A) (l : list A) : list A :=
  match l with
  | [] => [x]
  | y :: l' => if leb x y then x :: l else y :: insert x l'
  end.

Fixpoint sort_by (l : list A) : list A :=
  match l with
  | [] => []
  | x :: l' => insert x (sort_by l')
  end.
End Sort.

Definition sort (l : list Q) : list Q := sort_by Qle_bool l.

(** [a.min()] on a non-empty array of finite values; an empty array
    raises. *)
Fixpoint min_from (m : Q) (l : list Q) : Q :=
  match l with
  | [] => m
  | x :: l' => min_from (if Qlt_bool x m then x else m) l'
  end.

Definition amin (l : list Q) : result Q :=
  match l with
  | [] => Raise ValueError
  | x :: l' => Ok (min_from x l')
  end.

(** [np.percentile(a, p)] with the default linear interpolation: the
    virtual index [(n-1)·p/100] is split into its floor and its fractional
    part, and the two neighbouring order statistics are interpolated. *)
Definition percentile (l : list Q) (p : Q) : result Q :=
  match l with
  | [] => Raise IndexError
  | _ =>
      let s := sort l in
      let n := Z.of_nat (length l) in
      let h := (p / 100) * inject_Z (n - 1) in
      let lo := Qfloor h in
      let hi := Z.min (lo + 1) (n - 1) in
      let g := h - inject_Z lo in
      let a := nth (Z.to_nat lo) s 0 in
      let b := nth (Z.to_nat hi) s 0 in
      Ok (a + g * (b - a))
  end.

End Np.

(* ------------------------------------------------------------------ *)
(** * Reading a raster: the no-data detector *)

(** What the raster decoder hands over: the first band and the metadata. *)
Record raster_src : Type := {
  src_band1 : grid;
  src_nodata : option f64;
  src_width : Z;
  src_height : Z;
  src_count : Z;
  src_crs : string;
  src_dtype : string
}.

Record tif_metadata : Type := {
  width : Z;
  height : Z;
  bands : Z;
  crs : string;
  nodata : option f64;
  dtype : string
}.

Record tif_data : Type := {
  data : grid;
  metadata : tif_metadata
}.

(** The block "Handle no-data values more robustly" of [_read_tif_file]. *)
Definition detect_nodata (data : grid) (declared : option f64)
  : result (option f64) :=
  match declared with
  | Some v => Ok (Some v)
  | None =>
      let data_flat := Np.finite_values (Np.flatten (Arr2 data)) in
      if (0 <? length data_flat)%nat then
        q1 <- Np.percentile data_flat 1 ;;
        q99 <- Np.percentile data_flat 99 ;;
        m <- Np.amin data_flat ;;
        if Qlt_bool m (q1 - 100 * (q99 - q1)) then
          let reasonable_min := q1 - 10 * (q99 - q1) in
          Ok (Some (Fin reasonable_min))
        else Ok None
      else Ok None
  end.

(* ------------------------------------------------------------------ *)
(** * Statistics over arrays of doubles *)

Module Stats.

Definition isnan (x : f64) : bool :=
  match x with NaN => true | _ => false end.

(** [np.min], [np.max]: an empty array raises. *)
Definition np_min (l : list f64) : result f64 :=
  match l with
  | [] => Raise ValueError
  | x :: l' => Ok (fold_left F64.minimum l' x)
  end.

Definition np_max (l : list f64) : result f64 :=
  match l with
  | [] => Raise ValueError
  | x :: l' => Ok (fold_left F64.maximum l' x)
  end.

Definition np_sum (l : list f64) : f64 := fold_left F64.add l (Fin 0).

(** [np.mean]: the sum over the count; not-a-number on an empty array. *)
Definition np_mean (l : list f64) : f64 := F64.divn (np_sum l) (length l).

(** [np.median]: a not-a-number anywhere gives a not-a-number; otherwise
    the mean of the one or two middle order statistics. *)
Definition np_median (l : list f64) : f64 :=
  if existsb isnan l then NaN
  else
    let s := Np.sort_by F64.leb l in
    let n := length l in
    if Nat.even n
    then np_mean (firstn 2 (skipn (n / 2 - 1) s))
    else np_mean (firstn 1 (skipn (n / 2) s)).

(** The variance with [ddof] delta degrees of freedom: the squared
    deviations from the mean, summed and divided by [n - ddof]. *)
Definition variance (ddof : nat) (l : list f64) : f64 :=
  let arrmean := np_mean l in
  let x := map (fun a => F64.sub a arrmean) l in
  let x := map (fun d => F64.mul d d) x in
  F64.divn (np_sum x) (length l - ddof).

Definition ext_sqrt (x : f64) : ext R :=
  match x with
  | Fin q => if Qlt_bool q 0 then NaN else Fin (sqrt (Q2R q))
  | PInf => PInf
  | NInf => NaN
  | NaN => NaN
  end.

(** [np.std]: [ddof] defaults to 0, the population standard deviation. *)
Definition np_std (l : list f64) : ext R := ext_sqrt (variance 0 l).

(** [Series.std] of pandas: [ddof] defaults to 1, the sample standard
    deviation. *)
Definition pd_std (l : list f64) : ext R := ext_sqrt (variance 1 l).

End Stats.

(* ------------------------------------------------------------------ *)
(** * Binary64 arithmetic *)

(** Where a result hinges on rounding, on underflow or on overflow, the
    computation is carried out on the doubles themselves, with the
    operations of IEEE 754 binary64. *)

Module B64.

Import PrimFloat.
#[local] Open Scope float_scope.

(** [float(n)] for a count or an index [n]. *)
Definition of_nat (n : nat) : float := of_uint63 (Uint63.of_Z (Z.of_nat n)).

(** [np.floor] of a non-negative double, as an index. *)
Definition floor_index (x : float) : nat :=
  match FloatOps.Prim2SF x with
  | SpecFloat.S754_finite false m e => Z.to_nat (Z.shiftl (Zpos m) e)
  | _ => O
  end.

(** [a.min()] on an array without not-a-number; an empty array raises. *)
Definition amin (l : list float) : result float :=
  match l with
  | [] => Raise ValueError
  | x :: l' => Ok (fold_left (fun m y => if y <? m then y else m) l' x)
  end.

(** The interpolation step of [np.percentile]: from [a] towards [b] by the
    fraction [t], taken from the nearer end. *)
Definition lerp (a b t : float) : float :=
  if 0.5 <=? t then b - (b - a) * (1 - t) else a + (b - a) * t.

(** [np.percentile(a, p)] with the default linear interpolation: the array
    is sorted, the virtual index [(n-1)·(p/100)] is split into its floor and
    its fractional part, and the two neighbouring order statistics are
    interpolated; a virtual index at or beyond the last position takes the
    last order statistic for both. *)
Definition percentile (l : list float) (p : nat) : result float :=
  match l with
  | [] => Raise IndexError
  | _ =>
      let arr := Np.sort_by leb l in
      let n := length l in
      let virtual_index := of_nat (n - 1) * (of_nat p / 100) in
      if of_nat (n - 1) <=? virtual_index then
        let top := nth (n - 1) arr 0 in
        Ok (lerp top top (virtual_index - (-1)))
      else
        let previous := floor_index virtual_index in
        let gamma := virtual_index - of_nat previous in
        Ok (lerp (nth previous arr 0) (nth (previous + 1) arr 0) gamma)
  end.

(** The block "Handle no-data values more robustly" of [_read_tif_file], on
    a band of doubles. *)
Definition detect_nodata (data : list (list float)) (declared : option float)
  : result (option float) :=
  match declared with
  | Some v => Ok (Some v)
  | None =>
      let data_flat := concat data in
      let data_flat := filter is_finite data_flat in
      if (0 <? length data_flat)%nat then
        q1 <- percentile data_flat 1 ;;
        q99 <- percentile data_flat 99 ;;
        m <- amin data_flat ;;
        if m <? q1 - 100 * (q99 - q1) then
          let reasonable_min := q1 - 10 * (q99 - q1) in
          Ok (Some reasonable_min)
        else Ok None
      else Ok None
  end.

(** The sum of an array, taken from left to right.  (numpy adds in blocks, in
    an order of its own; for one or two elements every order gives this
    sum.) *)
Definition np_sum (l : list float) : float :=
  match l with
  | [] => 0
  | x :: l' => fold_left add l' x
  end.

Definition np_mean (l : list float) : float := np_sum l / of_nat (length l).

(** The variance with [ddof] delta degrees of freedom, as [np.var] and
    [Series.var] compute it: the squared deviations from the mean, summed and
    divided by [n - ddof]. *)
Definition variance (ddof : nat) (l : list float) : float :=
  let arrmean := np_mean l in
  let x := map (fun a => a - arrmean) l in
  let x := map (fun d => d * d) x in
  np_sum x / of_nat (length l - ddof).

(** [np.std(valid_data)] of the raster analyzer and of the statistics
    chart. *)
Definition np_std (l : list float) : float := sqrt (variance 0 l).

(** The [std] row of [describe()] in the table analyzer. *)
Definition pd_std (l : list float) : float := sqrt (variance 1 l).

End B64.

(* ------------------------------------------------------------------ *)
(** * Raster analysis *)

(** [str] of an integer. *)
Definition str_Z (z : Z) : string :=
  DecimalString.NilZero.string_of_int (Z.to_int z).

Record tif_summary : Type := {
  dimensions : string;
  s_bands : Z;
  s_crs : string;
  data_type : string;
  valid_pixels : nat;
  total_pixels : nat
}.

Record stats5 : Type := {
  st_min : f64;
  st_max : f64;
  st_mean : f64;
  st_median : f64;
  st_std : ext R
}.

(** The insight strings, before their numbers are formatted into text. *)
Inductive insight : Type :=
| MissingValues (n : nat)
| DuplicateRows (n : nat)
| NumericColumns (n : nat)
| CategoricalColumns (n : nat)
| SpatialNoData (nodata_count : nat)
| SpatialRaster
| DataRange (lo hi : f64).

Definition five_stats (l : list f64) : result stats5 :=
  mn <- Stats.np_min l ;;
  mx <- Stats.np_max l ;;
  Ok {| st_min := mn;
        st_max := mx;
        st_mean := Stats.np_mean l;
        st_median := Stats.np_median l;
        st_std := Stats.np_std l |}.

Record tif_analysis : Type := {
  ta_summary : tif_summary;
  ta_numeric_summary : option stats5;
  ta_insights : list insight
}.

(** [raster_data[raster_data != nodata]] when a sentinel is known, the raster
    itself otherwise. *)
Definition tif_valid_data (d : tif_data) : ndarray :=
  let raster_data := Arr2 (data d) in
  match nodata (metadata d) with
  | Some nd => Np.select (fun c => F64.neb c nd) raster_data
  | None => raster_data
  end.

Definition _analyze_tif_data (d : tif_data) : result tif_analysis :=
  let raster_data := Arr2 (data d) in
  let metadata := metadata d in
  let valid_data := tif_valid_data d in
  let summary :=
    {| dimensions := str_Z (width metadata) ++ " × " ++ str_Z (height metadata);
       s_bands := bands metadata;
       s_crs := crs metadata;
       data_type := dtype metadata;
       valid_pixels := Np.len valid_data;
       total_pixels := Np.size raster_data |} in
  numeric_summary <-
    (if (0 <? Np.len valid_data)%nat
     then st <- five_stats (Np.flatten valid_data) ;; Ok (Some st)
     else Ok None) ;;
  let insights :=
    match nodata metadata with
    | Some nd =>
        [SpatialNoData
           (length (filter (fun c => F64.eqb c nd) (Np.flatten raster_data)))]
    | None => [SpatialRaster]
    end in
  let insights :=
    match numeric_summary with
    | Some st => insights ++ [DataRange (st_min st) (st_max st)]
    | None => insights
    end in
  Ok {| ta_summary := summary;
        ta_numeric_summary := numeric_summary;
        ta_insights := insights |}.

(* ------------------------------------------------------------------ *)
(** * Tables *)

(** A column is numeric or holds objects (text); a missing cell is [None].
    Every column of a table has the same number of cells. *)
Inductive column_data : Type :=
| NumCol (vals : list (option Q))
| ObjCol (vals : list (option string)).

Record column : Type := {
  col_name : string;
  col_data : column_data
}.

Definition DataFrame : Type := list column.

(* ------------------------------------------------------------------ *)
(** * Charts *)

(** A chart object, kept as the arguments it is built from. *)
Inductive fig : Type :=
| Heatmap (z : grid) (x y : list Q) (zmin zmax : Q) (title : string)
| Bar (x : list string) (y : stats5) (title : string)
| Histogram (x : list f64) (nbinsx : Z) (title : string)
| PxHistogram (frame : DataFrame) (x : string) (title : string)
| PxImshow (frame : DataFrame) (title : string)
| PxBar (x : list string) (y : list nat) (title : string).

Record visualization : Type := {
  vtype : string;
  vtitle : string;
  plotly_fig : fig
}.

(* ------------------------------------------------------------------ *)
(** * The global random generator of numpy *)

Module Random.

(** [l[i] = v], for an index inside the list. *)
Fixpoint update {A : Type} (i : nat) (v : A) (l : list A) {struct l}
  : list A :=
  match l, i with
  | [], _ => []
  | _ :: t, O => v :: t
  | h :: t, S i' => h :: update i' v t
  end.

(** [x[i], x[j] = x[j], x[i]] *)
Definition swap (x : list nat) (i j : nat) : list nat :=
  let xi := nth i x O in
  let xj := nth j x O in
  update j xi (update i xj x).

(** The generator is a stream of raw draws; [rng i mod (i + 1)] is the
    bounded draw [random_interval(i)] taken at step [i] of a shuffle. *)
Definition generator : Type := nat -> nat.

(** [shuffle]: for [i] from [n - 1] down to 1, swap position [i] with a
    position drawn from [0..i]. *)
Fixpoint shuffle_down (rng : generator) (i : nat) (x : list nat) : list nat :=
  match i with
  | O => x
  | S i' => shuffle_down rng i' (swap x i (rng i mod S i))
  end.

(** [permutation(n)]: a shuffled [arange(n)]. *)
Definition permutation (rng : generator) (n : nat) : list nat :=
  shuffle_down rng (n - 1) (seq 0 n).

(** [np.random.choice(n, size, replace=False)]: the first [size] entries of
    a random permutation of [arange(n)]; a sample larger than the
    population raises. *)
Definition choice (rng : generator) (n size : nat) : result (list nat) :=
  if (n <? size)%nat then Raise ValueError
  else Ok (firstn size (permutation rng n)).

End Random.

(** [a[indices]] on a one-dimensional array. *)
Fixpoint take_indices (a : list f64) (indices : list nat) : result (list f64) :=
  match indices with
  | [] => Ok []
  | i :: rest =>
      match nth_error a i with
      | Some v => t <- take_indices a rest ;; Ok (v :: t)
      | None => Raise IndexError
      end
  end.

(* ------------------------------------------------------------------ *)
(** * Raster charts *)

(** [l[::step]] *)
Fixpoint every_from (step skip : nat) {A : Type} (l : list A) : list A :=
  match l with
  | [] => []
  | x :: t =>
      match skip with
      | O => x :: every_from step (step - 1) t
      | S k => every_from step k t
      end
  end.

Definition every (step : nat) {A : Type} (l : list A) : list A :=
  every_from step 0 l.

(** [np.linspace(start, stop, num)] *)
Definition linspace (start stop : Q) (num : nat) : list Q :=
  map (fun i => start + inject_Z (Z.of_nat i)
                        * ((stop - start) / inject_Z (Z.of_nat (num - 1))))
      (seq 0 num).

(** The number of columns of a grid (taken from its first row). *)
Definition ncols (g : grid) : nat :=
  match g with
  | [] => O
  | r :: _ => length r
  end.

Definition minus_1e10 : f64 := Fin (-10000000000 # 1).
Definition plus_1e10 : f64 := Fin (10000000000 # 1).

(** The cell-wise mask of the heatmap. *)
Definition heatmap_mask (nodata_value : option f64) (c : f64) : bool :=
  match nodata_value with
  | Some nd => F64.neb c nd && F64.gtb c minus_1e10 && F64.ltb c plus_1e10
  | None => F64.gtb c minus_1e10 && F64.ltb c plus_1e10 && F64.isfinite c
  end.

(** The cell-wise mask of the statistics chart and the histogram. *)
Definition valid_mask (nodata_value : option f64) (c : f64) : bool :=
  match nodata_value with
  | Some nd =>
      F64.neb c nd && F64.gtb c minus_1e10 && F64.ltb c plus_1e10
      && F64.isfinite c
  | None => F64.gtb c minus_1e10 && F64.ltb c plus_1e10 && F64.isfinite c
  end.

(** The cells the histogram is drawn from. *)
Definition histogram_data (rng : Random.generator) (valid_data : list f64)
  : result (list f64) :=
  if (100000 <? Z.of_nat (length valid_data))%Z then
    sample_indices <-
      Random.choice rng (length valid_data) (Z.to_nat 100000) ;;
    take_indices valid_data sample_indices
  else Ok valid_data.

Definition _create_tif_visualizations
  (rng : Random.generator) (d : tif_data) (file_name : string)
  : list visualization :=
  let viz := [] in
  let raster_data := data d in
  let nodata_value := nodata (metadata d) in
  (* Heatmap *)
  let clean_data :=
    map (map (fun c => if heatmap_mask nodata_value c then c else NaN))
        raster_data in
  let step := 4%nat in
  let sample_data := every step (map (every step) clean_data) in
  let x_coords :=
    linspace 0 (inject_Z (Z.of_nat (ncols sample_data))) (ncols sample_data) in
  let y_coords :=
    linspace 0 (inject_Z (Z.of_nat (length sample_data))) (length sample_data) in
  let valid_sample := filter F64.isfinite (concat sample_data) in
  let viz :=
    if (0 <? length valid_sample)%nat then
      viz ++ [{| vtype := "heatmap";
                 vtitle := "Spatial Vulnerability Heatmap";
                 plotly_fig :=
                   Heatmap sample_data x_coords y_coords 6 12
                     ("Spatial Vulnerability Heatmap - " ++ file_name) |}]
    else viz in
  (* Statistics chart *)
  let valid_data := filter (valid_mask nodata_value) (concat raster_data) in
  let viz :=
    match
      (if (0 <? length valid_data)%nat then
         stats <- five_stats valid_data ;;
         Ok (viz ++ [{| vtype := "statistics";
                        vtitle := "Vulnerability Data Statistics";
                        plotly_fig :=
                          Bar ["Min"; "Max"; "Mean"; "Median"; "Std Dev"]%string stats
                            ("Vulnerability Data Statistics - " ++ file_name) |}])
       else Ok viz)
    with
    | Ok viz' => viz'
    | Raise _ => viz
    end in
  (* Data distribution histogram *)
  let viz :=
    match
      (if (0 <? length valid_data)%nat then
         hist_data <- histogram_data rng valid_data ;;
         Ok (viz ++ [{| vtype := "histogram";
                        vtitle := "Vulnerability Score Distribution";
                        plotly_fig :=
                          Histogram hist_data 50
                            ("Vulnerability Score Distribution - " ++ file_name) |}])
       else Ok viz)
    with
    | Ok viz' => viz'
    | Raise _ => viz
    end in
  viz.

(* ------------------------------------------------------------------ *)
(** * Table analysis *)

Module Pd.

Inductive cell : Type :=
| CNum (q : Q)
| CStr (s : string)
| CNull.

Definition cells (c : column) : list cell :=
  match col_data c with
  | NumCol vals =>
      map (fun v => match v with Some q => CNum q | None => CNull end) vals
  | ObjCol vals =>
      map (fun v => match v with Some s => CStr s | None => CNull end) vals
  end.

Definition nrows (df : DataFrame) : nat :=
  match df with
  | [] => O
  | c :: _ => length (cells c)
  end.

(** [df.shape] *)
Definition shape (df : DataFrame) : nat * nat := (nrows df, length df).

(** The rows of a table, each the tuple of its cells across all columns. *)
Definition row (df : DataFrame) (i : nat) : list cell :=
  map (fun c => nth i (cells c) CNull) df.

Definition rows (df : DataFrame) : list (list cell) :=
  map (row df) (seq 0 (nrows df)).

(** Two missing cells count as equal when rows are compared. *)
Definition cell_eqb (a b : cell) : bool :=
  match a, b with
  | CNum x, CNum y => Qeq_bool x y
  | CStr x, CStr y => String.eqb x y
  | CNull, CNull => true
  | _, _ => false
  end.

Fixpoint row_eqb (r1 r2 : list cell) : bool :=
  match r1, r2 with
  | [], [] => true
  | a :: r1', b :: r2' => cell_eqb a b && row_eqb r1' r2'
  | _, _ => false
  end.

(** [df.duplicated()]: a row is marked when an earlier row equals it. *)
Fixpoint duplicated_from (seen rs : list (list cell)) : list bool :=
  match rs with
  | [] => []
  | r :: rest =>
      existsb (row_eqb r) seen :: duplicated_from (seen ++ [r]) rest
  end.

Definition duplicated (df : DataFrame) : list bool :=
  duplicated_from [] (rows df).

(** [.sum()] of a boolean series *)
Definition count_true (l : list bool) : nat := length (filter (fun b : bool => b) l).

Definition is_null (c : cell) : bool :=
  match c with CNull => true | _ => false end.

(** [df.isnull().sum()] *)
Definition isnull_sum (df : DataFrame) : list (string * nat) :=
  map (fun c => (col_name c, length (filter is_null (cells c)))) df.

Inductive dtype : Type := number | object.

Definition dtype_of (c : column) : dtype :=
  match col_data c with
  | NumCol _ => number
  | ObjCol _ => object
  end.

(** [df.select_dtypes(include=[np.number])] and
    [df.select_dtypes(include=['object', 'category'])] *)
Definition select_number (df : DataFrame) : DataFrame :=
  filter (fun c => match col_data c with NumCol _ => true | _ => false end) df.

Definition select_object (df : DataFrame) : DataFrame :=
  filter (fun c => match col_data c with ObjCol _ => true | _ => false end) df.

(** The values of a column that are not missing. *)
Fixpoint present {A : Type} (vals : list (option A)) : list A :=
  match vals with
  | [] => []
  | Some v :: t => v :: present t
  | None :: t => present t
  end.

Definition numbers (c : column) : list Q :=
  match col_data c with
  | NumCol vals => present vals
  | ObjCol _ => []
  end.

Definition objects (c : column) : list string :=
  match col_data c with
  | NumCol _ => []
  | ObjCol vals => present vals
  end.

(** [Series.quantile]: linear interpolation, not-a-number when empty. *)
Definition quantile (xs : list Q) (p : Q) : f64 :=
  match Np.percentile xs p with
  | Ok q => Fin q
  | Raise _ => NaN
  end.

Definition series_min (xs : list f64) : f64 :=
  match Stats.np_min xs with Ok v => v | Raise _ => NaN end.

Definition series_max (xs : list f64) : f64 :=
  match Stats.np_max xs with Ok v => v | Raise _ => NaN end.

Record describe_row : Type := {
  d_count : nat;
  d_mean : f64;
  d_std : ext R;
  d_min : f64;
  d_q25 : f64;
  d_q50 : f64;
  d_q75 : f64;
  d_max : f64
}.

(** One column of [df.describe()]: missing values are skipped. *)
Definition describe_column (c : column) : describe_row :=
  let xs := numbers c in
  let fx := map Fin xs in
  {| d_count := length xs;
     d_mean := Stats.np_mean fx;
     d_std := Stats.pd_std fx;
     d_min := series_min fx;
     d_q25 := quantile xs 25;
     d_q50 := quantile xs 50;
     d_q75 := quantile xs 75;
     d_max := series_max fx |}.

Definition describe (df : DataFrame) : list (string * describe_row) :=
  map (fun c => (col_name c, describe_column c)) df.

(** The distinct values in first-encountered order. *)
Fixpoint uniques_from (seen xs : list string) : list string :=
  match xs with
  | [] => []
  | x :: t =>
      if existsb (String.eqb x) seen then uniques_from seen t
      else x :: uniques_from (seen ++ [x]) t
  end.

Definition uniques (xs : list string) : list string := uniques_from [] xs.

(** [Series.nunique()] *)
Definition nunique (c : column) : nat := length (uniques (objects c)).

(** [Series.value_counts()]: the distinct values with their counts, most
    frequent first; equal counts keep their first-encountered order. *)
Definition value_counts (c : column) : list (string * nat) :=
  let xs := objects c in
  Np.sort_by (fun a b => (snd b <=? snd a)%nat)
    (map (fun u => (u, length (filter (String.eqb u) xs))) (uniques xs)).

End Pd.

Record tabular_summary : Type := {
  shape : nat * nat;
  columns : list string;
  dtypes : list (string * Pd.dtype);
  missing_values : list (string * nat);
  duplicates : nat
}.

Record categorical_entry : Type := {
  unique_values : nat;
  top_values : list (string * nat)
}.

Record tabular_analysis : Type := {
  tb_summary : tabular_summary;
  tb_numeric_summary : option (list (string * Pd.describe_row));
  tb_categorical_summary : option (list (string * categorical_entry));
  tb_insights : list insight
}.

Definition sum_nat (l : list nat) : nat := fold_right Nat.add O l.

(** [_analyze_tabular_data].  The summary entry [memory_usage], the byte
    size of the in-memory layout, is left out. *)
Definition _analyze_tabular_data (data : DataFrame) : tabular_analysis :=
  let summary :=
    {| shape := Pd.shape data;
       columns := map col_name data;
       dtypes := map (fun c => (col_name c, Pd.dtype_of c)) data;
       missing_values := Pd.isnull_sum data;
       duplicates := Pd.count_true (Pd.duplicated data) |} in
  let insights := [] in
  let missing := sum_nat (map snd (Pd.isnull_sum data)) in
  let insights :=
    if (0 <? missing)%nat then insights ++ [MissingValues missing]
    else insights in
  let dups := Pd.count_true (Pd.duplicated data) in
  let insights :=
    if (0 <? dups)%nat then insights ++ [DuplicateRows dups] else insights in
  let numeric_cols := Pd.select_number data in
  let numeric_summary :=
    if (0 <? length numeric_cols)%nat then Some (Pd.describe numeric_cols)
    else None in
  let insights :=
    if (0 <? length numeric_cols)%nat
    then insights ++ [NumericColumns (length numeric_cols)]
    else insights in
  let categorical_cols := Pd.select_object data in
  let categorical_summary :=
    if (0 <? length categorical_cols)%nat then
      Some (map (fun col =>
                   (col_name col,
                    {| unique_values := Pd.nunique col;
                       top_values := firstn 5 (Pd.value_counts col) |}))
                categorical_cols)
    else None in
  let insights :=
    if (0 <? length categorical_cols)%nat
    then insights ++ [CategoricalColumns (length categorical_cols)]
    else insights in
  {| tb_summary := summary;
     tb_numeric_summary := numeric_summary;
     tb_categorical_summary := categorical_summary;
     tb_insights := insights |}.

(** [_create_tabular_visualizations] when no chart construction raises: the
    chart objects here are total, so every attempted chart is emitted.  The
    [try] blocks around the constructions are modelled in [Guarded] below. *)
Definition _create_tabular_visualizations (data : DataFrame) (file_name : string)
  : list visualization :=
  let viz := [] in
  let numeric_cols := map col_name (Pd.select_number data) in
  let viz :=
    if (0 <? length numeric_cols)%nat then
      let viz :=
        viz ++ map (fun col =>
                      {| vtype := "histogram";
                         vtitle := "Distribution of " ++ col;
                         plotly_fig :=
                           PxHistogram data col ("Distribution of " ++ col) |})
                   (firstn 3 numeric_cols) in
      if (1 <? length numeric_cols)%nat then
        viz ++ [{| vtype := "correlation";
                   vtitle := "Correlation Matrix";
                   plotly_fig :=
                     PxImshow (Pd.select_number data) "Correlation Matrix" |}]
      else viz
    else viz in
  let categorical_cols := Pd.select_object data in
  let viz :=
    if (0 <? length categorical_cols)%nat then
      viz ++ map (fun col =>
                    let value_counts := firstn 10 (Pd.value_counts col) in
                    {| vtype := "bar";
                       vtitle := "Top Values in " ++ col_name col;
                       plotly_fig :=
                         PxBar (map fst value_counts) (map snd value_counts)
                           ("Top Values in " ++ col_name col) |})
                 (firstn 2 categorical_cols)
    else viz in
  viz.

(** [_create_tabular_visualizations] with its [try] blocks.  The chart
    constructions are calls into plotly and pandas that can raise (for
    instance [value_counts] on cells that cannot be hashed): a chart whose
    construction raises is skipped, and the function goes on with the next
    one. *)
Module Guarded.

Section Charts.

(** [px.histogram(data, x=col, title=...)]. *)
Variable px_histogram : DataFrame -> string -> string -> result fig.

(** [data[numeric_cols].corr()] followed by [px.imshow(..., title=...)]. *)
Variable px_imshow_corr : DataFrame -> string -> result fig.

(** [data[col].value_counts().head(10)] followed by
    [px.bar(..., title=...)]. *)
Variable px_bar_counts : column -> string -> result fig.

(** One [try] block: the chart is appended when its construction returns. *)
Definition attempt (viz : list visualization) (type title : string)
  (construction : result fig) : list visualization :=
  match construction with
  | Ok f => viz ++ [{| vtype := type; vtitle := title; plotly_fig := f |}]
  | Raise _ => viz
  end.

Definition _create_tabular_visualizations (data : DataFrame)
  (file_name : string) : list visualization :=
  let viz := [] in
  let numeric_cols := map col_name (Pd.select_number data) in
  let viz :=
    if (0 <? length numeric_cols)%nat then
      let viz :=
        fold_left
          (fun viz col =>
             attempt viz "histogram" ("Distribution of " ++ col)
               (px_histogram data col ("Distribution of " ++ col)))
          (firstn 3 numeric_cols) viz in
      if (1 <? length numeric_cols)%nat then
        attempt viz "correlation" "Correlation Matrix"
          (px_imshow_corr (Pd.select_number data) "Correlation Matrix")
      else viz
    else viz in
  let categorical_cols := Pd.select_object data in
  let viz :=
    if (0 <? length categorical_cols)%nat then
      fold_left
        (fun viz col =>
           attempt viz "bar" ("Top Values in " ++ col_name col)
             (px_bar_counts col ("Top Values in " ++ col_name col)))
        (firstn 2 categorical_cols) viz
    else viz in
  viz.

End Charts.

End Guarded.

(* ------------------------------------------------------------------ *)
(** * The analyzer: its state and the per-file pipeline *)

Record file_info : Type := {
  path : string;
  type : string;
  size : Z;
  modified : Q
}.

Inductive dataset : Type :=
| Table (df : DataFrame)
| Raster (d : tif_data).

Inductive analysis_body : Type :=
| TabularA (a : tabular_analysis)
| TifA (a : tif_analysis).

(** One analysis record.  [body] holds the entries that
    [_analyze_tabular_data] or [_analyze_tif_data] put into the record. *)
Record analysis : Type := {
  file_name : string;
  file_type : string;
  body : analysis_body;
  visualizations : list visualization
}.

(** [analysis['visualizations'] = visualizations] *)
Definition set_visualizations (a : analysis) (v : list visualization)
  : analysis :=
  {| file_name := file_name a;
     file_type := file_type a;
     body := body a;
     visualizations := v |}.

(** The two dictionaries held by the analyzer object, in insertion order. *)
Record analyzer : Type := {
  data_files : list (string * file_info);
  analysis_results : list (string * analysis)
}.

(** [d[key] = value]: an existing key keeps its place. *)
Fixpoint dict_set {V : Type} (key : string) (value : V)
  (d : list (string * V)) : list (string * V) :=
  match d with
  | [] => [(key, value)]
  | (k, v) :: rest =>
      if String.eqb k key then (k, value) :: rest
      else (k, v) :: dict_set key value rest
  end.

Fixpoint dict_get {V : Type} (key : string) (d : list (string * V)) : option V :=
  match d with
  | [] => None
  | (k, v) :: rest => if String.eqb k key then Some v else dict_get key rest
  end.

Section Pipeline.

(** The decoders: the table readers of pandas, by type tag and path, and
    the raster reader. *)
Variable read_table : string -> string -> result DataFrame.
Variable rasterio_open : string -> result raster_src.
Variable rng : Random.generator.

(** [_read_tif_file]: any exception is caught and the read yields
    nothing. *)
Definition _read_tif_file (file_path : string) : option tif_data :=
  match
    (src <- rasterio_open file_path ;;
     nodata_value <- detect_nodata (src_band1 src) (src_nodata src) ;;
     Ok {| data := src_band1 src;
           metadata := {| width := src_width src;
                          height := src_height src;
                          bands := src_count src;
                          crs := src_crs src;
                          nodata := nodata_value;
                          dtype := src_dtype src |} |})
  with
  | Ok d => Some d
  | Raise _ => None
  end.

Definition table_types : list string :=
  ["csv"; "excel"; "json"; "parquet"; "pickle"; "hdf5"]%string.

Definition read_data_file (file_path file_type : string) : option dataset :=
  match
    (if existsb (String.eqb file_type) table_types then
       df <- read_table file_type file_path ;; Ok (Some (Table df))
     else if String.eqb file_type "tif" then
       Ok (option_map Raster (_read_tif_file file_path))
     else Raise ValueError)
  with
  | Ok d => d
  | Raise _ => None
  end.

(** [analyze_data] stores the record under the file name and returns it. *)
Definition analyze_data (self : analyzer) (data : dataset)
  (file_name file_type : string) : result (analysis * analyzer) :=
  b <- (if String.eqb file_type "tif" then
          match data with
          | Raster d => a <- _analyze_tif_data d ;; Ok (TifA a)
          | Table _ => Raise TypeError
          end
        else
          match data with
          | Table df => Ok (TabularA (_analyze_tabular_data df))
          | Raster _ => Raise TypeError
          end) ;;
  let analysis := {| file_name := file_name;
                     file_type := file_type;
                     body := b;
                     visualizations := [] |} in
  Ok (analysis,
      {| data_files := data_files self;
         analysis_results :=
           dict_set file_name analysis (analysis_results self) |}).

Definition create_visualizations (data : dataset)
  (file_name file_type : string) : result (list visualization) :=
  if String.eqb file_type "tif" then
    match data with
    | Raster d => Ok (_create_tif_visualizations rng d file_name)
    | Table _ => Raise TypeError
    end
  else
    match data with
    | Table df => Ok (_create_tabular_visualizations df file_name)
    | Raster _ => Raise TypeError
    end.

(** One turn of the loop of [run_full_analysis].  The record returned by
    [analyze_data] is the object stored in [analysis_results], so the
    assignment to its ['visualizations'] entry changes the stored record. *)
Definition process_file (self : analyzer) (entry : string * file_info)
  : result analyzer :=
  let (file_name, file_info) := entry in
  match read_data_file (path file_info) (type file_info) with
  | None => Ok self
  | Some data =>
      r <- analyze_data self data file_name (type file_info) ;;
      let (analysis, self) := r in
      visualizations <-
        create_visualizations data file_name (type file_info) ;;
      let analysis := set_visualizations analysis visualizations in
      Ok {| data_files := data_files self;
            analysis_results :=
              dict_set file_name analysis (analysis_results self) |}
  end.

Fixpoint process_files (self : analyzer) (entries : list (string * file_info))
  : result analyzer :=
  match entries with
  | [] => Ok self
  | e :: rest => self' <- process_file self e ;; process_files self' rest
  end.

End Pipeline.

(* ------------------------------------------------------------------ *)
(** * The report *)

(** The values found in a summary dictionary. *)
#[local] Unset Elimination Schemes.
Inductive pyval : Type :=
| VInt (z : Z)
| VFloat (x : f64)
| VStr (s : string)
| VNpInt (z : Z)
| VDtype (d : Pd.dtype)
| VTuple (items : list pyval)
| VList (items : list pyval)
| VDict (items : list (string * pyval)).
#[local] Set Elimination Schemes.

Definition VNat (n : nat) : pyval := VInt (Z.of_nat n).

(** [analysis['summary']], entry by entry. *)
Definition summary_items (b : analysis_body) : list (string * pyval) :=
  match b with
  | TifA a =>
      let s := ta_summary a in
      [("dimensions", VStr (dimensions s));
       ("bands", VInt (s_bands s));
       ("crs", VStr (s_crs s));
       ("data_type", VStr (data_type s));
       ("valid_pixels", VNat (valid_pixels s));
       ("total_pixels", VNat (total_pixels s))]%string
  | TabularA a =>
      let s := tb_summary a in
      [("shape", VTuple [VNat (fst (shape s)); VNat (snd (shape s))]);
       ("columns", VList (map VStr (columns s)));
       ("dtypes", VDict (map (fun kv => (fst kv, VDtype (snd kv))) (dtypes s)));
       ("missing_values",
        VDict (map (fun kv => (fst kv, VNat (snd kv))) (missing_values s)));
       ("duplicates", VNpInt (Z.of_nat (duplicates s)))]%string
  end.

(** The state outside the analyzer object: how many identifiers have been
    drawn from the process's random source, and the files written. *)
Record world : Type := {
  uuid_drawn : nat;
  files : list (string * string)
}.

(** The double-quote character. *)
Definition dq : string := String (ascii_of_nat 34) EmptyString.

(** [s.replace(a, b)] for single characters. *)
Fixpoint replace_char (a b : ascii) (s : string) : string :=
  match s with
  | EmptyString => EmptyString
  | String c rest =>
      String (if Ascii.eqb c a then b else c) (replace_char a b rest)
  end.

Definition str_nat (n : nat) : string := str_Z (Z.of_nat n).

Definition sum_Z (l : list Z) : Z := fold_right Z.add 0%Z l.

Definition join (l : list string) : string :=
  fold_right String.append EmptyString l.

(** The markup below is the source's, without its indentation and line
    breaks; class attributes are written with single quotes. *)
Section Dashboard.

#[local] Open Scope string_scope.

(** The chart serializer of plotly, given the identifier of the enclosing
    element.  [pio.to_html] is called without an identifier and draws a
    fresh random one ([uuid4]) on every call. *)
Variable plot_div : string -> fig -> string.
Variable uuid4 : nat -> string.

(** Number and text formatting of Python: [f"{n:,}"], [f"{x:.kf}"],
    [str(v)] and [s.title()]. *)
Variable format_grouped : Z -> string.
Variable format_fixed : nat -> f64 -> string.
Variable py_str : pyval -> string.
Variable py_title : string -> string.

(** The fixed parts of the page template, which hold no placeholder. *)
Variable page_prologue : string.
Variable page_banner : string.
Variable page_epilogue : string.

Definition to_html (f : fig) (w : world) : string * world :=
  (plot_div (uuid4 (uuid_drawn w)) f,
   {| uuid_drawn := S (uuid_drawn w); files := files w |}).

Definition display_value (v : pyval) : string :=
  match v with
  | VInt z => format_grouped z
  | VFloat x => format_fixed 4 x
  | _ => py_str v
  end.

Definition summary_item (key : string) (v : pyval) : string :=
  "<div class='summary-item'><h4>"
  ++ py_title (replace_char "_" " " key)
  ++ "</h4><div class='value'>" ++ display_value v ++ "</div></div>".

(** [_create_summary_html]: one level of nesting is flattened. *)
Definition _create_summary_html (a : analysis) : string :=
  let summary_items :=
    flat_map (fun kv =>
                match snd kv with
                | VDict sub =>
                    map (fun skv => summary_item (fst skv) (snd skv)) sub
                | v => [summary_item (fst kv) v]
                end)
             (summary_items (body a)) in
  "<h3>File Summary</h3><div class='summary-grid'>"
  ++ join summary_items ++ "</div>".

(** The first loop of [generate_dashboard]: every chart of every record is
    serialized once. *)
Fixpoint viz_html_entries (name : string) (vs : list visualization)
  (w : world) : list (string * string * string) * world :=
  match vs with
  | [] => ([], w)
  | viz :: rest =>
      let (html, w1) := to_html (plotly_fig viz) w in
      let (tl, w2) := viz_html_entries name rest w1 in
      ((name, vtitle viz, html) :: tl, w2)
  end.

Fixpoint all_viz_entries (results : list (string * analysis)) (w : world)
  : list (string * string * string) * world :=
  match results with
  | [] => ([], w)
  | (name, a) :: rest =>
      let (hd, w1) := viz_html_entries name (visualizations a) w in
      let (tl, w2) := all_viz_entries rest w1 in
      ((hd ++ tl)%list, w2)
  end.

Definition nav_link (name : string) : string :=
  "<a href=" ++ dq ++ "#" ++ replace_char "." "_" name ++ dq ++ ">"
  ++ name ++ "</a>".

(** The charts of one section, each serialized a second time. *)
Fixpoint charts_html (vs : list visualization) (w : world) : string * world :=
  match vs with
  | [] => (EmptyString, w)
  | viz :: rest =>
      let (html, w1) := to_html (plotly_fig viz) w in
      let (tl, w2) := charts_html rest w1 in
      ("<div class='chart'><h3>" ++ vtitle viz
       ++ "</h3><div class='chart-container'>" ++ html ++ "</div></div>"
       ++ tl, w2)
  end.

Definition section_html (name : string) (a : analysis) (w : world)
  : string * world :=
  let section_id := replace_char "." "_" name in
  let summary_html := _create_summary_html a in
  let (viz_html, w1) :=
    match visualizations a with
    | [] =>
        ("<div class='no-viz'><p>No visualizations available for this file type.</p></div>",
         w)
    | vs => charts_html vs w
    end in
  ("<section id=" ++ dq ++ section_id ++ dq ++ " class='section'><h2>"
   ++ name ++ "</h2><div class='file-summary'>" ++ summary_html ++ "</div>"
   ++ viz_html ++ "</section>", w1).

Fixpoint sections_html (results : list (string * analysis)) (w : world)
  : string * world :=
  match results with
  | [] => (EmptyString, w)
  | (name, a) :: rest =>
      let (hd, w1) := section_html name a w in
      let (tl, w2) := sections_html rest w1 in
      (hd ++ tl, w2)
  end.

(** The four figures of the "Analysis Overview" block. *)
Record overview : Type := {
  files_analyzed : nat;
  file_types : nat;
  total_size : Z;
  visualizations_count : nat
}.

Definition stat_html (title value : string) : string :=
  "<div class='stat'><h3>" ++ title ++ "</h3><div class='value'>"
  ++ value ++ "</div></div>".

Definition overview_html (o : overview) : string :=
  "<div class='overview'><h2>Analysis Overview</h2><div class='stats-grid'>"
  ++ stat_html "Files Analyzed" (str_nat (files_analyzed o))
  ++ stat_html "File Types" (str_nat (file_types o))
  ++ stat_html "Total Size"
       (format_fixed 1 (Fin (inject_Z (total_size o) / 1024 / 1024)) ++ " MB")
  ++ stat_html "Visualizations" (str_nat (visualizations_count o))
  ++ "</div></div>".

(** The figures as [generate_dashboard] computes them. *)
Definition dashboard_overview (self : analyzer)
  (all_viz_html : list (string * string * string)) : overview :=
  {| files_analyzed := length (data_files self);
     file_types :=
       length (nodup string_dec
                 (map (fun f => type (snd f)) (data_files self)));
     total_size := sum_Z (map (fun f => size (snd f)) (data_files self));
     visualizations_count := length all_viz_html |}.

(** [generate_dashboard]: the page, the analyzer object after the call and
    the world after the call. *)
Definition generate_dashboard (self : analyzer) (output_file : string)
  (w : world) : string * analyzer * world :=
  let (all_viz_html, w1) := all_viz_entries (analysis_results self) w in
  let nav_links :=
    join (map (fun r => nav_link (fst r)) (analysis_results self)) in
  let (dashboard_sections, w2) := sections_html (analysis_results self) w1 in
  let html_content :=
    page_prologue ++ nav_links ++ page_banner
    ++ overview_html (dashboard_overview self all_viz_html)
    ++ dashboard_sections ++ page_epilogue in
  (output_file, self,
   {| uuid_drawn := uuid_drawn w2;
      files := dict_set output_file html_content (files w2) |}).

(** The document written by a call. *)
Definition rendered (self : analyzer) (output_file : string) (w : world)
  : option string :=
  let '(_, _, w') := generate_dashboard self output_file w in
  dict_get output_file (files w').

Variable read_table : string -> string -> result DataFrame.
Variable rasterio_open : string -> result raster_src.
Variable rng : Random.generator.

(** [run_full_analysis], with the outcome of [discover_data_files] given. *)
Definition run_full_analysis (discovered : list (string * file_info))
  (self : analyzer) (w : world) : result (option string * analyzer * world) :=
  let self := {| data_files := discovered;
                 analysis_results := analysis_results self |} in
  match data_files self with
  | [] => Ok (None, self, w)
  | _ =>
      self <- process_files read_table rasterio_open rng self
                (data_files self) ;;
      let '(output_file, self, w) :=
        generate_dashboard self "universal_dashboard.html" w in
      Ok (Some output_file, self, w)
  end.

End Dashboard.

(* ------------------------------------------------------------------ *)
(** * Discovery *)

(** One entry of the folder listing, as [glob], [is_file], [suffix] and
    [stat] report it. *)
Record dir_entry : Type := {
  entry_path : string;
  entry_name : string;
  entry_suffix : string;
  entry_is_file : bool;
  st_size : Z;
  st_mtime : Q
}.

(** The optional decoding libraries found at import time. *)
Record capabilities : Type := {
  TIF_SUPPORT : bool;
  EXCEL_SUPPORT : bool;
  PARQUET_SUPPORT : bool
}.

(** [s.lower()], on ASCII letters. *)
Definition lower_ascii (c : ascii) : ascii :=
  let n := nat_of_ascii c in
  if ((65 <=? n) && (n <=? 90))%nat then ascii_of_nat (n + 32) else c.

Fixpoint lower (s : string) : string :=
  match s with
  | EmptyString => EmptyString
  | String c rest => String (lower_ascii c) (lower rest)
  end.

Definition supported_extensions (caps : capabilities)
  : list (string * option string) :=
  [ (".csv", Some "csv");
    (".xlsx", if EXCEL_SUPPORT caps then Some "excel" else None);
    (".xls", if EXCEL_SUPPORT caps then Some "excel" else None);
    (".tif", if TIF_SUPPORT caps then Some "tif" else None);
    (".tiff", if TIF_SUPPORT caps then Some "tif" else None);
    (".json", Some "json");
    (".parquet", if PARQUET_SUPPORT caps then Some "parquet" else None);
    (".pkl", Some "pickle");
    (".h5", Some "hdf5") ]%string.

(** One turn of the loop of [discover_data_files]. *)
Definition discover_entry (caps : capabilities)
  (discovered_files : list (string * file_info)) (file_path : dir_entry)
  : list (string * file_info) :=
  if entry_is_file file_path then
    let ext := lower (entry_suffix file_path) in
    match dict_get ext (supported_extensions caps) with
    | Some (Some file_type) =>
        dict_set (entry_name file_path)
          {| path := entry_path file_path;
             type := file_type;
             size := st_size file_path;
             modified := st_mtime file_path |}
          discovered_files
    | _ => discovered_files
    end
  else discovered_files.

(** [discover_data_files], over the listing of the data folder. *)
Definition discover_data_files (caps : capabilities) (listing : list dir_entry)
  : list (string * file_info) :=
  fold_left (discover_entry caps) listing [].

(* ------------------------------------------------------------------ *)
(** * Notions and concrete inputs used by the properties *)

(** [m] is a least element of [l]. *)
Definition is_minimum (m : Q) (l : list Q) : Prop :=
  In m l /\ forall x, In x l -> m <= x.

Definition cell (z : Z) : f64 := Fin (inject_Z z).

Definition as_raster (g : grid) (nd : option f64) : tif_data :=
  {| data := g;
     metadata := {| width := Z.of_nat (ncols g);
                    height := Z.of_nat (length g);
                    bands := 1;
                    crs := "EPSG:4326";
                    nodata := nd;
                    dtype := "float64" |} |}.

Definition grid_4x4 : grid :=
  [ [cell 1; cell 2; cell 3; cell 4];
    [cell 5; cell 6; cell 7; cell (-9999)];
    [cell 9; cell 10; cell 11; cell 12];
    [cell 13; cell 14; cell 15; cell 16] ].

(** The same raster values with cell (1,3) holding 8 and no sentinel. *)
Definition grid_4x4_plain : grid :=
  [ [cell 1; cell 2; cell 3; cell 4];
    [cell 5; cell 6; cell 7; cell 8];
    [cell 9; cell 10; cell 11; cell 12];
    [cell 13; cell 14; cell 15; cell 16] ].

Definition minus_1e9 : f64 := cell (-1000000000).

(** The integers [a], [a+1], ..., [a+n-1] as cells. *)
Definition ramp (a n : nat) : list f64 :=
  map (fun i => cell (Z.of_nat i)) (seq a n).

(** The values 0, 1, ..., 100, evenly spread over [0,100], and one injected
    cell of -1e9: 102 cells in two rows. *)
Definition injected_grid : grid :=
  [ minus_1e9 :: ramp 0 50; ramp 50 51 ].

Definition injected_src : raster_src :=
  {| src_band1 := injected_grid;
     src_nodata := None;
     src_width := 51;
     src_height := 2;
     src_count := 1;
     src_crs := "EPSG:4326";
     src_dtype := "float64" |}.

(** -989.79, that is [q1 - 10·(q99 - q1)] for [q1 = 0.01], [q99 = 98.99]. *)
Definition inferred_threshold : Q := -989790000 # 1000000.

Definition injected_data : tif_data :=
  {| data := injected_grid;
     metadata := {| width := 51;
                    height := 2;
                    bands := 1;
                    crs := "EPSG:4326";
                    nodata := Some (Fin inferred_threshold);
                    dtype := "float64" |} |}.

Definition all_invalid_raster : tif_data :=
  as_raster [ [cell (-9999); NaN]; [PInf; cell (-9999)] ]
            (Some (cell (-9999))).

(** The transposition of two positions. *)
Definition transpose (i j k : nat) : nat :=
  if (k =? j)%nat then i else if (k =? i)%nat then j else k.

(** The chart emitted for the distribution of the cells [x]. *)
Definition distribution_chart (x : list f64) (file_name : string)
  : visualization :=
  {| vtype := "histogram";
     vtitle := "Vulnerability Score Distribution";
     plotly_fig :=
       Histogram x 50 ("Vulnerability Score Distribution - " ++ file_name) |}.

(** The vectors of bounded draws that one shuffle of [m + 1] positions can
    take, each in the order the shuffle takes them: the first entry is the
    draw of step [m], from [0..m], the last the draw of step 1, from
    [0..1]. *)
Fixpoint draw_vectors (m : nat) : list (list nat) :=
  match m with
  | O => [[]]
  | S m' => flat_map (fun d => map (cons d) (draw_vectors m')) (seq 0 (S m))
  end.

(** The generator that hands out the draws of [ds]: step [i] takes the entry
    [length ds - i]. *)
Definition stream_of (ds : list nat) : Random.generator :=
  fun i => nth (length ds - i) ds O.

(** Equality of the outcomes of [choice] is decidable. *)
Definition sample_eq_dec (a b : result (list nat)) : {a = b} + {a <> b}.
Proof.
  decide equality.
  - apply (list_eq_dec Nat.eq_dec).
  - decide equality.
Defined.

(** Equality of arrangements of indices is decidable. *)
Definition arrangement_eq_dec := list_eq_dec Nat.eq_dec.

(** The samples of size [k] over all draw vectors. *)
Definition samples (m : nat) (x : list nat) (k : nat) : list (list nat) :=
  map (fun ds => firstn k (Random.shuffle_down (stream_of ds) m x))
      (draw_vectors m).

(** Membership of an index in a list of indices. *)
Definition mem (a : nat) (t : list nat) : bool := existsb (Nat.eqb a) t.

(** The call returned, it did not raise. *)
Definition succeeds {A : Type} (r : result A) : bool :=
  match r with
  | Ok _ => true
  | Raise _ => false
  end.


(** A raster of one row with 100,001 cells, all holding 5. *)
Definition wide_raster : tif_data :=
  {| data := [repeat (cell 5) (Z.to_nat 100001)];
     metadata := {| width := 100001;
                    height := 1;
                    bands := 1;
                    crs := "EPSG:4326";
                    nodata := None;
                    dtype := "float64" |} |}.

Definition age_column : column :=
  {| col_name := "age"; col_data := NumCol [Some 25; Some 30; Some 25] |}.

Definition city_column : column :=
  {| col_name := "city";
     col_data := ObjCol [Some "A"; Some "B"; Some "A"]%string |}.

Definition people : DataFrame := [age_column; city_column].


(** The number of charts held by the records. *)
Definition total_visualizations (results : list (string * analysis)) : nat :=
  sum_nat (map (fun r => length (visualizations (snd r))) results).

Definition demo_discovered : list (string * file_info) :=
  [ ("cities.csv"%string,
     {| path := "cities.csv"; type := "csv"; size := 10; modified := 0 |});
    ("broken.json"%string,
     {| path := "broken.json"; type := "json"; size := 20; modified := 0 |}) ].

(** The CSV file decodes to a one-column table; the JSON file is corrupt. *)
Definition demo_read_table (file_type file_path : string) : result DataFrame :=
  if String.eqb file_path "cities.csv" then Ok [city_column]
  else Raise IOError.

Definition demo_rasterio_open (file_path : string) : result raster_src :=
  Raise IOError.

Definition demo_rng : Random.generator := fun _ => O.

Definition demo_record : analysis :=
  {| file_name := "cities.csv";
     file_type := "csv";
     body := TabularA (_analyze_tabular_data [city_column]);
     visualizations := _create_tabular_visualizations [city_column] "cities.csv" |}.

Definition demo_state : analyzer :=
  {| data_files := demo_discovered;
     analysis_results := [("cities.csv"%string, demo_record)] |}.

(** The source byte sizes of the records, looked up by file name. *)
Definition record_sizes (self : analyzer) : list Z :=
  map (fun r => match dict_get (fst r) (data_files self) with
                | Some f => size f
                | None => 0%Z
                end)
      (analysis_results self).

(** A chart serializer that writes the element with the identifier it is
    given, and an identifier source that never repeats. *)
Definition demo_plot_div (div_id : string) (f : fig) : string :=
  "<div id='" ++ div_id ++ "' class='plotly-graph-div'></div>".

Definition demo_uuid4 (n : nat) : string := str_nat n.

Definition demo_generate (self : analyzer) (output_file : string) (w : world)
  : string * analyzer * world :=
  generate_dashboard demo_plot_div demo_uuid4 str_Z
    (fun _ _ => "0.0"%string) (fun _ => "-"%string) (fun s => s)
    "<html>" "<body>" "</html>" self output_file w.

Definition demo_rendered (self : analyzer) (output_file : string) (w : world)
  : option string :=
  rendered demo_plot_div demo_uuid4 str_Z
    (fun _ _ => "0.0"%string) (fun _ => "-"%string) (fun s => s)
    "<html>" "<body>" "</html>" self output_file w.

Definition fresh_world : world := {| uuid_drawn := 0; files := [] |}.

(** The notions the binary64 properties are stated with. *)
Module B64Spec.

Import PrimFloat.
#[local] Open Scope float_scope.









(** The values 0, 1, ..., 100 and one cell holding the double nearest to
    -9897.99, which is where [q1 - 100·(q99 - q1)] lies for [q1 = 0.01] and
    [q99 = 98.99]: 102 cells in two rows. *)
Definition boundary_grid : list (list float) :=
  [ (-0x1.354feb851eb85p+13) :: map B64.of_nat (seq 0 50);
    map B64.of_nat (seq 50 51) ].

(** The double nearest to -989.79. *)
Definition minus_989_79 : float := -0x1.eee51eb851eb8p+9.

(** One cell holding 1 and 99 cells holding the next double above 1. *)
Definition next_above_1 : float := 0x1.0000000000001p+0.
Definition close_grid : list (list float) := [ 1 :: repeat next_above_1 99 ].

End B64Spec.

(* ------------------------------------------------------------------ *)
(** * Sorting *)

Section SortFacts.

Context {A : Type} (leb : A -> A -> bool).



Hypothesis leb_total : forall a b, leb a b = false -> leb b a = true.



End SortFacts.

(* ------------------------------------------------------------------ *)
(** * Properties of the detector *)

Lemma Qlt_bool_iff (a b : Q) : Qlt_bool a b = true <-> a < b.
Proof.
  unfold Qlt_bool. rewrite negb_true_iff.
  split; intros H.
  - apply Qnot_le_lt. intros Hle. apply Qle_bool_iff in Hle. congruence.
  - destruct (Qle_bool b a) eqn:E; [|reflexivity].
    apply Qle_bool_iff in E. exfalso. exact (Qlt_not_le _ _ H E).
Qed.

Lemma min_from_spec (l : list Q) :
  forall m, is_minimum (Np.min_from m l) (m :: l).
Proof.
  induction l as [|x l IH]; intros m; simpl.
  - split; [now left|]. intros y [<-|[]]. apply Qle_refl.
  - destruct (IH (if Qlt_bool x m then x else m)) as [Hin Hle].
    split.
    + destruct Hin as [Hin|Hin]; [|now right; right].
      rewrite <- Hin. destruct (Qlt_bool x m); [right; now left|now left].
    + intros y Hy.
      assert (Hc : Np.min_from (if Qlt_bool x m then x else m) l
                   <= (if Qlt_bool x m then x else m)) by (apply Hle; now left).
      destruct Hy as [<-|[<-|Hy]].
      * destruct (Qlt_bool x m) eqn:E; [|exact Hc].
        apply Qlt_bool_iff in E. lra.
      * destruct (Qlt_bool x m) eqn:E; [exact Hc|].
        assert (~ x < m) by (rewrite <- Qlt_bool_iff; congruence). lra.
      * apply Hle. now right.
Qed.

Lemma amin_spec (l : list Q) :
  l <> [] -> exists m, Np.amin l = Ok m /\ is_minimum m l.
Proof.
  destruct l as [|x l]; [congruence|]. intros _.
  exists (Np.min_from x l). split; [reflexivity|apply min_from_spec].
Qed.

Lemma percentile_total (l : list Q) (p : Q) :
  l <> [] -> exists q, Np.percentile l p = Ok q.
Proof.
  destruct l; [congruence|]. intros _. eexists. reflexivity.
Qed.

Lemma length_pos_nonnil {A : Type} (l : list A) :
  (0 <? length l)%nat = true <-> l <> [].
Proof.
  destruct l; cbn; split; intros H; try congruence; try reflexivity.
Qed.

(** The detector never raises. *)
Lemma detect_nodata_total (g : grid) (declared : option f64) :
  exists r, detect_nodata g declared = Ok r.
Proof.
  unfold detect_nodata. destruct declared as [v|]; [eauto|].
  set (fv := Np.finite_values _).
  destruct (0 <? length fv)%nat eqn:E; [|eauto].
  apply length_pos_nonnil in E.
  destruct (percentile_total 1 E) as [q1 ->].
  destruct (percentile_total 99 E) as [q99 ->].
  destruct (amin_spec E) as [m [-> _]]. simpl.
  destruct (Qlt_bool _ _); eauto.
Qed.

(* ------------------------------------------------------------------ *)
(** * The detector on doubles *)

















(** Two rasters on which rounding decides.  On the first the least cell
    lies, in exact arithmetic, on the bound itself; the bound computed in
    binary64 is -9897.989999999998, just above it, and a sentinel of -989.79
    is inferred.  On the second, with 100 cells, both percentiles round to
    the larger value, the least cell lies below the bound, and a sentinel is
    inferred. *)
Lemma detector_on_rounding_boundaries :
  B64.detect_nodata B64Spec.boundary_grid None
  = Ok (Some B64Spec.minus_989_79)
  /\ B64.detect_nodata B64Spec.close_grid None
     = Ok (Some B64Spec.next_above_1).
Proof.
  split; vm_compute; reflexivity.
Qed.

(* ------------------------------------------------------------------ *)
(** * Degenerate grids *)

Lemma finite_values_none (l : list f64) :
  (forall c, In c l -> F64.isfinite c = false) -> Np.finite_values l = [].
Proof.
  induction l as [|c l IH]; intros H; [reflexivity|].
  assert (Hc : F64.isfinite c = false) by (apply H; now left).
  destruct c; simpl in Hc; try discriminate; simpl; apply IH;
    intros c' Hin; apply H; now right.
Qed.

Lemma finite_values_const (q : Q) (l : list f64) :
  (forall c, In c l -> c = Fin q) -> Np.finite_values l = repeat q (length l).
Proof.
  induction l as [|c l IH]; intros H; [reflexivity|].
  rewrite (H c) by now left. simpl. f_equal. apply IH.
  intros c' Hin. apply H. now right.
Qed.

Lemma sort_repeat (q : Q) (n : nat) : Np.sort (repeat q n) = repeat q n.
Proof.
  unfold Np.sort. induction n as [|n IH]; [reflexivity|].
  simpl. rewrite IH. destruct n as [|n]; [reflexivity|]. simpl.
  assert (E : Qle_bool q q = true) by (apply Qle_bool_iff; apply Qle_refl).
  now rewrite E.
Qed.

Lemma nth_repeat_lt {A : Type} (a d : A) (n i : nat) :
  (i < n)%nat -> nth i (repeat a n) d = a.
Proof.
  revert i. induction n as [|n IH]; intros i Hi; [lia|].
  destruct i as [|i]; [reflexivity|]. simpl. apply IH. lia.
Qed.

(** The floor of the virtual index stays inside the array. *)
Lemma virtual_index_bounds (p : Q) (n : Z) :
  0 <= p -> p <= 100 -> (1 <= n)%Z ->
  let lo := Qfloor ((p / 100) * inject_Z (n - 1)) in
  (0 <= lo <= n - 1)%Z.
Proof.
  intros Hp0 Hp1 Hn lo.
  assert (Hk : 0 <= inject_Z (n - 1)).
  { change 0 with (inject_Z 0). rewrite <- Zle_Qle. lia. }
  set (k := inject_Z (n - 1)) in *.
  assert (Hf0 : 0 <= p / 100) by (apply Qle_shift_div_l; [reflexivity|lra]).
  assert (Hf1 : p / 100 <= 1) by (apply Qle_shift_div_r; [reflexivity|lra]).
  assert (H0 : 0 <= (p / 100) * k) by (apply Qmult_le_0_compat; assumption).
  assert (H1 : (p / 100) * k <= k).
  { rewrite <- (Qmult_1_l k) at 2. apply Qmult_le_compat_r; assumption. }
  split.
  - change 0%Z with (Qfloor 0). apply Qfloor_resp_le. exact H0.
  - rewrite <- (Qfloor_Z (n - 1)). apply Qfloor_resp_le. exact H1.
Qed.

Lemma percentile_repeat (q p : Q) (n : nat) :
  0 <= p -> p <= 100 ->
  exists r, Np.percentile (repeat q (S n)) p = Ok r /\ r == q.
Proof.
  intros Hp0 Hp1.
  unfold Np.percentile.
  change (repeat q (S n)) with (q :: repeat q n) at 1.
  cbv beta iota zeta.
  rewrite sort_repeat, repeat_length.
  assert (Hn : (1 <= Z.of_nat (S n))%Z) by lia.
  pose proof (virtual_index_bounds Hp0 Hp1 Hn) as Hb. cbv zeta in Hb.
  set (lo := Qfloor _) in *.
  eexists. split; [reflexivity|].
  rewrite !nth_repeat_lt by lia. ring.
Qed.

Lemma min_from_repeat (q : Q) (n : nat) : Np.min_from q (repeat q n) = q.
Proof.
  induction n as [|n IH]; [reflexivity|]. simpl.
  assert (E : Qlt_bool q q = false).
  { destruct (Qlt_bool q q) eqn:E; [|reflexivity].
    apply Qlt_bool_iff in E. exfalso. exact (Qlt_irrefl _ E). }
  now rewrite E.
Qed.

Lemma detect_nodata_const (g : grid) (q : Q) :
  (forall c, In c (concat g) -> c = Fin q) -> detect_nodata g None = Ok None.
Proof.
  intros H. unfold detect_nodata. simpl Np.flatten.
  rewrite finite_values_const with (q := q) by exact H.
  destruct (length (concat g)) as [|n]; [reflexivity|].
  rewrite repeat_length. change (0 <? S n)%nat with true. cbv iota.
  destruct (@percentile_repeat q 1 n) as [q1 [-> H1]]; [lra|lra|].
  destruct (@percentile_repeat q 99 n) as [q99 [-> H99]]; [lra|lra|].
  simpl. rewrite min_from_repeat.
  destruct (Qlt_bool q (q1 - 100 * (q99 - q1))) eqn:E; [|reflexivity].
  apply Qlt_bool_iff in E. exfalso. lra.
Qed.

(** C8.  Without a declared sentinel, the detector returns "no sentinel",
    and does not raise, on an empty grid, on a grid whose cells all hold the
    same value, and on a grid with no finite cell. *)
Theorem detect_nodata_degenerate (g : grid) :
  concat g = []
  \/ (exists v, forall c, In c (concat g) -> c = v)
  \/ (forall c, In c (concat g) -> F64.isfinite c = false) ->
  detect_nodata g None = Ok None.
Proof.
  assert (Hnone : (forall c, In c (concat g) -> F64.isfinite c = false) ->
                  detect_nodata g None = Ok None).
  { intros H. unfold detect_nodata. simpl Np.flatten.
    rewrite finite_values_none by exact H. reflexivity. }
  intros [Hnil | [[v Hv] | Hnf]].
  - apply Hnone. rewrite Hnil. intros c [].
  - destruct v as [q| | |].
    + now apply detect_nodata_const with q.
    + apply Hnone. intros c Hc. now rewrite (Hv c Hc).
    + apply Hnone. intros c Hc. now rewrite (Hv c Hc).
    + apply Hnone. intros c Hc. now rewrite (Hv c Hc).
  - now apply Hnone.
Qed.

Lemma detect_nodata_degenerate_witness :
  detect_nodata [] None = Ok None
  /\ detect_nodata [[Fin 7; Fin 7]; [Fin 7; Fin 7]] None = Ok None
  /\ detect_nodata [[NaN; PInf]; [NInf; NaN]] None = Ok None.
Proof.
  split; [|split].
  - apply detect_nodata_degenerate. left. reflexivity.
  - apply detect_nodata_degenerate. right. left. exists (Fin 7).
    simpl. intros c H. intuition congruence.
  - apply detect_nodata_degenerate. right. right.
    simpl. intros c H. intuition (subst; reflexivity).
Defined.

(* ------------------------------------------------------------------ *)
(** * Raster analysis: the valid pixel count *)

Lemma five_stats_ok (l : list f64) :
  l <> [] ->
  exists st, five_stats l = Ok st
             /\ Stats.np_min l = Ok (st_min st)
             /\ Stats.np_max l = Ok (st_max st)
             /\ st_std st = Stats.np_std l.
Proof.
  destruct l as [|x l]; [congruence|]. intros _.
  unfold five_stats. simpl. eexists. repeat split.
Qed.

(** Whenever the valid cells are not an empty array of non-zero length, the
    analysis returns, and its counts are the length of the valid array and the
    size of the raster. *)
Lemma analyze_tif_data_ok (d : tif_data) :
  Np.len (tif_valid_data d) = O \/ Np.flatten (tif_valid_data d) <> [] ->
  exists a,
    _analyze_tif_data d = Ok a
    /\ valid_pixels (ta_summary a) = Np.len (tif_valid_data d)
    /\ total_pixels (ta_summary a) = length (concat (data d))
    /\ (Np.len (tif_valid_data d) <> O ->
        exists st, ta_numeric_summary a = Some st
                   /\ Stats.np_min (Np.flatten (tif_valid_data d)) = Ok (st_min st)
                   /\ Stats.np_max (Np.flatten (tif_valid_data d)) = Ok (st_max st)
                   /\ st_std st = Stats.np_std (Np.flatten (tif_valid_data d))).
Proof.
  intros H. unfold _analyze_tif_data.
  destruct (Np.len (tif_valid_data d)) as [|n] eqn:El.
  - simpl. eexists. repeat split. intros Hn. congruence.
  - destruct H as [H|H]; [discriminate|].
    destruct (five_stats_ok H) as [st [-> [Hmin [Hmax Hstd]]]].
    simpl. eexists. repeat split. intros _. exists st. repeat split; assumption.
Qed.

(** With a sentinel, the reported valid pixel count is the number of cells
    that differ from it. *)
Lemma valid_pixels_with_sentinel (d : tif_data) (nd : f64) :
  nodata (metadata d) = Some nd ->
  exists a,
    _analyze_tif_data d = Ok a
    /\ valid_pixels (ta_summary a)
       = length (filter (fun c => F64.neb c nd) (concat (data d)))
    /\ total_pixels (ta_summary a) = length (concat (data d)).
Proof.
  intros Hnd.
  assert (Hv : tif_valid_data d
               = Arr1 (filter (fun c => F64.neb c nd) (concat (data d)))).
  { unfold tif_valid_data. now rewrite Hnd. }
  destruct (@analyze_tif_data_ok d) as [a [Ha [Hvp [Htp _]]]].
  - rewrite Hv. simpl.
    destruct (filter _ _); [now left|right; discriminate].
  - exists a. rewrite Hv in Hvp. simpl in Hvp. auto.
Qed.

(** The end-to-end scenario: the 4×4 raster with the declared sentinel
    [-9999] has 15 valid pixels, minimum 1 and maximum 16. *)
Lemma scenario_4x4_declared_sentinel :
  exists a st,
    detect_nodata grid_4x4 (Some (cell (-9999))) = Ok (Some (cell (-9999)))
    /\ _analyze_tif_data (as_raster grid_4x4 (Some (cell (-9999)))) = Ok a
    /\ valid_pixels (ta_summary a) = 15%nat
    /\ total_pixels (ta_summary a) = 16%nat
    /\ ta_numeric_summary a = Some st
    /\ st_min st = cell 1 /\ st_max st = cell 16.
Proof.
  destruct (@analyze_tif_data_ok (as_raster grid_4x4 (Some (cell (-9999)))))
    as [a [Ha [Hvp [Htp Hst]]]].
  - right. vm_compute. discriminate.
  - destruct Hst as [st [Hs [Hmin [Hmax _]]]]; [vm_compute; discriminate|].
    exists a, st.
    split; [reflexivity|]. split; [exact Ha|].
    split; [rewrite Hvp; vm_compute; reflexivity|].
    split; [rewrite Htp; vm_compute; reflexivity|].
    split; [exact Hs|].
    set (l := Np.flatten _) in Hmin, Hmax.
    assert (Emin : Stats.np_min l = Ok (cell 1)) by (vm_compute; reflexivity).
    assert (Emax : Stats.np_max l = Ok (cell 16)) by (vm_compute; reflexivity).
    split; congruence.
Qed.

(** C2, at a raster without sentinel.  The detector finds no sentinel on the
    plain 4×4 grid; the raster is then used as it is, a two-dimensional
    array whose [len] is its number of rows: the summary reports 4 valid
    pixels out of 16, although all 16 cells are valid. *)
Theorem valid_pixels_without_sentinel_counts_rows :
  detect_nodata grid_4x4_plain None = Ok None
  /\ exists a,
       _analyze_tif_data (as_raster grid_4x4_plain None) = Ok a
       /\ valid_pixels (ta_summary a) = 4%nat
       /\ total_pixels (ta_summary a) = 16%nat
       /\ length (Np.flatten (tif_valid_data (as_raster grid_4x4_plain None)))
          = 16%nat.
Proof.
  split; [vm_compute; reflexivity|].
  destruct (@analyze_tif_data_ok (as_raster grid_4x4_plain None))
    as [a [Ha [Hvp [Htp _]]]].
  - right. vm_compute. discriminate.
  - exists a.
    split; [exact Ha|].
    split; [rewrite Hvp; reflexivity|].
    split; [rewrite Htp; reflexivity|reflexivity].
Qed.

(* ------------------------------------------------------------------ *)
(** * The inferred threshold and the valid-cell filters *)

(** A raster that opens is read with the sentinel chosen by the detector. *)
Lemma read_tif_file_ok (rasterio_open : string -> result raster_src)
  (file_path : string) (src : raster_src) (nd : option f64) :
  rasterio_open file_path = Ok src ->
  detect_nodata (src_band1 src) (src_nodata src) = Ok nd ->
  _read_tif_file rasterio_open file_path
  = Some {| data := src_band1 src;
            metadata := {| width := src_width src;
                           height := src_height src;
                           bands := src_count src;
                           crs := src_crs src;
                           nodata := nd;
                           dtype := src_dtype src |} |}.
Proof.
  intros Hopen Hdet. unfold _read_tif_file, bind.
  rewrite Hopen, Hdet. reflexivity.
Qed.

Lemma detect_injected :
  detect_nodata injected_grid None = Ok (Some (Fin inferred_threshold)).
Proof. vm_compute. reflexivity. Qed.

(** C1, at the grid with one injected cell.  The detector infers the
    threshold -989.79, strictly between -1e9 and 0, and the injected cell lies
    below it.  Both valid-cell filters compare the cells with the threshold by
    [!=]: the raster analysis counts all 102 cells as valid and reports -1e9
    as the minimum, and the chart filter keeps the injected cell as well. *)
Theorem inferred_threshold_keeps_cells_below_it :
  inferred_threshold == -98979 # 100
  /\ -1000000000 # 1 < inferred_threshold /\ inferred_threshold < 0
  /\ F64.ltb minus_1e9 (Fin inferred_threshold) = true
  /\ _read_tif_file (fun _ => Ok injected_src) "scene.tif" = Some injected_data
  /\ (exists a st,
        _analyze_tif_data injected_data = Ok a
        /\ valid_pixels (ta_summary a) = 102%nat
        /\ total_pixels (ta_summary a) = 102%nat
        /\ ta_numeric_summary a = Some st
        /\ st_min st = minus_1e9)
  /\ In minus_1e9 (Np.flatten (tif_valid_data injected_data))
  /\ In minus_1e9
       (filter (valid_mask (nodata (metadata injected_data)))
               (concat (data injected_data)))
  /\ length (filter (valid_mask (nodata (metadata injected_data)))
                    (concat (data injected_data))) = 102%nat.
Proof.
  split; [reflexivity|].
  split; [reflexivity|].
  split; [reflexivity|].
  split; [reflexivity|].
  split.
  { apply read_tif_file_ok with (src := injected_src) (nd := Some (Fin inferred_threshold)).
    - reflexivity.
    - exact detect_injected. }
  split.
  { destruct (@analyze_tif_data_ok injected_data) as [a [Ha [Hvp [Htp Hst]]]].
    - right. vm_compute. discriminate.
    - destruct Hst as [st [Hs [Hmin _]]]; [vm_compute; discriminate|].
      exists a, st.
      split; [exact Ha|].
      split; [rewrite Hvp; vm_compute; reflexivity|].
      split; [rewrite Htp; vm_compute; reflexivity|].
      split; [exact Hs|].
      set (l := Np.flatten _) in Hmin.
      assert (Emin : Stats.np_min l = Ok minus_1e9) by (vm_compute; reflexivity).
      congruence. }
  split; [vm_compute; left; reflexivity|].
  split; [vm_compute; left; reflexivity|].
  vm_compute. reflexivity.
Qed.

(* ------------------------------------------------------------------ *)
(** * Raster charts on a raster without valid cells *)

Lemma every_from_In {A : Type} (step : nat) (l : list A) :
  forall skip x, In x (every_from step skip l) -> In x l.
Proof.
  induction l as [|a l IH]; intros skip x H; [exact H|].
  destruct skip as [|k]; simpl in H.
  - destruct H as [H|H]; [now left|right; eauto].
  - right. eauto.
Qed.

Lemma filter_nil_of_false {A : Type} (f : A -> bool) (l : list A) :
  (forall x, In x l -> f x = false) -> filter f l = [].
Proof.
  induction l as [|a l IH]; intros H; [reflexivity|].
  simpl. rewrite (H a) by now left. apply IH. intros x Hx. apply H. now right.
Qed.

Lemma filter_nil_false {A : Type} (f : A -> bool) (l : list A) :
  filter f l = [] -> forall x, In x l -> f x = false.
Proof.
  intros H x Hx. destruct (f x) eqn:E; [|reflexivity].
  assert (Hin : In x (filter f l)) by (apply filter_In; auto).
  rewrite H in Hin. destruct Hin.
Qed.

(** A cell that passes the two range tests is finite, so the mask of the
    heatmap selects the same cells as the mask of the statistics. *)
Lemma range_tests_finite (c : f64) :
  F64.gtb c minus_1e10 = true -> F64.ltb c plus_1e10 = true ->
  F64.isfinite c = true.
Proof. destruct c; simpl; intros H1 H2; congruence. Qed.

Lemma heatmap_mask_valid_mask (nd : option f64) (c : f64) :
  heatmap_mask nd c = valid_mask nd c.
Proof.
  unfold heatmap_mask, valid_mask. destruct nd as [v|]; [|reflexivity].
  destruct (F64.isfinite c) eqn:Ef; [now rewrite andb_true_r|].
  rewrite andb_false_r.
  destruct (F64.gtb c minus_1e10) eqn:E1; [|now rewrite andb_false_r].
  destruct (F64.ltb c plus_1e10) eqn:E2; [|now rewrite andb_false_r].
  rewrite range_tests_finite in Ef by assumption. discriminate.
Qed.

Lemma sample_cells (g : grid) (step : nat) (x : f64) :
  In x (concat (every step (map (every step) g))) -> In x (concat g).
Proof.
  intros H. apply in_concat in H. destruct H as [r [Hr Hx]].
  apply every_from_In in Hr. apply in_map_iff in Hr.
  destruct Hr as [r0 [<- Hr0]]. apply every_from_In in Hx.
  apply in_concat. exists r0. split; assumption.
Qed.

(** C9.  When no cell passes the sentinel and safety-range filter, the
    generator returns the empty list: no heatmap, no statistics chart, no
    histogram, and no failure. *)
Theorem no_valid_cells_no_charts
  (rng : Random.generator) (d : tif_data) (file_name : string) :
  filter (valid_mask (nodata (metadata d))) (concat (data d)) = [] ->
  _create_tif_visualizations rng d file_name = [].
Proof.
  intros Hnone. unfold _create_tif_visualizations. cbv zeta.
  rewrite Hnone. simpl length. change (0 <? 0)%nat with false. cbv iota.
  set (clean := map (map _) (data d)).
  assert (Hs : filter F64.isfinite (concat (every 4 (map (every 4) clean)))
               = []).
  { apply filter_nil_of_false. intros x Hx.
    apply sample_cells in Hx. apply in_concat in Hx.
    destruct Hx as [r [Hr Hx]]. unfold clean in Hr.
    apply in_map_iff in Hr. destruct Hr as [r0 [<- Hr0]].
    apply in_map_iff in Hx. destruct Hx as [c [<- Hc]].
    rewrite heatmap_mask_valid_mask.
    rewrite (filter_nil_false _ _ Hnone c); [reflexivity|].
    apply in_concat. exists r0. split; assumption. }
  rewrite Hs. reflexivity.
Qed.

Lemma no_valid_cells_no_charts_witness :
  _create_tif_visualizations (fun _ => O) all_invalid_raster "empty.tif" = [].
Proof.
  apply no_valid_cells_no_charts. vm_compute. reflexivity.
Defined.

(* ------------------------------------------------------------------ *)
(** * Sampling for the distribution histogram *)

Lemma update_length {A : Type} (v : A) (l : list A) :
  forall i, length (Random.update i v l) = length l.
Proof.
  induction l as [|h t IH]; intros i; [reflexivity|].
  destruct i; simpl; [reflexivity|]. now rewrite IH.
Qed.

Lemma nth_update {A : Type} (v d : A) (l : list A) :
  forall i k, (i < length l)%nat ->
    nth k (Random.update i v l) d = if (k =? i)%nat then v else nth k l d.
Proof.
  induction l as [|h t IH]; intros i k Hi; [simpl in Hi; lia|].
  destruct i as [|i]; destruct k as [|k]; simpl; try reflexivity.
  apply IH. simpl in Hi. lia.
Qed.

Lemma swap_length (x : list nat) (i j : nat) :
  length (Random.swap x i j) = length x.
Proof. unfold Random.swap. now rewrite !update_length. Qed.

Lemma nth_swap (x : list nat) (i j k : nat) :
  (i < length x)%nat -> (j < length x)%nat ->
  nth k (Random.swap x i j) O = nth (transpose i j k) x O.
Proof.
  intros Hi Hj. unfold Random.swap, transpose.
  rewrite nth_update by (rewrite update_length; exact Hj).
  destruct (k =? j)%nat; [reflexivity|].
  rewrite nth_update by exact Hi.
  destruct (k =? i)%nat; reflexivity.
Qed.

Lemma swap_Permutation (x : list nat) (i j : nat) :
  (i < length x)%nat -> (j < length x)%nat ->
  Permutation x (Random.swap x i j).
Proof.
  intros Hi Hj. apply (Permutation_nth x (Random.swap x i j) O). cbv zeta.
  split; [apply swap_length|].
  exists (transpose i j). repeat split.
  - intros k Hk. unfold transpose.
    destruct (k =? j)%nat; [exact Hi|]. destruct (k =? i)%nat; assumption.
  - intros a b Ha Hb. unfold transpose.
    destruct (a =? j)%nat eqn:Eaj; destruct (b =? j)%nat eqn:Ebj;
      destruct (a =? i)%nat eqn:Eai; destruct (b =? i)%nat eqn:Ebi;
      rewrite ?Nat.eqb_eq, ?Nat.eqb_neq in *; lia.
  - intros k Hk. now apply nth_swap.
Qed.

Lemma shuffle_down_Permutation (rng : Random.generator) :
  forall i x, (i < length x)%nat -> Permutation x (Random.shuffle_down rng i x).
Proof.
  induction i as [|i IH]; intros x Hi; [apply Permutation_refl|].
  simpl Random.shuffle_down.
  assert (Hj : (rng (S i) mod S (S i) < length x)%nat).
  { pose proof (Nat.mod_upper_bound (rng (S i)) (S (S i))). lia. }
  eapply Permutation_trans; [apply (swap_Permutation x Hi Hj)|].
  apply IH. rewrite swap_length. lia.
Qed.

Lemma permutation_Permutation (rng : Random.generator) (n : nat) :
  Permutation (seq 0 n) (Random.permutation rng n).
Proof.
  unfold Random.permutation. destruct n as [|n]; [apply Permutation_refl|].
  apply shuffle_down_Permutation. rewrite length_seq. lia.
Qed.

(** A draw without replacement: exactly [size] indices, pairwise distinct,
    each inside the population. *)
Lemma choice_spec (rng : Random.generator) (n size : nat) :
  (size <= n)%nat ->
  exists idx,
    Random.choice rng n size = Ok idx
    /\ length idx = size /\ NoDup idx /\ Forall (fun i => (i < n)%nat) idx.
Proof.
  intros Hle. unfold Random.choice.
  assert (E : (n <? size)%nat = false) by (apply Nat.ltb_ge; exact Hle).
  rewrite E. eexists. split; [reflexivity|].
  pose proof (permutation_Permutation rng n) as Hp.
  assert (Hlen : length (Random.permutation rng n) = n).
  { rewrite <- (Permutation_length Hp). apply length_seq. }
  assert (Hnd : NoDup (Random.permutation rng n)).
  { eapply Permutation_NoDup; [exact Hp|apply seq_NoDup]. }
  split; [|split].
  - rewrite length_firstn. lia.
  - rewrite <- (firstn_skipn size) in Hnd.
    exact (NoDup_app_remove_r _ _ Hnd).
  - apply Forall_forall. intros i Hi.
    assert (Hin : In i (Random.permutation rng n)).
    { rewrite <- (firstn_skipn size). apply in_or_app. now left. }
    apply (Permutation_in _ (Permutation_sym Hp)) in Hin.
    apply in_seq in Hin. lia.
Qed.

Lemma take_indices_spec (a : list f64) (idx : list nat) :
  Forall (fun i => (i < length a)%nat) idx ->
  take_indices a idx = Ok (map (fun i => nth i a NaN) idx).
Proof.
  induction 1 as [|i idx Hi _ IH]; [reflexivity|].
  simpl. rewrite (nth_error_nth' a NaN Hi), IH. reflexivity.
Qed.

Lemma tif_visualizations_histogram
  (rng : Random.generator) (d : tif_data) (file_name : string)
  (hist : list f64) :
  let valid_data :=
    filter (valid_mask (nodata (metadata d))) (concat (data d)) in
  valid_data <> [] ->
  histogram_data rng valid_data = Ok hist ->
  In (distribution_chart hist file_name)
     (_create_tif_visualizations rng d file_name).
Proof.
  intros valid_data Hne Hh.
  unfold _create_tif_visualizations. cbv zeta. fold valid_data.
  apply length_pos_nonnil in Hne. rewrite Hne. rewrite Hh.
  unfold bind at 2. cbv iota beta.
  apply in_or_app. right. left. reflexivity.
Qed.

Lemma draw_vectors_length (m : nat) : length (draw_vectors m) = fact (S m).
Proof.
  induction m as [|m IH]; [reflexivity|].
  cbn [draw_vectors].
  assert (H : forall l : list nat,
             length (flat_map (fun d => map (cons d) (draw_vectors m)) l)
             = (length l * fact (S m))%nat).
  { induction l as [|d l IHl]; [reflexivity|].
    cbn [flat_map]. rewrite length_app, length_map, IHl, IH. simpl. lia. }
  rewrite H, length_seq. change (fact (S (S m))) with (S (S m) * fact (S m))%nat.
  reflexivity.
Qed.

Lemma draw_vectors_spec (m : nat) (ds : list nat) :
  In ds (draw_vectors m) -> length ds = m.
Proof.
  revert ds. induction m as [|m IH]; intros ds H.
  - destruct H as [<-|[]]. reflexivity.
  - cbn [draw_vectors] in H. apply in_flat_map in H. destruct H as [d [_ H]].
    apply in_map_iff in H. destruct H as [ds' [<- H]]. simpl. now rewrite (IH ds').
Qed.

Lemma shuffle_down_ext (r1 r2 : Random.generator) :
  forall i x, (forall j, (1 <= j <= i)%nat -> r1 j = r2 j) ->
    Random.shuffle_down r1 i x = Random.shuffle_down r2 i x.
Proof.
  induction i as [|i IH]; intros x H; [reflexivity|].
  simpl. rewrite (H (S i)) by lia. apply IH. intros j Hj. apply H. lia.
Qed.

Lemma update_app {A : Type} (v : A) (y z : list A) :
  forall i, (i < length y)%nat ->
    Random.update i v (y ++ z) = Random.update i v y ++ z.
Proof.
  induction y as [|h y IH]; intros i Hi; [simpl in Hi; lia|].
  destruct i as [|i]; simpl; [reflexivity|]. rewrite IH; [reflexivity|].
  simpl in Hi. lia.
Qed.

Lemma swap_app (y z : list nat) (i j : nat) :
  (i < length y)%nat -> (j < length y)%nat ->
  Random.swap (y ++ z) i j = Random.swap y i j ++ z.
Proof.
  intros Hi Hj. unfold Random.swap.
  rewrite !app_nth1 by assumption.
  rewrite update_app by exact Hi.
  rewrite update_app by (rewrite update_length; exact Hj). reflexivity.
Qed.

Lemma shuffle_down_app (rng : Random.generator) (z : list nat) :
  forall i y, (i < length y)%nat ->
    Random.shuffle_down rng i (y ++ z) = Random.shuffle_down rng i y ++ z.
Proof.
  induction i as [|i IH]; intros y Hi; [reflexivity|].
  simpl.
  assert (Hj : (rng (S i) mod S (S i) < length y)%nat).
  { pose proof (Nat.mod_upper_bound (rng (S i)) (S (S i))). lia. }
  rewrite swap_app by assumption.
  apply IH. rewrite swap_length. lia.
Qed.
Lemma skipn_last (l : list nat) :
  forall n, length l = S n -> skipn n l = [nth n l O].
Proof.
  induction l as [|h l IH]; intros n H; [discriminate|].
  destruct n as [|n].
  - destruct l; [reflexivity|discriminate].
  - simpl. apply IH. simpl in H. lia.
Qed.

(** After the swap of step [n], the last position holds the cell drawn. *)
Lemma swap_last (x : list nat) (n d : nat) :
  length x = S n -> (d <= n)%nat ->
  Random.swap x n d = firstn n (Random.swap x n d) ++ [nth d x O].
Proof.
  intros Hlen Hd.
  rewrite <- (firstn_skipn n (Random.swap x n d)) at 1.
  rewrite skipn_last by (rewrite swap_length; exact Hlen).
  rewrite nth_swap by lia. unfold transpose.
  destruct (n =? d)%nat eqn:E.
  - apply Nat.eqb_eq in E. subst d. reflexivity.
  - rewrite Nat.eqb_refl. reflexivity.
Qed.

Lemma shuffle_down_length (rng : Random.generator) (i : nat) (x : list nat) :
  (i < length x)%nat -> length (Random.shuffle_down rng i x) = length x.
Proof.
  intros H. symmetry. apply Permutation_length.
  now apply shuffle_down_Permutation.
Qed.

(** One step of the shuffle: the drawn cell goes last, the others are
    shuffled by the remaining draws. *)
Lemma shuffle_down_step (d : nat) (ds : list nat) (x : list nat) :
  length x = S (S (length ds)) -> (d <= S (length ds))%nat ->
  Random.shuffle_down (stream_of (d :: ds)) (S (length ds)) x
  = Random.shuffle_down (stream_of ds) (length ds)
      (firstn (S (length ds)) (Random.swap x (S (length ds)) d))
    ++ [nth d x O].
Proof.
  intros Hlen Hd. cbn [Random.shuffle_down].
  assert (E : stream_of (d :: ds) (S (length ds)) = d).
  { unfold stream_of. cbn [length]. rewrite Nat.sub_diag. reflexivity. }
  rewrite E, (Nat.mod_small d) by lia.
  rewrite (swap_last x Hlen Hd) at 1.
  rewrite shuffle_down_app
    by (rewrite length_firstn, swap_length; lia).
  f_equal. apply shuffle_down_ext. intros j Hj.
  unfold stream_of. cbn [length].
  replace (S (length ds) - j)%nat with (S (length ds - j)) by lia.
  reflexivity.
Qed.

(** The cells left for the remaining steps: all but the drawn one. *)
Lemma rest_after_swap (x : list nat) (n d : nat) :
  length x = S n -> (d <= n)%nat -> NoDup x ->
  let y := firstn n (Random.swap x n d) in
  length y = n /\ NoDup y
  /\ forall b, In b y <-> In b x /\ b <> nth d x O.
Proof.
  intros Hlen Hd Hnd y.
  assert (Hp : Permutation x (y ++ [nth d x O])).
  { unfold y. rewrite <- swap_last by assumption.
    apply swap_Permutation; lia. }
  assert (Hnd' : NoDup (y ++ [nth d x O]))
    by (eapply Permutation_NoDup; eassumption).
  split; [|split].
  - unfold y. rewrite length_firstn, swap_length. lia.
  - exact (NoDup_app_remove_r _ _ Hnd').
  - intros b. split.
    + intros Hb. split.
      * apply (Permutation_in _ (Permutation_sym Hp)). apply in_or_app. now left.
      * intros ->. apply NoDup_remove_2 in Hnd'. apply Hnd'.
        rewrite app_nil_r. exact Hb.
    + intros [Hb Hne]. apply (Permutation_in _ Hp) in Hb.
      apply in_app_or in Hb. destruct Hb as [Hb|[Hb|[]]]; [exact Hb|congruence].
Qed.

Lemma count_occ_flat_map {A B : Type} (dec : forall a b : B, {a = b} + {a <> b})
  (g : A -> list B) (t : B) (l : list A) :
  count_occ dec (flat_map g l) t
  = sum_nat (map (fun d => count_occ dec (g d) t) l).
Proof.
  induction l as [|d l IH]; [reflexivity|].
  cbn [flat_map map sum_nat fold_right]. rewrite count_occ_app.
  unfold sum_nat in IH. now rewrite IH.
Qed.

Lemma map_flat_map_comm {A B C : Type} (f : B -> C) (g : A -> list B)
  (l : list A) :
  map f (flat_map g l) = flat_map (fun d => map f (g d)) l.
Proof.
  induction l as [|d l IH]; [reflexivity|].
  cbn [flat_map]. now rewrite map_app, IH.
Qed.

Lemma flat_map_ext_seq {B : Type} (f g : nat -> list B) (l : list nat) :
  (forall d, In d l -> f d = g d) -> flat_map f l = flat_map g l.
Proof.
  induction l as [|d l IH]; intros H; [reflexivity|].
  cbn [flat_map]. rewrite (H d) by now left.
  rewrite IH; [reflexivity|]. intros e He. apply H. now right.
Qed.

Lemma samples_step (m : nat) (x : list nat) (k : nat) :
  length x = S (S m) ->
  samples (S m) x k
  = flat_map
      (fun d => map (fun s => firstn k (s ++ [nth d x O]))
                    (samples m (firstn (S m) (Random.swap x (S m) d)) (S m)))
      (seq 0 (S (S m))).
Proof.
  intros Hlen. unfold samples at 1. cbn [draw_vectors].
  rewrite map_flat_map_comm.
  apply flat_map_ext_seq. intros d Hd. apply in_seq in Hd.
  unfold samples. rewrite !map_map. apply map_ext_in. intros ds Hds.
  apply draw_vectors_spec in Hds. subst m.
  rewrite shuffle_down_step by (try exact Hlen; lia).
  f_equal. f_equal. symmetry. apply firstn_all2.
  rewrite shuffle_down_length; rewrite length_firstn, swap_length; lia.
Qed.
Lemma samples_members (m : nat) (x t : list nat) (k : nat) :
  (m < length x)%nat -> NoDup x -> In t (samples m x k) ->
  NoDup t /\ incl t x /\ length t = Nat.min k (length x).
Proof.
  intros Hm Hnd Ht. unfold samples in Ht. apply in_map_iff in Ht.
  destruct Ht as [ds [<- _]].
  pose proof (shuffle_down_Permutation (stream_of ds) x Hm) as Hp.
  set (s := Random.shuffle_down (stream_of ds) m x) in *.
  assert (Hs : NoDup s) by (eapply Permutation_NoDup; eassumption).
  split; [|split].
  - rewrite <- (firstn_skipn k s) in Hs. exact (NoDup_app_remove_r _ _ Hs).
  - intros b Hb. apply (Permutation_in _ (Permutation_sym Hp)).
    rewrite <- (firstn_skipn k s). apply in_or_app. now left.
  - rewrite length_firstn. now rewrite (Permutation_length Hp).
Qed.

Lemma mem_In (a : nat) (t : list nat) : mem a t = true <-> In a t.
Proof.
  unfold mem. rewrite existsb_exists. split.
  - intros [b [Hb E]]. apply Nat.eqb_eq in E. now subst.
  - intros H. exists a. split; [exact H|apply Nat.eqb_refl].
Qed.

Lemma sum_indicator_filter (F : nat) (p : nat -> bool) (x : list nat) :
  sum_nat (map (fun a => if p a then F else O) x)
  = (F * length (filter p x))%nat.
Proof.
  induction x as [|a x IH]; [simpl; lia|].
  cbn [map sum_nat fold_right filter]. unfold sum_nat in IH. rewrite IH.
  destruct (p a); cbn [length]; lia.
Qed.

Lemma filter_mem_length (x t : list nat) :
  NoDup x -> NoDup t -> incl t x ->
  length (filter (fun a => mem a t) x) = length t.
Proof.
  intros Hx Ht Hincl. apply Permutation_length.
  apply NoDup_Permutation.
  - now apply NoDup_filter.
  - exact Ht.
  - intros a. rewrite filter_In, mem_In. split; [tauto|].
    intros H. split; [now apply Hincl|exact H].
Qed.

Lemma filter_not_mem_length (x t : list nat) :
  NoDup x -> NoDup t -> incl t x ->
  length (filter (fun a => negb (mem a t)) x) = (length x - length t)%nat.
Proof.
  intros Hx Ht Hincl.
  pose proof (filter_length (fun a => mem a t) x) as H.
  rewrite (filter_mem_length Hx Ht Hincl) in H.
  lia.
Qed.

Lemma map_nth_seq (x : list nat) (h : nat -> nat) :
  map (fun d => h (nth d x O)) (seq 0 (length x)) = map h x.
Proof.
  induction x as [|a x IH]; [reflexivity|].
  cbn [length seq map]. f_equal.
  rewrite <- seq_shift, map_map. exact IH.
Qed.

Lemma count_occ_map_snoc (l : list (list nat)) (b a : nat) (t : list nat) :
  count_occ arrangement_eq_dec (map (fun s => s ++ [b]) l) (t ++ [a])
  = if (b =? a)%nat then count_occ arrangement_eq_dec l t else O.
Proof.
  induction l as [|s l IH]; [now destruct (b =? a)%nat|].
  cbn [map count_occ].
  destruct (arrangement_eq_dec (s ++ [b]) (t ++ [a])) as [E|E].
  - apply app_inj_tail in E. destruct E as [-> ->].
    rewrite Nat.eqb_refl in *.
    destruct (arrangement_eq_dec t t); [now rewrite IH|congruence].
  - rewrite IH. destruct (b =? a)%nat eqn:Eb; [|reflexivity].
    apply Nat.eqb_eq in Eb. subst b.
    destruct (arrangement_eq_dec s t); [subst; congruence|reflexivity].
Qed.
(** The count behind uniformity: over the draw vectors of a shuffle of
    [S m] distinct cells, every arrangement of [k] distinct cells is the
    prefix of the result for exactly [(S m - k)!] of them. *)
Lemma samples_count :
  forall m x k t,
    length x = S m -> NoDup x -> (k <= S m)%nat ->
    length t = k -> NoDup t -> incl t x ->
    count_occ arrangement_eq_dec (samples m x k) t = fact (S m - k).
Proof.
  induction m as [|m IH]; intros x k t Hlen Hx Hk Hlt Ht Hincl.
  - destruct x as [|a [|? ?]]; try discriminate.
    unfold samples. cbn [draw_vectors map Random.shuffle_down].
    assert (E : firstn k [a] = t).
    { destruct t as [|b [|? ?]]; cbn [length] in Hlt; subst k;
        [reflexivity| |simpl in Hk; lia].
      destruct (Hincl b (or_introl eq_refl)) as [->|[]]. reflexivity. }
    rewrite E. cbn [count_occ].
    destruct (arrangement_eq_dec t t); [|congruence].
    destruct k as [|[|k]]; [reflexivity|reflexivity|lia].
  - rewrite samples_step by exact Hlen.
    rewrite count_occ_flat_map.
    assert (Hseq : seq 0 (S (S m)) = seq 0 (length x)) by now rewrite Hlen.
    rewrite Hseq.
    destruct (Nat.eq_dec k (S (S m))) as [Ek|Ek].
    + (* the sample is the whole permutation *)
      destruct (exists_last (l := t)) as [t' [a Et]];
        [intros ->; simpl in Hlt; lia|].
      subst t. rewrite length_app in Hlt. cbn [length] in Hlt.
      assert (Ha : In a x) by (apply Hincl, in_or_app; right; now left).
      assert (Ht' : NoDup t') by exact (NoDup_app_remove_r _ _ Ht).
      assert (Hat' : ~ In a t').
      { apply NoDup_remove_2 in Ht. now rewrite app_nil_r in Ht. }
      pose (h := fun b => if mem b [a] then 1%nat else O).
      rewrite (map_ext_in _ (fun d => h (nth d x O))).
      * rewrite map_nth_seq. unfold h. rewrite sum_indicator_filter.
        rewrite filter_mem_length;
          [rewrite Ek, Nat.sub_diag; reflexivity|exact Hx| |].
        -- constructor; [intros []|constructor].
        -- intros b [<-|[]]. exact Ha.
      * intros d Hd. unfold h. apply in_seq in Hd.
        destruct (@rest_after_swap x (S m) d Hlen ltac:(lia) Hx)
          as [Hy [Hynd Hyin]].
        set (y := firstn (S m) (Random.swap x (S m) d)) in *.
        rewrite (map_ext_in _ (fun s => s ++ [nth d x O])).
        2:{ intros s Hs. apply samples_members in Hs; [|lia|exact Hynd].
            destruct Hs as [_ [_ Hs]]. apply firstn_all2.
            rewrite length_app. cbn [length]. rewrite Hs, Hy. lia. }
        rewrite count_occ_map_snoc.
        unfold mem. cbn [existsb]. rewrite orb_false_r.
        destruct (nth d x O =? a)%nat eqn:E; [|reflexivity].
        apply Nat.eqb_eq in E.
        rewrite (IH y (S m) t'); try assumption; try lia.
        -- now rewrite Nat.sub_diag.
        -- intros b Hb. apply Hyin. split.
           ++ apply Hincl, in_or_app. now left.
           ++ rewrite E. intros ->. contradiction.
    + (* the sample is a proper prefix *)
      assert (Hk' : (k <= S m)%nat) by lia.
      pose (h := fun b => if negb (mem b t) then fact (S m - k) else O).
      rewrite (map_ext_in _ (fun d => h (nth d x O))).
      * rewrite map_nth_seq. unfold h. rewrite sum_indicator_filter.
        rewrite filter_not_mem_length by assumption.
        rewrite Hlen, Hlt.
        replace (S (S m) - k)%nat with (S (S m - k)) by lia.
        cbn [fact]. lia.
      * intros d Hd. unfold h. apply in_seq in Hd.
        destruct (@rest_after_swap x (S m) d Hlen ltac:(lia) Hx)
          as [Hy [Hynd Hyin]].
        set (y := firstn (S m) (Random.swap x (S m) d)) in *.
        assert (Es : map (fun s => firstn k (s ++ [nth d x O]))
                         (samples m y (S m))
                     = samples m y k).
        { unfold samples. rewrite map_map. apply map_ext. intros ds.
          assert (Hl : length (Random.shuffle_down (stream_of ds) m y) = S m)
            by (rewrite shuffle_down_length; lia).
          rewrite (@firstn_all2 _ (S m)) by lia.
          rewrite firstn_app, Hl.
          replace (k - S m)%nat with O by lia.
          cbn [firstn]. apply app_nil_r. }
        rewrite Es.
        destruct (mem (nth d x O) t) eqn:E; cbn [negb].
        -- apply mem_In in E. apply count_occ_not_In. intros Hin.
           apply samples_members in Hin; [|lia|exact Hynd].
           destruct Hin as [_ [Hin _]].
           apply Hin, Hyin in E. now destruct E.
        -- apply IH; try assumption.
           intros b Hb. apply Hyin. split; [now apply Hincl|].
           intros ->. apply mem_In in Hb. congruence.
Qed.
Lemma count_occ_map_Ok (l : list (list nat)) (t : list nat) :
  count_occ sample_eq_dec (map Ok l) (Ok t)
  = count_occ arrangement_eq_dec l t.
Proof.
  induction l as [|s l IH]; [reflexivity|].
  cbn [map count_occ]. rewrite IH.
  destruct (sample_eq_dec (Ok s) (Ok t)) as [E|E];
    destruct (arrangement_eq_dec s t) as [E'|E']; try reflexivity.
  - injection E as E. contradiction.
  - subst. contradiction.
Qed.

(** Uniformity of [choice]: of the [n!] vectors of bounded draws, exactly
    [(n - size)!] lead to any given arrangement of [size] distinct indices
    below [n]. *)
Lemma choice_uniform (n size : nat) (t : list nat) :
  (size <= n)%nat -> (0 < n)%nat ->
  length t = size -> NoDup t -> Forall (fun i => (i < n)%nat) t ->
  length (draw_vectors (n - 1)) = fact n
  /\ count_occ sample_eq_dec
       (map (fun ds => Random.choice (stream_of ds) n size)
            (draw_vectors (n - 1)))
       (Ok t)
     = fact (n - size).
Proof.
  intros Hle Hn Hlen Hnd Hin.
  destruct n as [|m]; [lia|]. cbn [Nat.sub]. rewrite Nat.sub_0_r.
  split; [apply draw_vectors_length|].
  assert (E : (S m <? size)%nat = false) by (apply Nat.ltb_ge; exact Hle).
  unfold Random.choice. rewrite E.
  rewrite <- (map_map (fun ds => firstn size (Random.permutation (stream_of ds) (S m))) Ok).
  rewrite count_occ_map_Ok.
  unfold Random.permutation. cbn [Nat.sub]. rewrite Nat.sub_0_r.
  apply (@samples_count m (seq 0 (S m)) size t).
  - apply length_seq.
  - apply seq_NoDup.
  - exact Hle.
  - exact Hlen.
  - exact Hnd.
  - intros i Hi. rewrite Forall_forall in Hin. apply in_seq.
    specialize (Hin i Hi). lia.
Qed.

(** C7.  With more than 100,000 valid cells the histogram is built from
    the cells at exactly 100,000 indices drawn without replacement: the
    indices are pairwise distinct and inside the valid array, so every
    sampled cell is a valid cell.  The draw is uniform: the shuffle behind it
    takes one bounded draw for each of its [n - 1] steps, and of the [n!]
    vectors of such draws exactly [(n - 100000)!] lead to any given
    arrangement of 100,000 distinct indices, so under uniform independent
    draws every arrangement, and hence every set, of 100,000 distinct indices
    is equally likely.  With at most 100,000 valid cells (and at least one)
    the histogram is built from all of them.  The first and the last part hold
    for every state of the random generator. *)
Theorem histogram_sampling
  (rng : Random.generator) (d : tif_data) (file_name : string) :
  let valid_data :=
    filter (valid_mask (nodata (metadata d))) (concat (data d)) in
  ((100000 < Z.of_nat (length valid_data))%Z ->
   exists idx hist,
     Random.choice rng (length valid_data) (Z.to_nat 100000) = Ok idx
     /\ NoDup idx
     /\ Forall (fun i => (i < length valid_data)%nat) idx
     /\ hist = map (fun i => nth i valid_data NaN) idx
     /\ Z.of_nat (length hist) = 100000%Z
     /\ (forall c, In c hist -> In c valid_data)
     /\ In (distribution_chart hist file_name)
           (_create_tif_visualizations rng d file_name)
     /\ length (draw_vectors (length valid_data - 1))
        = fact (length valid_data)
     /\ (forall t,
           length t = Z.to_nat 100000 -> NoDup t ->
           Forall (fun i => (i < length valid_data)%nat) t ->
           count_occ sample_eq_dec
             (map (fun ds =>
                     Random.choice (stream_of ds) (length valid_data)
                       (Z.to_nat 100000))
                  (draw_vectors (length valid_data - 1)))
             (Ok t)
           = fact (length valid_data - Z.to_nat 100000)))
  /\ ((0 < Z.of_nat (length valid_data) <= 100000)%Z ->
      In (distribution_chart valid_data file_name)
         (_create_tif_visualizations rng d file_name)).
Proof.
  intros valid_data. split.
  - intros Hbig.
    destruct (@choice_spec rng (length valid_data) (Z.to_nat 100000))
      as [idx [Hc [Hlen [Hnd Hin]]]]; [lia|].
    exists idx, (map (fun i => nth i valid_data NaN) idx).
    split; [exact Hc|]. split; [exact Hnd|]. split; [exact Hin|].
    split; [reflexivity|].
    split; [rewrite length_map, Hlen; lia|].
    split.
    + intros c Hc'. apply in_map_iff in Hc'. destruct Hc' as [i [<- Hi]].
      apply nth_In. rewrite Forall_forall in Hin. now apply Hin.
    + split.
      * apply tif_visualizations_histogram.
        -- fold valid_data. intros E. rewrite E in Hbig. simpl in Hbig. lia.
        -- fold valid_data. unfold histogram_data.
           assert (E : (100000 <? Z.of_nat (length valid_data))%Z = true)
             by (apply Z.ltb_lt; exact Hbig).
           rewrite E, Hc. unfold bind. now apply take_indices_spec.
      * assert (Hk : (Z.to_nat 100000 <= length valid_data)%nat) by lia.
        assert (Hpos : (0 < length valid_data)%nat) by lia.
        split.
        -- destruct (length valid_data) as [|m]; [lia|].
           cbn [Nat.sub]. rewrite Nat.sub_0_r. apply draw_vectors_length.
        -- intros t Ht Hnt Hin'.
           exact (proj2 (choice_uniform Hk Hpos Ht Hnt Hin')).
  - intros [Hpos Hsmall].
    apply tif_visualizations_histogram.
    + fold valid_data. intros E. rewrite E in Hpos. simpl in Hpos. lia.
    + fold valid_data. unfold histogram_data.
      assert (E : (100000 <? Z.of_nat (length valid_data))%Z = false)
        by (apply Z.ltb_ge; exact Hsmall).
      now rewrite E.
Qed.

Lemma filter_repeat_true {A : Type} (f : A -> bool) (a : A) (n : nat) :
  f a = true -> filter f (repeat a n) = repeat a n.
Proof.
  intros H. induction n as [|n IH]; [reflexivity|].
  simpl. now rewrite H, IH.
Qed.

Lemma one_row_valid (n : nat) :
  filter (valid_mask None) (concat [repeat (cell 5) n]) = repeat (cell 5) n.
Proof.
  cbn [concat]. rewrite app_nil_r. apply filter_repeat_true. reflexivity.
Qed.

Lemma wide_raster_valid :
  filter (valid_mask (nodata (metadata wide_raster)))
         (concat (data wide_raster))
  = repeat (cell 5) (Z.to_nat 100001).
Proof.
  exact (one_row_valid (Z.to_nat 100001)).
Qed.

Lemma histogram_sampling_witness :
  In (distribution_chart [cell 1; cell 2; cell 3] "small.tif")
     (_create_tif_visualizations (fun _ => O)
        (as_raster [[cell 1; cell 2; cell 3]] None) "small.tif")
  /\ exists idx hist,
       Random.choice (fun i => i) (Z.to_nat 100001) (Z.to_nat 100000) = Ok idx
       /\ NoDup idx
       /\ Z.of_nat (length hist) = 100000%Z
       /\ (forall c, In c hist -> c = cell 5)
       /\ In (distribution_chart hist "wide.tif")
             (_create_tif_visualizations (fun i => i) wide_raster "wide.tif").
Proof.
  split.
  - apply (proj2 (histogram_sampling (fun _ => O)
                    (as_raster [[cell 1; cell 2; cell 3]] None) "small.tif")).
    cbn. lia.
  - destruct (proj1 (histogram_sampling (fun i => i) wide_raster "wide.tif"))
      as [idx [hist [Hc [Hnd [_ [_ [Hlen [Hin [Hviz _]]]]]]]]].
    + rewrite wide_raster_valid, repeat_length. lia.
    + rewrite wide_raster_valid in Hc, Hin. rewrite repeat_length in Hc.
      exists idx, hist.
      split; [exact Hc|]. split; [exact Hnd|]. split; [exact Hlen|].
      split; [|exact Hviz].
      intros c Hc'. exact (repeat_spec _ _ _ (Hin c Hc')).
Defined.

(* ------------------------------------------------------------------ *)
(** * Table analysis: duplicates and the end-to-end scenario *)

(** The mark of the [k]-th row: some earlier row equals it. *)
Lemma duplicated_from_spec (rs : list (list Pd.cell)) :
  forall seen k r,
    nth_error rs k = Some r ->
    nth_error (Pd.duplicated_from seen rs) k
    = Some (existsb (Pd.row_eqb r) (seen ++ firstn k rs)).
Proof.
  induction rs as [|r0 rs IH]; intros seen k r Hk.
  - destruct k; discriminate.
  - destruct k as [|k]; simpl in *.
    + injection Hk as <-. now rewrite app_nil_r.
    + rewrite (IH _ _ _ Hk). now rewrite <- app_assoc.
Qed.

Lemma duplicated_spec (df : DataFrame) (k : nat) (r : list Pd.cell) :
  nth_error (Pd.rows df) k = Some r ->
  nth_error (Pd.duplicated df) k
  = Some (existsb (Pd.row_eqb r) (firstn k (Pd.rows df))).
Proof.
  intros H. unfold Pd.duplicated. now rewrite (duplicated_from_spec _ [] _ H).
Qed.

(** C6.  A row is marked as a duplicate exactly when its tuple of cells
    equals that of an earlier row; on the table
    [{age: [25, 30, 25], city: ["A", "B", "A"]}] the analyzer reports 3 rows
    and 2 columns, 1 duplicate row (the third), the numeric column [age] with
    count 3 and mean 80/3 (26.667 to three decimals), and the categorical
    column [city] with 2 distinct values and top values A: 2, B: 1. *)
Theorem tabular_scenario :
  (forall (df : DataFrame) (k : nat) (r : list Pd.cell),
      nth_error (Pd.rows df) k = Some r ->
      nth_error (Pd.duplicated df) k
      = Some (existsb (Pd.row_eqb r) (firstn k (Pd.rows df))))
  /\ shape (tb_summary (_analyze_tabular_data people)) = (3%nat, 2%nat)
  /\ Pd.duplicated people = [false; false; true]
  /\ duplicates (tb_summary (_analyze_tabular_data people)) = 1%nat
  /\ (exists row m,
        tb_numeric_summary (_analyze_tabular_data people)
        = Some [("age"%string, row)]
        /\ Pd.d_count row = 3%nat
        /\ Pd.d_mean row = Fin m
        /\ m == 80 # 3
        /\ 266665 # 10000 <= m /\ m < 266675 # 10000)
  /\ tb_categorical_summary (_analyze_tabular_data people)
     = Some [("city"%string,
              {| unique_values := 2;
                 top_values := [("A"%string, 2%nat); ("B"%string, 1%nat)] |})].
Proof.
  split; [exact duplicated_spec|].
  split; [reflexivity|].
  split; [reflexivity|].
  split; [reflexivity|].
  split; [|reflexivity].
  exists (Pd.describe_column age_column). eexists.
  split; [reflexivity|].
  split; [reflexivity|].
  split; [reflexivity|].
  split; [reflexivity|].
  split; [discriminate|reflexivity].
Qed.

(* ------------------------------------------------------------------ *)
(** * The two standard deviations *)















(* ------------------------------------------------------------------ *)
(** * The report: counts, identifiers drawn, and what a rendering depends on *)

Lemma dict_get_set_same {V : Type} (key : string) (v : V)
  (d : list (string * V)) : dict_get key (dict_set key v d) = Some v.
Proof.
  induction d as [|[k v0] d IH]; simpl.
  - now rewrite String.eqb_refl.
  - destruct (String.eqb k key) eqn:E; simpl; rewrite E; [reflexivity|exact IH].
Qed.

Section RenderingFacts.

Variable plot_div : string -> fig -> string.
Variables format_grouped : Z -> string.
Variable format_fixed : nat -> f64 -> string.
Variable py_str : pyval -> string.
Variable py_title : string -> string.
Variables page_prologue page_banner page_epilogue : string.

(** Serializing the charts of one record draws one identifier per chart
    and writes no file. *)
Lemma viz_html_entries_world (uuid4 : nat -> string) (name : string)
  (vs : list visualization) :
  forall w,
    length (fst (viz_html_entries plot_div uuid4 name vs w)) = length vs
    /\ uuid_drawn (snd (viz_html_entries plot_div uuid4 name vs w))
       = (uuid_drawn w + length vs)%nat
    /\ files (snd (viz_html_entries plot_div uuid4 name vs w)) = files w.
Proof.
  induction vs as [|viz vs IH]; intros w; simpl.
  - repeat split. lia.
  - destruct (IH {| uuid_drawn := S (uuid_drawn w); files := files w |})
      as [H1 [H2 H3]].
    destruct (viz_html_entries plot_div uuid4 name vs _) as [tl w2].
    simpl in *. repeat split; [now rewrite H1|lia|exact H3].
Qed.

Lemma all_viz_entries_world (uuid4 : nat -> string)
  (results : list (string * analysis)) :
  forall w,
    length (fst (all_viz_entries plot_div uuid4 results w))
    = total_visualizations results
    /\ uuid_drawn (snd (all_viz_entries plot_div uuid4 results w))
       = (uuid_drawn w + total_visualizations results)%nat
    /\ files (snd (all_viz_entries plot_div uuid4 results w)) = files w.
Proof.
  induction results as [|[name a] results IH]; intros w; simpl.
  - repeat split. unfold total_visualizations. simpl. lia.
  - destruct (viz_html_entries_world uuid4 name (visualizations a) w)
      as [H1 [H2 H3]].
    destruct (viz_html_entries plot_div uuid4 name (visualizations a) w)
      as [hd w1].
    destruct (IH w1) as [G1 [G2 G3]].
    destruct (all_viz_entries plot_div uuid4 results w1) as [tl w2].
    simpl in *. unfold total_visualizations in *. simpl.
    repeat split; [rewrite length_app; lia|lia|congruence].
Qed.

(** The charts of a section depend on the identifiers drawn for them, and
    on nothing else of the world. *)
Lemma charts_html_agree (u1 u2 : nat -> string) (vs : list visualization) :
  forall w1 w2,
    (forall k, (k < length vs)%nat ->
               u1 (uuid_drawn w1 + k)%nat = u2 (uuid_drawn w2 + k)%nat) ->
    fst (charts_html plot_div u1 vs w1) = fst (charts_html plot_div u2 vs w2).
Proof.
  induction vs as [|viz vs IH]; intros w1 w2 H; [reflexivity|].
  simpl.
  specialize (IH {| uuid_drawn := S (uuid_drawn w1); files := files w1 |}
                 {| uuid_drawn := S (uuid_drawn w2); files := files w2 |}).
  destruct (charts_html plot_div u1 vs _) as [t1 w1'].
  destruct (charts_html plot_div u2 vs _) as [t2 w2'].
  simpl in *.
  rewrite IH.
  - pose proof (H O ltac:(lia)) as H0. rewrite !Nat.add_0_r in H0.
    now rewrite H0.
  - intros k Hk. specialize (H (S k) ltac:(lia)).
    now rewrite !Nat.add_succ_r in H.
Qed.

Lemma charts_html_world (uuid4 : nat -> string) (vs : list visualization) :
  forall w,
    uuid_drawn (snd (charts_html plot_div uuid4 vs w))
    = (uuid_drawn w + length vs)%nat
    /\ files (snd (charts_html plot_div uuid4 vs w)) = files w.
Proof.
  induction vs as [|viz vs IH]; intros w; simpl.
  - split; [lia|reflexivity].
  - destruct (IH {| uuid_drawn := S (uuid_drawn w); files := files w |})
      as [H2 H3].
    destruct (charts_html plot_div uuid4 vs _) as [tl w2].
    simpl in *. split; [lia|exact H3].
Qed.

#[local] Abbreviation section_html' u :=
  (section_html plot_div u format_grouped format_fixed py_str py_title).
#[local] Abbreviation sections_html' u :=
  (sections_html plot_div u format_grouped format_fixed py_str py_title).
#[local] Abbreviation generate_dashboard' u :=
  (generate_dashboard plot_div u format_grouped format_fixed py_str py_title
     page_prologue page_banner page_epilogue).
#[local] Abbreviation rendered' u :=
  (rendered plot_div u format_grouped format_fixed py_str py_title
     page_prologue page_banner page_epilogue).

Lemma section_html_world (uuid4 : nat -> string) (name : string)
  (a : analysis) (w : world) :
  uuid_drawn (snd (section_html' uuid4 name a w))
  = (uuid_drawn w + length (visualizations a))%nat
  /\ files (snd (section_html' uuid4 name a w)) = files w.
Proof.
  unfold section_html.
  destruct (visualizations a) as [|viz vs] eqn:E.
  - simpl. split; [lia|reflexivity].
  - pose proof (charts_html_world uuid4 (viz :: vs) w) as H.
    destruct (charts_html plot_div uuid4 (viz :: vs) w) as [h w1].
    exact H.
Qed.

Lemma section_html_agree (u1 u2 : nat -> string) (name : string)
  (a : analysis) (w1 w2 : world) :
  (forall k, (k < length (visualizations a))%nat ->
             u1 (uuid_drawn w1 + k)%nat = u2 (uuid_drawn w2 + k)%nat) ->
  fst (section_html' u1 name a w1) = fst (section_html' u2 name a w2).
Proof.
  intros H. unfold section_html.
  destruct (visualizations a) as [|viz vs] eqn:E; [reflexivity|].
  pose proof (charts_html_agree u1 u2 (viz :: vs) w1 w2 H) as Hc.
  destruct (charts_html plot_div u1 (viz :: vs) w1) as [h1 w1'].
  destruct (charts_html plot_div u2 (viz :: vs) w2) as [h2 w2'].
  simpl in Hc. subst h2. reflexivity.
Qed.

Lemma sections_html_world (uuid4 : nat -> string)
  (results : list (string * analysis)) :
  forall w,
    uuid_drawn (snd (sections_html' uuid4 results w))
    = (uuid_drawn w + total_visualizations results)%nat
    /\ files (snd (sections_html' uuid4 results w)) = files w.
Proof.
  induction results as [|[name a] results IH]; intros w; simpl.
  - unfold total_visualizations. simpl. split; [lia|reflexivity].
  - destruct (section_html_world uuid4 name a w) as [H2 H3].
    destruct (section_html' uuid4 name a w) as [hd w1].
    destruct (IH w1) as [G2 G3].
    destruct (sections_html' uuid4 results w1) as [tl w2].
    simpl in *. unfold total_visualizations in *. simpl.
    split; [lia|congruence].
Qed.

Lemma sections_html_agree (u1 u2 : nat -> string)
  (results : list (string * analysis)) :
  forall w1 w2,
    (forall k, (k < total_visualizations results)%nat ->
               u1 (uuid_drawn w1 + k)%nat = u2 (uuid_drawn w2 + k)%nat) ->
    fst (sections_html' u1 results w1) = fst (sections_html' u2 results w2).
Proof.
  induction results as [|[name a] results IH]; intros w1 w2 H;
    [reflexivity|].
  simpl.
  unfold total_visualizations in H. simpl in H.
  assert (Hs : fst (section_html' u1 name a w1)
               = fst (section_html' u2 name a w2)).
  { apply section_html_agree. intros k Hk. apply H. lia. }
  destruct (section_html_world u1 name a w1) as [A1 _].
  destruct (section_html_world u2 name a w2) as [A2 _].
  destruct (section_html' u1 name a w1) as [h1 w1'].
  destruct (section_html' u2 name a w2) as [h2 w2'].
  simpl in Hs, A1, A2. subst h2.
  specialize (IH w1' w2').
  destruct (sections_html' u1 results w1') as [t1 w1''].
  destruct (sections_html' u2 results w2') as [t2 w2''].
  simpl in *. rewrite IH; [reflexivity|].
  intros k Hk. rewrite A1, A2, <- !Nat.add_assoc. apply H.
  fold (total_visualizations results) in *. lia.
Qed.

(** The page written by [generate_dashboard], as a function of the
    identifiers drawn in its second pass. *)
Lemma rendered_agree (u1 u2 : nat -> string) (self : analyzer)
  (output_file : string) (w1 w2 : world) :
  let n := total_visualizations (analysis_results self) in
  (forall k, (n <= k < 2 * n)%nat ->
             u1 (uuid_drawn w1 + k)%nat = u2 (uuid_drawn w2 + k)%nat) ->
  rendered' u1 self output_file w1 = rendered' u2 self output_file w2.
Proof.
  intros n H. unfold rendered, generate_dashboard.
  destruct (all_viz_entries_world u1 (analysis_results self) w1)
    as [L1 [D1 _]].
  destruct (all_viz_entries_world u2 (analysis_results self) w2)
    as [L2 [D2 _]].
  destruct (all_viz_entries plot_div u1 (analysis_results self) w1)
    as [e1 w1'].
  destruct (all_viz_entries plot_div u2 (analysis_results self) w2)
    as [e2 w2'].
  simpl in L1, L2, D1, D2.
  assert (Hs : fst (sections_html' u1 (analysis_results self) w1')
               = fst (sections_html' u2 (analysis_results self) w2')).
  { apply sections_html_agree. intros k Hk.
    rewrite D1, D2, <- !Nat.add_assoc. apply H. fold n. lia. }
  destruct (sections_html' u1 (analysis_results self) w1') as [s1 w1''].
  destruct (sections_html' u2 (analysis_results self) w2') as [s2 w2''].
  simpl in Hs. subst s2. cbn [files].
  rewrite !dict_get_set_same.
  unfold dashboard_overview. rewrite L1, L2. reflexivity.
Qed.

(** What a call of [generate_dashboard] does to the analyzer object and to
    the world. *)
Lemma generate_dashboard_effect (uuid4 : nat -> string) (self : analyzer)
  (output_file : string) (w : world) :
  exists html,
    generate_dashboard' uuid4 self output_file w
    = (output_file, self,
       {| uuid_drawn :=
            uuid_drawn w + 2 * total_visualizations (analysis_results self);
          files := dict_set output_file html (files w) |}).
Proof.
  unfold generate_dashboard.
  destruct (all_viz_entries_world uuid4 (analysis_results self) w)
    as [_ [D1 F1]].
  destruct (all_viz_entries plot_div uuid4 (analysis_results self) w)
    as [e1 w1].
  destruct (sections_html_world uuid4 (analysis_results self) w1)
    as [D2 F2].
  destruct (sections_html' uuid4 (analysis_results self) w1) as [s1 w2].
  simpl in *. eexists. rewrite D2, D1, F2, F1.
  f_equal. f_equal; first [lia | reflexivity].
Qed.

End RenderingFacts.

(** The overview's chart count is the number of charts held by the
    records. *)
Lemma overview_visualizations_count (plot_div : string -> fig -> string)
  (uuid4 : nat -> string) (self : analyzer) (w : world) :
  visualizations_count
    (dashboard_overview self
       (fst (all_viz_entries plot_div uuid4 (analysis_results self) w)))
  = total_visualizations (analysis_results self).
Proof.
  simpl. apply all_viz_entries_world.
Qed.

(** C5, as the code has it.  A call of [generate_dashboard] returns the
    analyzer object as it was (its records and their chart lists are
    unchanged), writes one file and draws two identifiers per chart.  The
    page written is determined by the analyzer object and by the identifiers
    drawn in the second pass: two renderings that draw the same identifiers
    there write the same page. *)
Theorem rendering_keeps_report_and_depends_on_drawn_ids
  (plot_div : string -> fig -> string)
  (format_grouped : Z -> string) (format_fixed : nat -> f64 -> string)
  (py_str : pyval -> string) (py_title : string -> string)
  (page_prologue page_banner page_epilogue : string)
  (self : analyzer) (output_file : string) :
  let n := total_visualizations (analysis_results self) in
  (forall (uuid4 : nat -> string) (w : world),
      exists html,
        generate_dashboard plot_div uuid4 format_grouped format_fixed py_str
          py_title page_prologue page_banner page_epilogue self output_file w
        = (output_file, self,
           {| uuid_drawn := uuid_drawn w + 2 * n;
              files := dict_set output_file html (files w) |}))
  /\ (forall (u1 u2 : nat -> string) (w1 w2 : world),
         (forall k, (n <= k < 2 * n)%nat ->
                    u1 (uuid_drawn w1 + k)%nat = u2 (uuid_drawn w2 + k)%nat) ->
         rendered plot_div u1 format_grouped format_fixed py_str py_title
           page_prologue page_banner page_epilogue self output_file w1
         = rendered plot_div u2 format_grouped format_fixed py_str py_title
             page_prologue page_banner page_epilogue self output_file w2).
Proof.
  intros n. split.
  - intros uuid4 w. apply generate_dashboard_effect.
  - intros u1 u2 w1 w2 H. now apply rendered_agree.
Qed.

(* ------------------------------------------------------------------ *)
(** * A run over two discovered files, one of which cannot be decoded *)

(** C4, at a run with one undecodable file.  The loop of
    [run_full_analysis] skips the corrupt file, so one record exists; the
    overview still counts, under "Files Analyzed", "File Types" and "Total
    Size", the two discovered files, their two type tags and their 30 bytes,
    where the record has one type tag and a source of 10 bytes.  The chart
    count is the one chart of the record. *)
Theorem overview_counts_discovered_files :
  process_files demo_read_table demo_rasterio_open demo_rng
    {| data_files := demo_discovered; analysis_results := [] |}
    demo_discovered
  = Ok demo_state
  /\ length (analysis_results demo_state) = 1%nat
  /\ length (nodup string_dec
               (map (fun r => file_type (snd r)) (analysis_results demo_state)))
     = 1%nat
  /\ sum_Z (record_sizes demo_state) = 10%Z
  /\ total_visualizations (analysis_results demo_state) = 1%nat
  /\ forall (plot_div : string -> fig -> string) (uuid4 : nat -> string)
            (w : world),
       let o :=
         dashboard_overview demo_state
           (fst (all_viz_entries plot_div uuid4 (analysis_results demo_state) w))
       in
       files_analyzed o = 2%nat
       /\ file_types o = 2%nat
       /\ total_size o = 30%Z
       /\ visualizations_count o = 1%nat.
Proof.
  split; [vm_compute; reflexivity|].
  split; [reflexivity|].
  split; [vm_compute; reflexivity|].
  split; [vm_compute; reflexivity|].
  split; [vm_compute; reflexivity|].
  intros plot_div uuid4 w o.
  split; [reflexivity|].
  split; [vm_compute; reflexivity|].
  split; [vm_compute; reflexivity|].
  unfold o. rewrite overview_visualizations_count. vm_compute. reflexivity.
Qed.

(* ------------------------------------------------------------------ *)
(** * Two renderings of one report *)

(** The demo state is what [run_full_analysis] leaves behind. *)
Lemma demo_run :
  exists w,
    run_full_analysis demo_plot_div demo_uuid4 str_Z
      (fun _ _ => "0.0"%string) (fun _ => "-"%string) (fun s => s)
      "<html>" "<body>" "</html>"
      demo_read_table demo_rasterio_open demo_rng
      demo_discovered {| data_files := []; analysis_results := [] |}
      fresh_world
    = Ok (Some "universal_dashboard.html"%string, demo_state, w).
Proof. eexists. vm_compute. reflexivity. Qed.

(** C5, as stated, fails: the report of the demo run, rendered twice in a
    row, is unchanged by the first rendering, and the two pages differ (in
    the identifier of the chart's element). *)
Lemma rendering_twice_differs :
  let '(_, self', w') :=
    demo_generate demo_state "universal_dashboard.html" fresh_world in
  self' = demo_state
  /\ demo_rendered demo_state "universal_dashboard.html" fresh_world
     <> demo_rendered self' "universal_dashboard.html" w'.
Proof.
  vm_compute. split; [reflexivity|]. intros H. discriminate H.
Qed.

(* ------------------------------------------------------------------ *)
(** * Discovery: what a discovered file can be *)

Lemma dict_set_In {V : Type} (key : string) (value : V)
  (d : list (string * V)) (k : string) (v : V) :
  In (k, v) (dict_set key value d) -> (k, v) = (key, value) \/ In (k, v) d.
Proof.
  induction d as [|[k0 v0] d IH]; simpl.
  - intros [H|[]]. left. now symmetry.
  - destruct (String.eqb k0 key) eqn:E.
    + apply String.eqb_eq in E. subst k0.
      intros [H|H]; [left; now symmetry|right; now right].
    + intros [H|H]; [right; now left|].
      destruct (IH H) as [H'|H']; [now left|right; now right].
Qed.

Lemma dict_set_keys {V : Type} (key : string) (value : V)
  (d : list (string * V)) :
  map fst (dict_set key value d)
  = if existsb (String.eqb key) (map fst d) then map fst d
    else map fst d ++ [key].
Proof.
  induction d as [|[k0 v0] d IH]; simpl; [reflexivity|].
  rewrite (String.eqb_sym key k0).
  destruct (String.eqb k0 key) eqn:E; simpl.
  - apply String.eqb_eq in E. now subst.
  - rewrite IH. now destruct (existsb _ _).
Qed.

Lemma existsb_eqb_In (key : string) (l : list string) :
  existsb (String.eqb key) l = true <-> In key l.
Proof.
  rewrite existsb_exists. split.
  - intros [x [Hx E]]. apply String.eqb_eq in E. now subst.
  - intros H. exists key. split; [exact H|apply String.eqb_refl].
Qed.

Definition readable_types : list string :=
  (table_types ++ ["tif"%string])%list.

Lemma supported_extension_type (caps : capabilities) (ext t : string) :
  dict_get ext (supported_extensions caps) = Some (Some t) ->
  In t readable_types
  /\ (t = "tif"%string -> TIF_SUPPORT caps = true)
  /\ (t = "excel"%string -> EXCEL_SUPPORT caps = true)
  /\ (t = "parquet"%string -> PARQUET_SUPPORT caps = true).
Proof.
  unfold supported_extensions.
  destruct caps as [tif excel parquet]; cbn [TIF_SUPPORT EXCEL_SUPPORT PARQUET_SUPPORT].
  cbn [dict_get].
  repeat match goal with
         | |- context [String.eqb ?a ext] => destruct (String.eqb a ext)
         end;
    destruct tif; destruct excel; destruct parquet;
    intros H; try discriminate H; injection H as <-;
    (split; [cbv; tauto|]); repeat split; intros E; try reflexivity;
    discriminate E.
Qed.

(** What holds of every entry of the discovered dictionary. *)
Definition discovered_from (caps : capabilities) (listing : list dir_entry)
  (name : string) (info : file_info) : Prop :=
  exists e,
    In e listing /\ entry_is_file e = true
    /\ name = entry_name e /\ path info = entry_path e
    /\ size info = st_size e /\ modified info = st_mtime e
    /\ dict_get (lower (entry_suffix e)) (supported_extensions caps)
       = Some (Some (type info)).

Lemma discover_fold_sound (caps : capabilities) (listing : list dir_entry) :
  forall (seen : list dir_entry) (acc : list (string * file_info)),
    (forall name info, In (name, info) acc ->
                       discovered_from caps (seen ++ listing) name info) ->
    forall name info,
      In (name, info) (fold_left (discover_entry caps) listing acc) ->
      discovered_from caps (seen ++ listing) name info.
Proof.
  induction listing as [|e listing IH]; intros seen acc Hacc name info Hin.
  - now apply Hacc.
  - simpl in Hin.
    replace (seen ++ e :: listing) with ((seen ++ [e]) ++ listing)
      by (rewrite <- app_assoc; reflexivity).
    apply (IH (seen ++ [e]) (discover_entry caps acc e)); [|exact Hin].
    clear Hin name info. intros name info Hin.
    rewrite <- app_assoc. simpl.
    unfold discover_entry in Hin.
    destruct (entry_is_file e) eqn:Efile; [|now apply Hacc].
    cbv zeta in Hin.
    destruct (dict_get (lower (entry_suffix e)) (supported_extensions caps))
      as [[t|]|] eqn:Eext; try now apply Hacc.
    apply dict_set_In in Hin. destruct Hin as [Hnew|Hold]; [|now apply Hacc].
    injection Hnew as -> ->.
    exists e. repeat split; try assumption; try reflexivity.
    apply in_or_app. right. now left.
Qed.

(** X1.  Every entry of the dictionary returned by [discover_data_files]
    comes from a regular file of the listing, carries that file's path, size
    and modification time, and has the type tag that the table of supported
    extensions gives for the lower-cased suffix.  Its tag is therefore one of
    the seven that [read_data_file] dispatches on, and a tag whose decoding
    library is missing never appears. *)
Theorem discovered_files_are_supported
  (caps : capabilities) (listing : list dir_entry)
  (name : string) (info : file_info) :
  In (name, info) (discover_data_files caps listing) ->
  discovered_from caps listing name info
  /\ In (type info) readable_types
  /\ (type info = "tif"%string -> TIF_SUPPORT caps = true)
  /\ (type info = "excel"%string -> EXCEL_SUPPORT caps = true)
  /\ (type info = "parquet"%string -> PARQUET_SUPPORT caps = true).
Proof.
  intros Hin.
  assert (Hd : discovered_from caps listing name info).
  { apply (@discover_fold_sound caps listing [] []); [intros ? ? []|exact Hin]. }
  split; [exact Hd|].
  destruct Hd as [e [_ [_ [_ [_ [_ [_ Hext]]]]]]].
  exact (@supported_extension_type caps _ _ Hext).
Qed.

Definition sample_caps : capabilities :=
  {| TIF_SUPPORT := true; EXCEL_SUPPORT := false; PARQUET_SUPPORT := false |}.

Definition sample_info : file_info :=
  {| path := "data/Scene.TIF"; type := "tif"; size := 4096; modified := 0 |}.

Definition sample_listing : list dir_entry :=
  [ {| entry_path := "data/Scene.TIF"; entry_name := "Scene.TIF";
       entry_suffix := ".TIF"; entry_is_file := true;
       st_size := 4096; st_mtime := 0 |};
    {| entry_path := "data/book.xlsx"; entry_name := "book.xlsx";
       entry_suffix := ".xlsx"; entry_is_file := true;
       st_size := 10; st_mtime := 0 |};
    {| entry_path := "data/old.csv"; entry_name := "old.csv";
       entry_suffix := ".csv"; entry_is_file := false;
       st_size := 0; st_mtime := 0 |} ].

Lemma discovered_files_are_supported_witness :
  In (type sample_info) readable_types
  /\ (type sample_info = "tif"%string -> TIF_SUPPORT sample_caps = true).
Proof.
  destruct (@discovered_files_are_supported sample_caps sample_listing
              "Scene.TIF" sample_info) as [_ [H1 [H2 _]]].
  - vm_compute. left. reflexivity.
  - split; assumption.
Defined.

Lemma dict_set_NoDup {V : Type} (key : string) (value : V)
  (d : list (string * V)) :
  NoDup (map fst d) -> NoDup (map fst (dict_set key value d)).
Proof.
  intros H. rewrite dict_set_keys.
  destruct (existsb (String.eqb key) (map fst d)) eqn:E; [exact H|].
  apply NoDup_app; [exact H|repeat constructor; intros []| ].
  intros k Hk [<-|[]].
  apply existsb_eqb_In in Hk. congruence.
Qed.

(** X2.  The names under which [discover_data_files] files its entries are
    pairwise distinct, whatever the listing holds. *)
Theorem discovered_names_distinct
  (caps : capabilities) (listing : list dir_entry) :
  NoDup (map fst (discover_data_files caps listing)).
Proof.
  unfold discover_data_files.
  assert (H : forall acc, NoDup (map fst acc) ->
                NoDup (map fst (fold_left (discover_entry caps) listing acc))).
  { induction listing as [|e listing IH]; intros acc Hacc; [exact Hacc|].
    simpl. apply IH. unfold discover_entry.
    destruct (entry_is_file e); [|exact Hacc]. cbv zeta.
    destruct (dict_get _ _) as [[t|]|]; try exact Hacc.
    now apply dict_set_NoDup. }
  apply H. constructor.
Qed.

(* ------------------------------------------------------------------ *)
(** * Reading a raster *)

(** X4.  [_read_tif_file] yields nothing exactly when the raster decoder
    raises: the no-data detector never makes a read fail.  A raster that opens
    is returned with its band, its dimensions, band count, reference label
    and element kind as decoded, and a declared sentinel is kept as it is. *)
Theorem read_tif_file_fails_only_with_decoder
  (rasterio_open : string -> result raster_src) (file_path : string) :
  (_read_tif_file rasterio_open file_path = None
   <-> exists e, rasterio_open file_path = Raise e)
  /\ forall src,
       rasterio_open file_path = Ok src ->
       exists d,
         _read_tif_file rasterio_open file_path = Some d
         /\ data d = src_band1 src
         /\ width (metadata d) = src_width src
         /\ height (metadata d) = src_height src
         /\ bands (metadata d) = src_count src
         /\ crs (metadata d) = src_crs src
         /\ dtype (metadata d) = src_dtype src
         /\ (forall v, src_nodata src = Some v ->
                       nodata (metadata d) = Some v).
Proof.
  assert (Hok : forall src,
             rasterio_open file_path = Ok src ->
             exists d,
               _read_tif_file rasterio_open file_path = Some d
               /\ data d = src_band1 src
               /\ width (metadata d) = src_width src
               /\ height (metadata d) = src_height src
               /\ bands (metadata d) = src_count src
               /\ crs (metadata d) = src_crs src
               /\ dtype (metadata d) = src_dtype src
               /\ (forall v, src_nodata src = Some v ->
                             nodata (metadata d) = Some v)).
  { intros src Hopen.
    destruct (detect_nodata_total (src_band1 src) (src_nodata src))
      as [nd Hnd].
    eexists. split; [exact (read_tif_file_ok _ _ Hopen Hnd)|].
    simpl. repeat split. intros v Hv. rewrite Hv in Hnd. simpl in Hnd.
    now injection Hnd as <-. }
  split; [|exact Hok]. split.
  - intros Hnone. destruct (rasterio_open file_path) as [src|e] eqn:E.
    + destruct (Hok src eq_refl) as [d [Hd _]]. congruence.
    + now exists e.
  - intros [e He]. unfold _read_tif_file. rewrite He. reflexivity.
Qed.

(* ------------------------------------------------------------------ *)
(** * Raster analysis: counts, failure and not-a-number cells *)

Lemma filter_complement_length {A : Type} (f : A -> bool) (l : list A) :
  (length (filter (fun x => negb (f x)) l) + length (filter f l))%nat
  = length l.
Proof.
  induction l as [|x l IH]; [reflexivity|].
  simpl. destruct (f x); simpl; lia.
Qed.

(** X5.  For a raster with a sentinel, the valid pixel count of the summary
    and the no-data count of the first insight add up to the total pixel
    count. *)
Theorem sentinel_counts_partition_pixels
  (d : tif_data) (nd : f64) (a : tif_analysis) :
  nodata (metadata d) = Some nd ->
  _analyze_tif_data d = Ok a ->
  exists k,
    hd_error (ta_insights a) = Some (SpatialNoData k)
    /\ (valid_pixels (ta_summary a) + k)%nat = total_pixels (ta_summary a).
Proof.
  intros Hnd Ha. unfold _analyze_tif_data in Ha. cbv zeta in Ha.
  assert (Hv : tif_valid_data d
               = Arr1 (filter (fun c => F64.neb c nd) (concat (data d)))).
  { unfold tif_valid_data. now rewrite Hnd. }
  rewrite Hnd, Hv in Ha.
  exists (length (filter (fun c => F64.eqb c nd) (concat (data d)))).
  assert (Hsum : (length (filter (fun c => F64.neb c nd) (concat (data d)))
                  + length (filter (fun c => F64.eqb c nd) (concat (data d))))%nat
                 = length (concat (data d)))
    by apply filter_complement_length.
  destruct (0 <? Np.len _)%nat.
  - destruct (five_stats _) as [st|e]; simpl in Ha; [|discriminate].
    injection Ha as <-. simpl. split; [reflexivity|exact Hsum].
  - simpl in Ha. injection Ha as <-. simpl. split; [reflexivity|exact Hsum].
Qed.

Lemma sentinel_counts_partition_pixels_witness :
  exists a k,
    _analyze_tif_data (as_raster grid_4x4 (Some (cell (-9999)))) = Ok a
    /\ hd_error (ta_insights a) = Some (SpatialNoData k)
    /\ (valid_pixels (ta_summary a) + k)%nat = total_pixels (ta_summary a).
Proof.
  destruct (@valid_pixels_with_sentinel
              (as_raster grid_4x4 (Some (cell (-9999)))) (cell (-9999)) eq_refl)
    as [a [Ha _]].
  destruct (@sentinel_counts_partition_pixels
              (as_raster grid_4x4 (Some (cell (-9999)))) (cell (-9999)) a
              eq_refl Ha) as [k Hk].
  exists a, k. split; [exact Ha|exact Hk].
Defined.

(** X6.  [_analyze_tif_data] raises in one situation only: no sentinel, at
    least one row, and no cell (then [np.min] is applied to an empty array and
    raises [ValueError]).  In every other situation it returns. *)
Theorem analyze_tif_data_raises_iff (d : tif_data) :
  (exists e, _analyze_tif_data d = Raise e)
  <-> (nodata (metadata d) = None /\ data d <> [] /\ concat (data d) = []).
Proof.
  split.
  - intros [e He].
    destruct (nodata (metadata d)) as [nd|] eqn:Hnd.
    + destruct (valid_pixels_with_sentinel d Hnd) as [a [Ha _]]. congruence.
    + destruct (data d) as [|r rows] eqn:Hd.
      * destruct (@analyze_tif_data_ok d) as [a [Ha _]]; [|congruence].
        left. unfold tif_valid_data. now rewrite Hnd, Hd.
      * destruct (concat (r :: rows)) as [|c cs] eqn:Hc.
        -- repeat split. discriminate.
        -- destruct (@analyze_tif_data_ok d) as [a [Ha _]]; [|congruence].
           right. unfold tif_valid_data. rewrite Hnd, Hd. unfold Np.flatten.
           rewrite Hc. discriminate.
  - intros [Hnd [Hd Hc]]. exists ValueError.
    unfold _analyze_tif_data. cbv zeta.
    assert (Hv : tif_valid_data d = Arr2 (data d)).
    { unfold tif_valid_data. now rewrite Hnd. }
    rewrite Hv. simpl Np.len. simpl Np.flatten. rewrite Hc.
    destruct (data d) as [|r rows]; [congruence|]. reflexivity.
Qed.

Lemma fold_minimum_NaN (l : list f64) :
  fold_left F64.minimum l NaN = NaN.
Proof. induction l as [|x l IH]; [reflexivity|]. simpl. exact IH. Qed.

Lemma fold_maximum_NaN (l : list f64) :
  fold_left F64.maximum l NaN = NaN.
Proof. induction l as [|x l IH]; [reflexivity|]. simpl. exact IH. Qed.

Lemma fold_add_NaN (l : list f64) : fold_left F64.add l NaN = NaN.
Proof. induction l as [|x l IH]; [reflexivity|]. simpl. exact IH. Qed.

Lemma minimum_NaN_r (x : f64) : F64.minimum x NaN = NaN.
Proof. now destruct x. Qed.

Lemma maximum_NaN_r (x : f64) : F64.maximum x NaN = NaN.
Proof. now destruct x. Qed.

Lemma add_NaN_r (x : f64) : F64.add x NaN = NaN.
Proof. now destruct x. Qed.

Lemma fold_minimum_In_NaN (l : list f64) :
  In NaN l -> forall acc, fold_left F64.minimum l acc = NaN.
Proof.
  induction l as [|x l IH]; intros Hin acc; [destruct Hin|].
  simpl. destruct Hin as [->|Hin]; [|now apply IH].
  rewrite minimum_NaN_r. apply fold_minimum_NaN.
Qed.

Lemma fold_maximum_In_NaN (l : list f64) :
  In NaN l -> forall acc, fold_left F64.maximum l acc = NaN.
Proof.
  induction l as [|x l IH]; intros Hin acc; [destruct Hin|].
  simpl. destruct Hin as [->|Hin]; [|now apply IH].
  rewrite maximum_NaN_r. apply fold_maximum_NaN.
Qed.

Lemma fold_add_In_NaN (l : list f64) :
  In NaN l -> forall acc, fold_left F64.add l acc = NaN.
Proof.
  induction l as [|x l IH]; intros Hin acc; [destruct Hin|].
  simpl. destruct Hin as [->|Hin]; [|now apply IH].
  rewrite add_NaN_r. apply fold_add_NaN.
Qed.

Lemma divn_NaN (n : nat) : F64.divn NaN n = NaN.
Proof. now destruct n. Qed.

(** Five statistics of an array that holds a not-a-number. *)
Lemma five_stats_NaN (l : list f64) :
  In NaN l ->
  five_stats l
  = Ok {| st_min := NaN; st_max := NaN; st_mean := NaN;
          st_median := NaN; st_std := NaN |}.
Proof.
  intros Hin.
  assert (Hmean : Stats.np_mean l = NaN).
  { unfold Stats.np_mean, Stats.np_sum.
    now rewrite fold_add_In_NaN, divn_NaN. }
  assert (Hmin : Stats.np_min l = Ok NaN).
  { destruct l as [|x l]; [destruct Hin|]. simpl.
    destruct Hin as [->|Hin]; [now rewrite fold_minimum_NaN|].
    now rewrite fold_minimum_In_NaN. }
  assert (Hmax : Stats.np_max l = Ok NaN).
  { destruct l as [|x l]; [destruct Hin|]. simpl.
    destruct Hin as [->|Hin]; [now rewrite fold_maximum_NaN|].
    now rewrite fold_maximum_In_NaN. }
  assert (Hmed : Stats.np_median l = NaN).
  { unfold Stats.np_median.
    assert (E : existsb Stats.isnan l = true).
    { apply existsb_exists. exists NaN. split; [exact Hin|reflexivity]. }
    now rewrite E. }
  assert (Hstd : Stats.np_std l = NaN).
  { unfold Stats.np_std, Stats.variance. cbv zeta. rewrite Hmean.
    unfold Stats.np_sum. rewrite fold_add_In_NaN; [now rewrite divn_NaN|].
    apply in_map_iff. exists NaN. split; [reflexivity|].
    apply in_map_iff. exists NaN. split; [reflexivity|exact Hin]. }
  unfold five_stats. rewrite Hmin, Hmax. simpl.
  now rewrite Hmean, Hmed, Hstd.
Qed.

(** X7.  A not-a-number cell is never equal to the sentinel, so it always
    counts as valid in [_analyze_tif_data]; one such cell anywhere in the
    raster makes the minimum, maximum, mean, median and standard deviation of
    the numeric summary not-a-number. *)
Theorem nan_cell_poisons_numeric_summary (d : tif_data) :
  In NaN (concat (data d)) ->
  exists a,
    _analyze_tif_data d = Ok a
    /\ In NaN (Np.flatten (tif_valid_data d))
    /\ ta_numeric_summary a
       = Some {| st_min := NaN; st_max := NaN; st_mean := NaN;
                 st_median := NaN; st_std := NaN |}.
Proof.
  intros Hin.
  assert (Hv : In NaN (Np.flatten (tif_valid_data d))).
  { unfold tif_valid_data. destruct (nodata (metadata d)) as [nd|];
      [|exact Hin].
    simpl. apply filter_In. split; [exact Hin|reflexivity]. }
  assert (Hlen : (0 <? Np.len (tif_valid_data d))%nat = true).
  { apply Nat.ltb_lt. unfold tif_valid_data in *.
    destruct (nodata (metadata d)) as [nd|]; simpl in *.
    - destruct (filter _ _); [destruct Hv|simpl; lia].
    - destruct (data d); [destruct Hv|simpl; lia]. }
  unfold _analyze_tif_data. cbv zeta.
  rewrite Hlen, (five_stats_NaN _ Hv). simpl.
  eexists. split; [reflexivity|]. split; [exact Hv|reflexivity].
Qed.

Lemma nan_cell_poisons_numeric_summary_witness :
  exists a,
    _analyze_tif_data (as_raster [[cell 1; NaN]; [cell 3; cell 4]] None) = Ok a
    /\ ta_numeric_summary a
       = Some {| st_min := NaN; st_max := NaN; st_mean := NaN;
                 st_median := NaN; st_std := NaN |}.
Proof.
  destruct (@nan_cell_poisons_numeric_summary
              (as_raster [[cell 1; NaN]; [cell 3; cell 4]] None))
    as [a [Ha [_ Hs]]].
  - simpl. right. left. reflexivity.
  - exists a. split; assumption.
Defined.

(* ------------------------------------------------------------------ *)
(** * Raster analysis: the reported minimum and maximum *)

Lemma Qlt_bool_false_iff (a b : Q) : Qlt_bool a b = false <-> b <= a.
Proof.
  unfold Qlt_bool. rewrite negb_false_iff. apply Qle_bool_iff.
Qed.

Lemma leb_refl (x : f64) : Stats.isnan x = false -> F64.leb x x = true.
Proof.
  destruct x as [a| | |]; simpl; intros H; try reflexivity; try discriminate.
  rewrite negb_true_iff. apply Qlt_bool_false_iff. apply Qle_refl.
Qed.

Lemma leb_trans (x y z : f64) :
  F64.leb x y = true -> F64.leb y z = true -> F64.leb x z = true.
Proof.
  destruct x as [a| | |], y as [b| | |], z as [c| | |]; simpl;
    intros H1 H2; try reflexivity; try discriminate.
  rewrite negb_true_iff in *.
  apply Qlt_bool_false_iff in H1. apply Qlt_bool_false_iff in H2.
  apply Qlt_bool_false_iff. eapply Qle_trans; eassumption.
Qed.

Lemma minimum_spec (x y : f64) :
  Stats.isnan x = false -> Stats.isnan y = false ->
  (F64.minimum x y = x \/ F64.minimum x y = y)
  /\ F64.leb (F64.minimum x y) x = true
  /\ F64.leb (F64.minimum x y) y = true.
Proof.
  intros Hx Hy.
  destruct x as [a| | |], y as [b| | |]; simpl in *; try discriminate;
    try (repeat split; auto; rewrite negb_true_iff;
         apply Qlt_bool_false_iff; apply Qle_refl).
  destruct (Qlt_bool b a) eqn:E; simpl; rewrite ?negb_true_iff.
  - apply Qlt_bool_iff in E. repeat split; auto;
      apply Qlt_bool_false_iff; lra.
  - pose proof (proj1 (Qlt_bool_false_iff b a) E).
    repeat split; auto; apply Qlt_bool_false_iff; lra.
Qed.

Lemma maximum_spec (x y : f64) :
  Stats.isnan x = false -> Stats.isnan y = false ->
  (F64.maximum x y = x \/ F64.maximum x y = y)
  /\ F64.leb x (F64.maximum x y) = true
  /\ F64.leb y (F64.maximum x y) = true.
Proof.
  intros Hx Hy.
  destruct x as [a| | |], y as [b| | |]; simpl in *; try discriminate;
    try (repeat split; auto; rewrite negb_true_iff;
         apply Qlt_bool_false_iff; apply Qle_refl).
  destruct (Qlt_bool a b) eqn:E; simpl; rewrite ?negb_true_iff.
  - apply Qlt_bool_iff in E. repeat split; auto;
      apply Qlt_bool_false_iff; lra.
  - pose proof (proj1 (Qlt_bool_false_iff a b) E).
    repeat split; auto; apply Qlt_bool_false_iff; lra.
Qed.

Lemma fold_minimum_spec (l : list f64) :
  forall acc,
    Stats.isnan acc = false ->
    (forall c, In c l -> Stats.isnan c = false) ->
    let m := fold_left F64.minimum l acc in
    In m (acc :: l)
    /\ forall c, In c (acc :: l) -> F64.leb m c = true.
Proof.
  induction l as [|x l IH]; intros acc Hacc Hl; cbv zeta; simpl fold_left.
  - split; [now left|]. intros c [<-|[]]. now apply leb_refl.
  - assert (Hx : Stats.isnan x = false) by (apply Hl; now left).
    destruct (minimum_spec acc x Hacc Hx) as [Hor [H1 H2]].
    assert (Hm : Stats.isnan (F64.minimum acc x) = false)
      by (destruct Hor as [-> | ->]; assumption).
    destruct (IH (F64.minimum acc x) Hm) as [Hin Hle].
    { intros c Hc. apply Hl. now right. }
    split.
    + destruct Hin as [Hin|Hin]; [|right; now right].
      rewrite <- Hin. destruct Hor as [-> | ->]; [now left|right; now left].
    + intros c [<-|[<-|Hc]].
      * eapply leb_trans; [apply Hle; now left|exact H1].
      * eapply leb_trans; [apply Hle; now left|exact H2].
      * apply Hle. now right.
Qed.

Lemma fold_maximum_spec (l : list f64) :
  forall acc,
    Stats.isnan acc = false ->
    (forall c, In c l -> Stats.isnan c = false) ->
    let m := fold_left F64.maximum l acc in
    In m (acc :: l)
    /\ forall c, In c (acc :: l) -> F64.leb c m = true.
Proof.
  induction l as [|x l IH]; intros acc Hacc Hl; cbv zeta; simpl fold_left.
  - split; [now left|]. intros c [<-|[]]. now apply leb_refl.
  - assert (Hx : Stats.isnan x = false) by (apply Hl; now left).
    destruct (maximum_spec acc x Hacc Hx) as [Hor [H1 H2]].
    assert (Hm : Stats.isnan (F64.maximum acc x) = false)
      by (destruct Hor as [-> | ->]; assumption).
    destruct (IH (F64.maximum acc x) Hm) as [Hin Hle].
    { intros c Hc. apply Hl. now right. }
    split.
    + destruct Hin as [Hin|Hin]; [|right; now right].
      rewrite <- Hin. destruct Hor as [-> | ->]; [now left|right; now left].
    + intros c [<-|[<-|Hc]].
      * eapply leb_trans; [exact H1|apply Hle; now left].
      * eapply leb_trans; [exact H2|apply Hle; now left].
      * apply Hle. now right.
Qed.

(** X8.  When no valid cell is a not-a-number, the minimum and the maximum
    of the numeric summary are valid cells of the raster, and every valid
    cell lies between them (infinite cells included). *)
Theorem numeric_summary_min_max_bound
  (d : tif_data) (a : tif_analysis) (st : stats5) :
  _analyze_tif_data d = Ok a ->
  ta_numeric_summary a = Some st ->
  (forall c, In c (Np.flatten (tif_valid_data d)) -> Stats.isnan c = false) ->
  In (st_min st) (Np.flatten (tif_valid_data d))
  /\ In (st_max st) (Np.flatten (tif_valid_data d))
  /\ forall c, In c (Np.flatten (tif_valid_data d)) ->
               F64.leb (st_min st) c = true /\ F64.leb c (st_max st) = true.
Proof.
  intros Ha Hs Hnan. unfold _analyze_tif_data in Ha. cbv zeta in Ha.
  set (valid := Np.flatten (tif_valid_data d)) in *.
  destruct (0 <? Np.len (tif_valid_data d))%nat.
  - unfold five_stats in Ha.
    destruct valid as [|x l] eqn:Ev; [discriminate Ha|].
    simpl in Ha. injection Ha as <-. simpl in Hs. injection Hs as <-.
    simpl st_min. simpl st_max.
    assert (Hx : Stats.isnan x = false) by (apply Hnan; now left).
    assert (Hl : forall c, In c l -> Stats.isnan c = false)
      by (intros c Hc; apply Hnan; now right).
    destruct (fold_minimum_spec l x Hx Hl) as [Hmin Hminle].
    destruct (fold_maximum_spec l x Hx Hl) as [Hmax Hmaxle].
    repeat split; auto.
  - simpl in Ha. injection Ha as <-. discriminate Hs.
Qed.

Lemma numeric_summary_min_max_bound_witness :
  exists a st,
    _analyze_tif_data (as_raster [[cell 2; NInf]; [PInf; cell 4]] None) = Ok a
    /\ ta_numeric_summary a = Some st
    /\ st_min st = NInf /\ st_max st = PInf.
Proof.
  set (d := as_raster [[cell 2; NInf]; [PInf; cell 4]] None).
  destruct (@analyze_tif_data_ok d) as [a [Ha [_ [_ Hst]]]].
  { right. discriminate. }
  destruct Hst as [st [Hs _]]; [discriminate|].
  destruct (@numeric_summary_min_max_bound d a st Ha Hs) as [Hmin [Hmax Hb]].
  { intros c Hc. simpl in Hc. intuition (subst; reflexivity). }
  exists a, st. split; [exact Ha|]. split; [exact Hs|].
  split.
  - destruct (Hb NInf) as [H _]; [simpl; tauto|].
    destruct (st_min st); simpl in H; try discriminate; reflexivity.
  - destruct (Hb PInf) as [_ H]; [simpl; tauto|].
    destruct (st_max st); simpl in H; try discriminate; reflexivity.
Defined.

(* ------------------------------------------------------------------ *)
(** * Raster charts: which charts are emitted, and the heatmap grid *)

Lemma every_from_map {A B : Type} (f : A -> B) (step : nat) (l : list A) :
  forall skip, every_from step skip (map f l) = map f (every_from step skip l).
Proof.
  induction l as [|x l IH]; intros skip; [reflexivity|].
  destruct skip; simpl; now rewrite IH.
Qed.

(** [l[::step][i]] is [l[i * step]]. *)
Lemma every_from_nth {A : Type} (d : A) (s : nat) (l : list A) :
  forall skip i,
    nth i (every_from (S s) skip l) d = nth (skip + i * S s) l d.
Proof.
  induction l as [|x l IH]; intros skip i.
  - simpl every_from.
    transitivity d; [now destruct i|now destruct (skip + i * S s)%nat].
  - destruct skip as [|k]; simpl every_from.
    + destruct i as [|i]; [reflexivity|].
      simpl nth at 1. rewrite IH.
      replace (0 + S i * S s)%nat with (S (s - 0 + i * S s)) by lia.
      reflexivity.
    + rewrite IH. reflexivity.
Qed.

Lemma every_from_length_bounds {A : Type} (s : nat) (l : list A) :
  forall skip,
    let r := length (every_from (S s) skip l) in
    (length l <= r * S s + skip)%nat
    /\ (0 < r -> (r - 1) * S s + skip < length l)%nat.
Proof.
  induction l as [|x l IH]; intros skip; cbv zeta.
  - simpl. split; lia.
  - destruct skip as [|k]; cbn [every_from length].
    + replace (S s - 1)%nat with s by lia.
      destruct (IH s) as [H1 H2]. cbv zeta in H1, H2.
      set (r := length (every_from (S s) s l)) in *.
      rewrite Nat.mul_succ_l. replace (S r - 1)%nat with r by lia.
      split; [lia|]. intros _.
      destruct r as [|r']; [lia|].
      specialize (H2 ltac:(lia)).
      replace (S r' - 1)%nat with r' in H2 by lia.
      rewrite Nat.mul_succ_l. lia.
    + destruct (IH k) as [H1 H2]. cbv zeta in H1, H2.
      set (r := length (every_from (S s) k l)) in *.
      split; [lia|]. intros Hr. specialize (H2 Hr). lia.
Qed.

Lemma nth_map_default {A B : Type} (f : A -> B) (l : list A) (i : nat)
  (d' : A) (d : B) :
  f d' = d -> nth i (map f l) d = f (nth i l d').
Proof. intros <-. apply map_nth. Qed.

(** The gap-filling of the heatmap: a cell outside the mask becomes a
    not-a-number. *)
Definition gap (nodata_value : option f64) (c : f64) : f64 :=
  if valid_mask nodata_value c then c else NaN.

Lemma gap_NaN (nd : option f64) : gap nd NaN = NaN.
Proof. unfold gap. now destruct (valid_mask nd NaN). Qed.

Lemma gap_isfinite (nd : option f64) (c : f64) :
  F64.isfinite (gap nd c) = valid_mask nd c.
Proof.
  unfold gap. destruct (valid_mask nd c) eqn:E; [|reflexivity].
  unfold valid_mask in E. destruct nd as [v|];
    rewrite !andb_true_iff in E; tauto.
Qed.

Lemma filter_isfinite_gap (nd : option f64) (l : list f64) :
  (0 <? length (filter F64.isfinite (map (gap nd) l)))%nat
  = existsb (valid_mask nd) l.
Proof.
  induction l as [|c l IH]; [reflexivity|].
  simpl. rewrite gap_isfinite. destruct (valid_mask nd c); [reflexivity|].
  exact IH.
Qed.

Lemma histogram_data_ok (rng : Random.generator) (valid_data : list f64) :
  exists hist, histogram_data rng valid_data = Ok hist.
Proof.
  unfold histogram_data.
  destruct (100000 <? Z.of_nat (length valid_data))%Z eqn:E; [|eauto].
  apply Z.ltb_lt in E.
  destruct (@choice_spec rng (length valid_data) (Z.to_nat 100000))
    as [idx [Hc [_ [_ Hin]]]]; [lia|].
  rewrite Hc. unfold bind. rewrite take_indices_spec by exact Hin. eauto.
Qed.

(** The raster decimated by 4 in both directions. *)
Definition decimated (g : grid) : grid := every 4 (map (every 4) g).

Lemma clean_sample_is_gapped_decimation (nd : option f64) (g : grid) :
  every 4 (map (every 4)
             (map (map (fun c => if heatmap_mask nd c then c else NaN)) g))
  = map (map (gap nd)) (decimated g).
Proof.
  unfold decimated, every.
  rewrite map_map.
  rewrite <- (every_from_map (map (gap nd))).
  rewrite map_map. f_equal. apply map_ext. intros r.
  rewrite every_from_map. apply map_ext. intros c.
  unfold gap. now rewrite heatmap_mask_valid_mask.
Qed.

(** X9.  The charts of a raster, by tag and in order: a heatmap exactly when
    some cell on the every-fourth-row, every-fourth-column lattice is valid,
    then a statistics chart and a histogram, both exactly when some cell of
    the raster is valid.  So there are at most three charts, a statistics
    chart never comes without the histogram, and a heatmap never comes without
    the two others. *)
Theorem tif_chart_tags
  (rng : Random.generator) (d : tif_data) (file_name : string) :
  let nd := nodata (metadata d) in
  map vtype (_create_tif_visualizations rng d file_name)
  = ((if existsb (valid_mask nd) (concat (decimated (data d)))
      then ["heatmap"%string] else [])
     ++ (if existsb (valid_mask nd) (concat (data d))
         then ["statistics"%string; "histogram"%string] else []))%list
  /\ (existsb (valid_mask nd) (concat (decimated (data d))) = true ->
      existsb (valid_mask nd) (concat (data d)) = true).
Proof.
  intros nd. split.
  - unfold _create_tif_visualizations. cbv zeta. fold nd.
    rewrite clean_sample_is_gapped_decimation.
    rewrite <- (concat_map (gap nd)).
    rewrite filter_isfinite_gap.
    set (valid := filter (valid_mask nd) (concat (data d))).
    assert (Hv : (0 <? length valid)%nat
                 = existsb (valid_mask nd) (concat (data d))).
    { unfold valid. clear. induction (concat (data d)) as [|c l IH];
        [reflexivity|]. simpl. destruct (valid_mask nd c); [reflexivity|].
      exact IH. }
    rewrite Hv.
    destruct (existsb (valid_mask nd) (concat (data d))) eqn:Eall.
    + assert (Hne : valid <> []).
      { apply length_pos_nonnil. now rewrite Hv. }
      destruct (five_stats_ok Hne) as [st [Hst _]]. rewrite Hst.
      destruct (histogram_data_ok rng valid) as [hist Hh]. rewrite Hh.
      unfold bind.
      destruct (existsb (valid_mask nd) (concat (decimated (data d))));
        reflexivity.
    + destruct (existsb (valid_mask nd) (concat (decimated (data d))));
        reflexivity.
  - intros H. apply existsb_exists in H. destruct H as [c [Hc Hm]].
    apply existsb_exists. exists c. split; [|exact Hm].
    unfold decimated in Hc. now apply sample_cells in Hc.
Qed.

(** X10.  The grid of an emitted heatmap is the nearest-neighbour decimation
    of the raster: entry (i, j) is the raster cell (4i, 4j) when that cell is
    valid and a gap (not-a-number) otherwise; it has a quarter of the rows,
    rounded up, one coordinate per row and per column, and the colour range
    is fixed to [6, 12] whatever the data. *)
Theorem heatmap_grid_is_decimation
  (rng : Random.generator) (d : tif_data) (file_name : string)
  (viz : visualization) :
  In viz (_create_tif_visualizations rng d file_name) ->
  vtype viz = "heatmap"%string ->
  exists z x y title,
    plotly_fig viz = Heatmap z x y 6 12 title
    /\ (forall i j,
          nth j (nth i z []) NaN
          = gap (nodata (metadata d)) (nth (4 * j) (nth (4 * i) (data d) []) NaN))
    /\ (length (data d) <= 4 * length z < length (data d) + 4)%nat
    /\ length y = length z
    /\ length x = ncols z.
Proof.
  intros Hin Htag.
  unfold _create_tif_visualizations in Hin. cbv zeta in Hin.
  rewrite clean_sample_is_gapped_decimation in Hin.
  set (nd := nodata (metadata d)) in *.
  set (z := map (map (gap nd)) (decimated (data d))) in *.
  set (valid := filter (valid_mask nd) (concat (data d))) in *.
  set (hm := {| vtype := "heatmap"; vtitle := "Spatial Vulnerability Heatmap";
                plotly_fig := Heatmap z _ _ 6 12 _ |}) in Hin.
  assert (Hcases : viz = hm \/ vtype viz <> "heatmap"%string).
  { destruct (0 <? length (filter F64.isfinite (concat z)))%nat;
      destruct (0 <? length valid)%nat;
      try (destruct (five_stats valid) as [st|e]);
      try (destruct (histogram_data rng valid) as [hist|e']);
      cbn [bind app] in Hin;
      repeat (destruct Hin as [Hin|Hin];
              [try (left; now symmetry);
               right; rewrite <- Hin; cbn [vtype]; discriminate|]);
      destruct Hin. }
  destruct Hcases as [->|Hno]; [|congruence].
  eexists z, _, _, _. split; [reflexivity|].
  split; [|split; [|split]].
  - intros i j. unfold z, decimated, every.
    rewrite nth_map_default with (d' := @nil f64) by reflexivity.
    rewrite nth_map_default with (d' := (NaN : f64)) by apply gap_NaN.
    rewrite every_from_nth.
    rewrite nth_map_default with (d' := @nil f64) by reflexivity.
    rewrite every_from_nth.
    replace (0 + i * 4)%nat with (4 * i)%nat by lia.
    replace (0 + j * 4)%nat with (4 * j)%nat by lia.
    reflexivity.
  - unfold z, decimated, every. rewrite length_map.
    pose proof (every_from_length_bounds 3 (map (every_from 4 0) (data d)) 0)
      as H. cbv zeta in H. rewrite length_map in H.
    destruct H as [H1 H2].
    set (r := length (every_from 4 0 (map (every_from 4 0) (data d)))) in *.
    destruct r as [|r']; [lia|]. specialize (H2 ltac:(lia)). lia.
  - unfold linspace. now rewrite length_map, length_seq.
  - unfold linspace. now rewrite length_map, length_seq.
Qed.

Definition tiny_raster : tif_data := as_raster [[cell 7; cell 8]] None.

Definition tiny_heatmap : visualization :=
  {| vtype := "heatmap";
     vtitle := "Spatial Vulnerability Heatmap";
     plotly_fig :=
       Heatmap [[cell 7]] [0] [0] 6 12
         "Spatial Vulnerability Heatmap - tiny.tif" |}.

Lemma tiny_heatmap_emitted :
  hd_error (_create_tif_visualizations demo_rng tiny_raster "tiny.tif")
  = Some tiny_heatmap.
Proof. lazy. reflexivity. Qed.

Lemma heatmap_grid_is_decimation_witness :
  exists z x y title,
    plotly_fig tiny_heatmap = Heatmap z x y 6 12 title
    /\ length y = length z.
Proof.
  destruct (@heatmap_grid_is_decimation demo_rng tiny_raster "tiny.tif"
              tiny_heatmap) as [z [x [y [t [H1 [_ [_ [H2 _]]]]]]]].
  - pose proof tiny_heatmap_emitted as H.
    destruct (_create_tif_visualizations demo_rng tiny_raster "tiny.tif")
      as [|v vs]; [discriminate H|].
    injection H as ->. now left.
  - reflexivity.
  - exists z, x, y, t. split; assumption.
Defined.

(* ------------------------------------------------------------------ *)
(** * Table charts *)

Lemma attempts_tags {A : Type} (type : string) (title : A -> string)
  (construction : A -> result fig) (cols : list A) :
  forall viz,
    map vtype
      (fold_left
         (fun viz col =>
            Guarded.attempt viz type (title col) (construction col))
         cols viz)
    = (map vtype viz
       ++ map (fun _ => type)
            (filter (fun col => succeeds (construction col)) cols))%list.
Proof.
  induction cols as [|c cols IH]; intros viz; cbn [fold_left filter map].
  - now rewrite app_nil_r.
  - rewrite IH. unfold Guarded.attempt, succeeds.
    destruct (construction c); [|reflexivity].
    rewrite map_app, <- app_assoc. reflexivity.
Qed.

Lemma attempts_total {A : Type} (type : string) (title : A -> string)
  (chart : A -> fig) (cols : list A) :
  forall viz,
    fold_left
      (fun viz col => Guarded.attempt viz type (title col) (Ok (chart col)))
      cols viz
    = (viz ++ map (fun col => {| vtype := type;
                                 vtitle := title col;
                                 plotly_fig := chart col |}) cols)%list.
Proof.
  induction cols as [|c cols IH]; intros viz; cbn [fold_left map].
  - now rewrite app_nil_r.
  - rewrite IH. cbn [Guarded.attempt]. now rewrite <- app_assoc.
Qed.

(** X11.  The charts of a table, by tag and in order.  A histogram is
    attempted for each of the first three numeric columns, a correlation
    matrix when there are two numeric columns or more, a bar chart for each of
    the first two categorical columns.  An attempt that raises is skipped and
    the later attempts are still made, so the tags emitted are those of the
    attempts that return, in the order of the attempts, at most six.  When no
    construction raises, the charts are those of
    [_create_tabular_visualizations] as the pipeline uses it. *)
Theorem tabular_chart_tags
  (px_histogram : DataFrame -> string -> string -> result fig)
  (px_imshow_corr : DataFrame -> string -> result fig)
  (px_bar_counts : column -> string -> result fig)
  (df : DataFrame) (file_name : string) :
  let viz :=
    Guarded._create_tabular_visualizations
      px_histogram px_imshow_corr px_bar_counts df file_name in
  let numeric_cols := map col_name (Pd.select_number df) in
  let categorical_cols := Pd.select_object df in
  map vtype viz
  = (map (fun _ => "histogram"%string)
       (filter
          (fun col =>
             succeeds (px_histogram df col ("Distribution of " ++ col)%string))
          (firstn 3 numeric_cols))
     ++ (if (1 <? length numeric_cols)%nat
            && succeeds (px_imshow_corr (Pd.select_number df)
                           "Correlation Matrix"%string)
         then ["correlation"%string] else [])
     ++ map (fun _ => "bar"%string)
          (filter
             (fun col =>
                succeeds (px_bar_counts col ("Top Values in " ++ col_name col)%string))
             (firstn 2 categorical_cols)))%list
  /\ (length viz <= 6)%nat
  /\ Guarded._create_tabular_visualizations
       (fun data col title => Ok (PxHistogram data col title))
       (fun frame title => Ok (PxImshow frame title))
       (fun col title =>
          let value_counts := firstn 10 (Pd.value_counts col) in
          Ok (PxBar (map fst value_counts) (map snd value_counts) title))
       df file_name
     = _create_tabular_visualizations df file_name.
Proof.
  intros viz numeric_cols categorical_cols.
  assert (Htags :
    map vtype viz
    = (map (fun _ => "histogram"%string)
         (filter
            (fun col =>
               succeeds (px_histogram df col ("Distribution of " ++ col)%string))
            (firstn 3 numeric_cols))
       ++ (if (1 <? length numeric_cols)%nat
              && succeeds (px_imshow_corr (Pd.select_number df)
                             "Correlation Matrix"%string)
           then ["correlation"%string] else [])
       ++ map (fun _ => "bar"%string)
            (filter
               (fun col =>
                  succeeds
                    (px_bar_counts col ("Top Values in " ++ col_name col)%string))
               (firstn 2 categorical_cols)))%list).
  { unfold viz, Guarded._create_tabular_visualizations. cbv zeta.
    fold numeric_cols. fold categorical_cols.
    set (hist := fold_left _ (firstn 3 numeric_cols) []).
    assert (Hh : map vtype hist
                 = map (fun _ => "histogram"%string)
                     (filter
                        (fun col =>
                           succeeds
                             (px_histogram df col ("Distribution of " ++ col)%string))
                        (firstn 3 numeric_cols))).
    { unfold hist.
      exact (attempts_tags "histogram"%string (fun col => ("Distribution of " ++ col)%string)
               (fun col => px_histogram df col ("Distribution of " ++ col)%string)
               (firstn 3 numeric_cols) []). }
    set (numeric :=
           if (0 <? length numeric_cols)%nat
           then if (1 <? length numeric_cols)%nat
                then Guarded.attempt hist "correlation"%string "Correlation Matrix"%string
                       (px_imshow_corr (Pd.select_number df)
                          "Correlation Matrix"%string)
                else hist
           else []).
    assert (Hn : map vtype numeric
                 = (map vtype hist
                    ++ (if (1 <? length numeric_cols)%nat
                           && succeeds (px_imshow_corr (Pd.select_number df)
                                          "Correlation Matrix"%string)
                        then ["correlation"%string] else []))%list).
    { unfold numeric.
      destruct (0 <? length numeric_cols)%nat eqn:E0.
      - destruct (1 <? length numeric_cols)%nat; cbn [andb].
        + unfold Guarded.attempt, succeeds.
          destruct (px_imshow_corr _ _);
            [now rewrite map_app|now rewrite app_nil_r].
        + now rewrite app_nil_r.
      - apply Nat.ltb_ge in E0.
        assert (El : length numeric_cols = 0%nat) by lia.
        unfold hist. rewrite El.
        destruct numeric_cols; [|discriminate]. reflexivity. }
    assert (Hc : map vtype
                   (if (0 <? length categorical_cols)%nat
                    then fold_left
                           (fun viz col =>
                              Guarded.attempt viz "bar"%string
                                ("Top Values in " ++ col_name col)%string
                                (px_bar_counts col
                                   ("Top Values in " ++ col_name col)%string))
                           (firstn 2 categorical_cols) numeric
                    else numeric)
                 = (map vtype numeric
                    ++ map (fun _ => "bar"%string)
                         (filter
                            (fun col =>
                               succeeds
                                 (px_bar_counts col
                                    ("Top Values in " ++ col_name col)%string))
                            (firstn 2 categorical_cols)))%list).
    { destruct (0 <? length categorical_cols)%nat eqn:E0.
      - exact (attempts_tags "bar"%string
                 (fun col => ("Top Values in " ++ col_name col)%string)
                 (fun col => px_bar_counts col
                               ("Top Values in " ++ col_name col)%string)
                 (firstn 2 categorical_cols) numeric).
      - apply Nat.ltb_ge in E0.
        destruct categorical_cols; [|simpl in E0; lia].
        now rewrite app_nil_r. }
    rewrite Hc, Hn, Hh, <- app_assoc. reflexivity. }
  split; [exact Htags|]. split.
  - rewrite <- (length_map vtype), Htags, !length_app, !length_map.
    pose proof (filter_length_le
                  (fun col =>
                     succeeds (px_histogram df col ("Distribution of " ++ col)%string))
                  (firstn 3 numeric_cols)) as H1.
    pose proof (filter_length_le
                  (fun col =>
                     succeeds
                       (px_bar_counts col ("Top Values in " ++ col_name col)%string))
                  (firstn 2 categorical_cols)) as H2.
    rewrite length_firstn in H1, H2.
    destruct ((1 <? length numeric_cols)%nat && _); cbn [length]; lia.
  - unfold Guarded._create_tabular_visualizations,
      _create_tabular_visualizations. cbv zeta.
    rewrite !attempts_total. cbn [Guarded.attempt app].
    destruct (0 <? length (map col_name (Pd.select_number df)))%nat;
      destruct (1 <? length (map col_name (Pd.select_number df)))%nat;
      destruct (0 <? length (Pd.select_object df))%nat;
      rewrite ?attempts_total; reflexivity.
Qed.

(* ------------------------------------------------------------------ *)
(** * Table analysis: warnings, counts and empty tables *)

(** The insight list of [_analyze_tabular_data], part by part. *)
Lemma tabular_insights (df : DataFrame) :
  let m := sum_nat (map snd (Pd.isnull_sum df)) in
  let dups := Pd.count_true (Pd.duplicated df) in
  let nn := length (Pd.select_number df) in
  let nc := length (Pd.select_object df) in
  tb_insights (_analyze_tabular_data df)
  = ((if (0 <? m)%nat then [MissingValues m] else [])
     ++ (if (0 <? dups)%nat then [DuplicateRows dups] else [])
     ++ (if (0 <? nn)%nat then [NumericColumns nn] else [])
     ++ (if (0 <? nc)%nat then [CategoricalColumns nc] else []))%list.
Proof.
  intros m dups nn nc. unfold _analyze_tabular_data. cbv zeta.
  fold m dups nn nc. cbn [tb_insights].
  destruct (0 <? m)%nat, (0 <? dups)%nat, (0 <? nn)%nat, (0 <? nc)%nat;
    reflexivity.
Qed.

Lemma sum_nat_pos (l : list nat) :
  (0 < sum_nat l)%nat <-> exists n, In n l /\ (0 < n)%nat.
Proof.
  induction l as [|x l IH]; simpl.
  - split; [lia|intros [n [[] _]]].
  - split.
    + intros H. destruct x as [|x].
      * destruct (proj1 IH ltac:(lia)) as [n [Hn Hp]]. exists n. auto.
      * exists (S x). split; [now left|lia].
    + intros [n [[<-|Hn] Hp]]; [lia|].
      assert (0 < sum_nat l)%nat by (apply IH; eauto). lia.
Qed.

Lemma filter_length_pos {A : Type} (f : A -> bool) (l : list A) :
  (0 < length (filter f l))%nat <-> exists x, In x l /\ f x = true.
Proof.
  split.
  - intros H. destruct (filter f l) as [|x t] eqn:E; [simpl in H; lia|].
    exists x. apply filter_In. rewrite E. now left.
  - intros [x Hx]. apply filter_In in Hx.
    destruct (filter f l); [destruct Hx|simpl; lia].
Qed.

Lemma duplicated_length (rs : list (list Pd.cell)) :
  forall seen, length (Pd.duplicated_from seen rs) = length rs.
Proof.
  induction rs as [|r rs IH]; intros seen; [reflexivity|].
  simpl. now rewrite IH.
Qed.

(** Some row repeats an earlier one. *)
Definition has_repeated_row (df : DataFrame) : Prop :=
  exists i j r1 r2,
    (i < j)%nat
    /\ nth_error (Pd.rows df) i = Some r1
    /\ nth_error (Pd.rows df) j = Some r2
    /\ Pd.row_eqb r2 r1 = true.

(** Some cell is missing. *)
Definition has_missing_cell (df : DataFrame) : Prop :=
  exists c x, In c df /\ In x (Pd.cells c) /\ Pd.is_null x = true.

Lemma duplicates_pos_iff (df : DataFrame) :
  (0 < Pd.count_true (Pd.duplicated df))%nat <-> has_repeated_row df.
Proof.
  unfold Pd.count_true. rewrite filter_length_pos. split.
  - intros [b [Hin Hb]]. subst b.
    apply In_nth_error in Hin. destruct Hin as [j Hj].
    assert (Hlt : (j < length (Pd.rows df))%nat).
    { rewrite <- (duplicated_length (Pd.rows df) []).
      apply nth_error_Some. unfold Pd.duplicated in Hj. congruence. }
    destruct (nth_error (Pd.rows df) j) as [r2|] eqn:Er2;
      [|apply nth_error_None in Er2; lia].
    rewrite (duplicated_spec df j Er2) in Hj. injection Hj as Hj.
    apply existsb_exists in Hj. destruct Hj as [r1 [Hr1 Heq]].
    apply In_nth_error in Hr1. destruct Hr1 as [i Hi].
    assert (Hi' : (i < j)%nat).
    { assert (i < length (firstn j (Pd.rows df)))%nat
        by (apply nth_error_Some; congruence).
      rewrite length_firstn in H. lia. }
    exists i, j, r1, r2. repeat split; try assumption.
    rewrite nth_error_firstn in Hi.
    destruct (i <? j)%nat eqn:E; [exact Hi|discriminate].
  - intros [i [j [r1 [r2 [Hij [Hi [Hj Heq]]]]]]].
    exists true. split; [|reflexivity].
    apply (nth_error_In _ j).
    rewrite (duplicated_spec df j Hj). f_equal.
    apply existsb_exists. exists r1. split; [|exact Heq].
    apply (nth_error_In _ i). rewrite nth_error_firstn.
    assert (E : (i <? j)%nat = true) by now apply Nat.ltb_lt.
    now rewrite E.
Qed.

Lemma missing_pos_iff (df : DataFrame) :
  (0 < sum_nat (map snd (Pd.isnull_sum df)))%nat <-> has_missing_cell df.
Proof.
  rewrite sum_nat_pos. unfold Pd.isnull_sum. rewrite map_map. cbn [snd].
  split.
  - intros [n [Hn Hp]]. apply in_map_iff in Hn. destruct Hn as [c [<- Hc]].
    apply filter_length_pos in Hp. destruct Hp as [x [Hx Hnull]].
    exists c, x. auto.
  - intros [c [x [Hc [Hx Hnull]]]].
    exists (length (filter Pd.is_null (Pd.cells c))). split.
    + apply in_map_iff. exists c. auto.
    + apply filter_length_pos. exists x. auto.
Qed.

Lemma tabular_insight_cases (df : DataFrame) (i : insight) :
  In i (tb_insights (_analyze_tabular_data df)) ->
  (i = MissingValues (sum_nat (map snd (Pd.isnull_sum df)))
   /\ (0 < sum_nat (map snd (Pd.isnull_sum df)))%nat)
  \/ (i = DuplicateRows (Pd.count_true (Pd.duplicated df))
      /\ (0 < Pd.count_true (Pd.duplicated df))%nat)
  \/ (exists k, i = NumericColumns k)
  \/ (exists k, i = CategoricalColumns k).
Proof.
  rewrite tabular_insights. cbv zeta. intros H.
  destruct (0 <? sum_nat (map snd (Pd.isnull_sum df)))%nat eqn:E1;
    destruct (0 <? Pd.count_true (Pd.duplicated df))%nat eqn:E2;
    destruct (0 <? length (Pd.select_number df))%nat;
    destruct (0 <? length (Pd.select_object df))%nat;
    rewrite ?Nat.ltb_lt in *; cbn [app] in H;
    repeat (destruct H as [<-|H]; [eauto 6|]); destruct H.
Qed.

Lemma tabular_warnings_core (df : DataFrame) :
  ((exists n, In (MissingValues n) (tb_insights (_analyze_tabular_data df)))
   -> has_missing_cell df)
  /\ ((exists n, In (DuplicateRows n) (tb_insights (_analyze_tabular_data df)))
      -> has_repeated_row df).
Proof.
  split; intros [n H]; apply tabular_insight_cases in H.
  - destruct H as [[_ Hp]|[[H _]|[[k H]|[k H]]]]; try discriminate H.
    now apply missing_pos_iff.
  - destruct H as [[H _]|[[_ Hp]|[[k H]|[k H]]]]; try discriminate H.
    now apply duplicates_pos_iff.
Qed.

(** X12.  The analyzer warns about missing values exactly when some cell is
    missing, and about duplicate rows exactly when some row equals an earlier
    one; the number in each warning is the total it reports in the summary. *)
Theorem tabular_warnings_iff (df : DataFrame) :
  let a := _analyze_tabular_data df in
  ((exists n, In (MissingValues n) (tb_insights a)) <-> has_missing_cell df)
  /\ ((exists n, In (DuplicateRows n) (tb_insights a)) <-> has_repeated_row df)
  /\ (forall n, In (MissingValues n) (tb_insights a) ->
                n = sum_nat (map snd (missing_values (tb_summary a))))
  /\ (forall n, In (DuplicateRows n) (tb_insights a) ->
                n = duplicates (tb_summary a)).
Proof.
  intros a. unfold a. rewrite tabular_insights. cbv zeta.
  set (m := sum_nat (map snd (Pd.isnull_sum df))).
  set (dups := Pd.count_true (Pd.duplicated df)).
  pose proof (missing_pos_iff df) as Hm. fold m in Hm.
  pose proof (duplicates_pos_iff df) as Hd. fold dups in Hd.
  assert (Hin : forall i,
             In i ((if (0 <? m)%nat then [MissingValues m] else [])
                   ++ (if (0 <? dups)%nat then [DuplicateRows dups] else [])
                   ++ (if (0 <? length (Pd.select_number df))%nat
                       then [NumericColumns (length (Pd.select_number df))]
                       else [])
                   ++ (if (0 <? length (Pd.select_object df))%nat
                       then [CategoricalColumns (length (Pd.select_object df))]
                       else []))%list ->
             (i = MissingValues m /\ (0 < m)%nat)
             \/ (i = DuplicateRows dups /\ (0 < dups)%nat)
             \/ (exists k, i = NumericColumns k)
             \/ (exists k, i = CategoricalColumns k)).
  { intros i H.
    destruct (0 <? m)%nat eqn:E1; destruct (0 <? dups)%nat eqn:E2;
      destruct (0 <? length (Pd.select_number df))%nat;
      destruct (0 <? length (Pd.select_object df))%nat;
      rewrite ?Nat.ltb_lt in *; cbn [app] in H;
      repeat (destruct H as [<-|H]; [eauto 6|]); destruct H. }
  split; [|split; [|split]].
  - split.
    + intros [n H]. apply Hin in H.
      destruct H as [[_ Hp]|[[H _]|[[k H]|[k H]]]]; try discriminate H.
      now apply Hm.
    + intros H. apply Hm in H. exists m.
      assert (E : (0 <? m)%nat = true) by now apply Nat.ltb_lt.
      rewrite E. now left.
  - split.
    + intros [n H]. apply Hin in H.
      destruct H as [[H _]|[[_ Hp]|[[k H]|[k H]]]]; try discriminate H.
      now apply Hd.
    + intros H. apply Hd in H. exists dups.
      assert (E : (0 <? dups)%nat = true) by now apply Nat.ltb_lt.
      rewrite E. apply in_or_app. right. now left.
  - intros n H. apply Hin in H.
    destruct H as [[H _]|[[H _]|[[k H]|[k H]]]]; try discriminate H.
    now injection H.
  - intros n H. apply Hin in H.
    destruct H as [[H _]|[[H _]|[[k H]|[k H]]]]; try discriminate H.
    now injection H.
Qed.

Lemma count_true_le (l : list bool) : (Pd.count_true l <= length l)%nat.
Proof. unfold Pd.count_true. apply filter_length_le. Qed.

Lemma rows_length (df : DataFrame) : length (Pd.rows df) = Pd.nrows df.
Proof. unfold Pd.rows. now rewrite length_map, length_seq. Qed.

(** X13.  The duplicate-row count never reaches the row count: the first row
    is never a duplicate, so a table of [n] rows reports at most [n - 1]
    duplicates (and none when it has no row). *)
Theorem duplicates_below_row_count (df : DataFrame) :
  let s := tb_summary (_analyze_tabular_data df) in
  (duplicates s <= fst (shape s) - 1)%nat.
Proof.
  cbv zeta. unfold _analyze_tabular_data. cbn [tb_summary duplicates shape].
  unfold Pd.shape. cbn [fst]. unfold Pd.duplicated.
  rewrite <- rows_length.
  destruct (Pd.rows df) as [|r rs]; [cbv; lia|].
  cbn [Pd.duplicated_from existsb length]. unfold Pd.count_true.
  cbn [filter]. fold (Pd.count_true (Pd.duplicated_from ([] ++ [r]) rs)).
  pose proof (count_true_le (Pd.duplicated_from ([] ++ [r]) rs)) as H.
  rewrite duplicated_length in H. lia.
Qed.

Lemma present_length {A : Type} (vals : list (option A)) :
  (length (Pd.present vals)
   + length (filter (fun v => match v with None => true | _ => false end) vals))%nat
  = length vals.
Proof.
  induction vals as [|[v|] vals IH]; simpl; lia.
Qed.

Lemma numeric_nulls (vals : list (option Q)) :
  length (filter Pd.is_null
            (map (fun v => match v with
                           | Some q => Pd.CNum q
                           | None => Pd.CNull
                           end) vals))
  = length (filter (fun v => match v with None => true | _ => false end) vals).
Proof.
  induction vals as [|[v|] vals IH]; simpl; [reflexivity|exact IH|].
  now rewrite IH.
Qed.

(** X14.  Every entry of the numeric summary describes a numeric column of
    the table, and for that column the described count and the number of
    missing values reported in the summary add up to the number of rows of
    the column. *)
Theorem described_count_plus_missing
  (df : DataFrame) (l : list (string * Pd.describe_row))
  (name : string) (row : Pd.describe_row) :
  tb_numeric_summary (_analyze_tabular_data df) = Some l ->
  In (name, row) l ->
  exists c missing,
    In c df /\ col_name c = name /\ Pd.dtype_of c = Pd.number
    /\ row = Pd.describe_column c
    /\ In (name, missing)
          (missing_values (tb_summary (_analyze_tabular_data df)))
    /\ (Pd.d_count row + missing)%nat = length (Pd.cells c).
Proof.
  intros Hs Hin. unfold _analyze_tabular_data in Hs. cbv zeta in Hs.
  cbn [tb_numeric_summary] in Hs.
  destruct (0 <? length (Pd.select_number df))%nat; [|discriminate].
  injection Hs as <-. unfold Pd.describe in Hin.
  apply in_map_iff in Hin. destruct Hin as [c [Heq Hc]].
  injection Heq as <- <-.
  apply filter_In in Hc. destruct Hc as [Hc Hnum].
  exists c, (length (filter Pd.is_null (Pd.cells c))).
  split; [exact Hc|]. split; [reflexivity|].
  destruct c as [cname [vals|vals]]; [|discriminate]. cbn [col_data] in *.
  split; [reflexivity|]. split; [reflexivity|]. split.
  - unfold _analyze_tabular_data. cbn [tb_summary missing_values].
    unfold Pd.isnull_sum. apply in_map_iff.
    exists {| col_name := cname; col_data := NumCol vals |}. auto.
  - unfold Pd.describe_column, Pd.numbers, Pd.cells. cbn [Pd.d_count col_data].
    rewrite numeric_nulls, length_map. apply present_length.
Qed.

Definition gappy_column : column :=
  {| col_name := "age"; col_data := NumCol [Some 25; None; Some 30] |}.

Lemma described_count_plus_missing_witness :
  exists c missing,
    In c [gappy_column] /\ col_name c = "age"%string
    /\ (Pd.d_count (Pd.describe_column gappy_column) + missing)%nat
       = length (Pd.cells c).
Proof.
  destruct (@described_count_plus_missing [gappy_column]
              [("age"%string, Pd.describe_column gappy_column)]
              "age" (Pd.describe_column gappy_column))
    as [c [missing [H1 [H2 [_ [_ [_ H3]]]]]]].
  - reflexivity.
  - now left.
  - exists c, missing. auto.
Defined.

(** X15.  A table without rows is analyzed without failure: its shape is
    [(0, number of columns)], it has no duplicate and raises no warning, and
    every described numeric column has count 0 and not-a-number for mean,
    standard deviation, minimum, quartiles and maximum. *)
Theorem zero_row_table (df : DataFrame) :
  (forall c, In c df -> Pd.cells c = []) ->
  let a := _analyze_tabular_data df in
  shape (tb_summary a) = (0%nat, length df)
  /\ duplicates (tb_summary a) = 0%nat
  /\ (forall n, ~ In (MissingValues n) (tb_insights a)
                /\ ~ In (DuplicateRows n) (tb_insights a))
  /\ (forall l name row,
         tb_numeric_summary a = Some l -> In (name, row) l ->
         row = {| Pd.d_count := 0; Pd.d_mean := NaN; Pd.d_std := NaN;
                  Pd.d_min := NaN; Pd.d_q25 := NaN; Pd.d_q50 := NaN;
                  Pd.d_q75 := NaN; Pd.d_max := NaN |}).
Proof.
  intros Hempty a.
  assert (Hrows : Pd.nrows df = 0%nat).
  { unfold Pd.nrows. destruct df as [|c df]; [reflexivity|].
    rewrite (Hempty c) by now left. reflexivity. }
  assert (Hdup : Pd.count_true (Pd.duplicated df) = 0%nat).
  { unfold Pd.duplicated, Pd.rows. now rewrite Hrows. }
  assert (Hwarn : forall n, ~ In (MissingValues n) (tb_insights a)
                            /\ ~ In (DuplicateRows n) (tb_insights a)).
  { intros n. destruct (tabular_warnings_core df) as [Hm Hd]. split.
    - intros H. destruct (Hm (ex_intro _ n H)) as [c [x [Hc [Hx _]]]].
      rewrite (Hempty c Hc) in Hx. destruct Hx.
    - intros H. destruct (Hd (ex_intro _ n H))
        as [i [j [r1 [r2 [_ [Hi _]]]]]].
      assert (i < length (Pd.rows df))%nat
        by (apply nth_error_Some; congruence).
      rewrite rows_length in H0. lia. }
  split; [|split; [|split]].
  - unfold a, _analyze_tabular_data. cbn [tb_summary shape]. unfold Pd.shape.
    now rewrite Hrows.
  - exact Hdup.
  - exact Hwarn.
  - intros l name row Hs Hin. unfold a, _analyze_tabular_data in Hs.
    cbv zeta in Hs. cbn [tb_numeric_summary] in Hs.
    destruct (0 <? length (Pd.select_number df))%nat; [|discriminate].
    injection Hs as <-. unfold Pd.describe in Hin.
    apply in_map_iff in Hin. destruct Hin as [c [Heq Hc]].
    injection Heq as <- <-. apply filter_In in Hc. destruct Hc as [Hc _].
    pose proof (Hempty c Hc) as Hcells.
    destruct c as [cname [vals|vals]]; unfold Pd.cells in Hcells;
      cbn [col_data] in Hcells; apply map_eq_nil in Hcells; subst vals;
      reflexivity.
Qed.

Lemma zero_row_table_witness :
  shape (tb_summary (_analyze_tabular_data
                       [{| col_name := "age"; col_data := NumCol [] |}]))
  = (0%nat, 1%nat).
Proof.
  apply (@zero_row_table [{| col_name := "age"; col_data := NumCol [] |}]).
  intros c [<-|[]]. reflexivity.
Defined.

(* ------------------------------------------------------------------ *)
(** * Percentiles: inside the data, and monotone *)





(** The parts of a percentile: the two order statistics around the virtual
    index and the weight of the upper one. *)
Record interpolation : Type := {
  below : Q;
  above : Q;
  weight : Q;
  index_below : nat
}.






(* ------------------------------------------------------------------ *)
(** * The detector: where the inferred threshold lies *)






(* ------------------------------------------------------------------ *)
(** * The pipeline: records, their order, and the report file *)

Lemma dict_get_set_other {V : Type} (key other : string) (v : V)
  (d : list (string * V)) :
  other <> key -> dict_get other (dict_set key v d) = dict_get other d.
Proof.
  intros Hne. induction d as [|[k v0] d IH]; simpl.
  - destruct (String.eqb key other) eqn:E; [|reflexivity].
    apply String.eqb_eq in E. congruence.
  - destruct (String.eqb k key) eqn:E; simpl.
    + apply String.eqb_eq in E. subst k.
      destruct (String.eqb key other) eqn:E'; [|reflexivity].
      apply String.eqb_eq in E'. congruence.
    + now rewrite IH.
Qed.

(** X20.  A successful [analyze_data] files the record it returns under the
    file name: looking the name up afterwards yields that record, which
    carries the name and the type tag and no chart yet; records under other
    names and the discovered files are untouched, and a new name is appended
    after the existing ones. *)
Theorem analyze_data_stores_record
  (self self' : analyzer) (d : dataset) (name t : string) (a : analysis) :
  analyze_data self d name t = Ok (a, self') ->
  dict_get name (analysis_results self') = Some a
  /\ file_name a = name /\ file_type a = t /\ visualizations a = []
  /\ data_files self' = data_files self
  /\ (forall other, other <> name ->
        dict_get other (analysis_results self')
        = dict_get other (analysis_results self))
  /\ map fst (analysis_results self')
     = (if existsb (String.eqb name) (map fst (analysis_results self))
        then map fst (analysis_results self)
        else map fst (analysis_results self) ++ [name])%list.
Proof.
  unfold analyze_data. intros H.
  destruct (if String.eqb t "tif" then _ else _) as [b|e]; simpl in H;
    [|discriminate].
  injection H as <- <-. cbn [analysis_results data_files file_name file_type
                             visualizations].
  split; [apply dict_get_set_same|].
  repeat split; try reflexivity.
  - intros other Hne. now apply dict_get_set_other.
  - apply dict_set_keys.
Qed.

Lemma analyze_data_stores_record_witness :
  exists a self',
    analyze_data {| data_files := []; analysis_results := [] |}
      (Table [city_column]) "cities.csv" "csv" = Ok (a, self')
    /\ dict_get "cities.csv" (analysis_results self') = Some a.
Proof.
  eexists. eexists. split; [reflexivity|].
  exact (proj1 (@analyze_data_stores_record
                  {| data_files := []; analysis_results := [] |} _
                  (Table [city_column]) "cities.csv" "csv" _ eq_refl)).
Defined.

(** Whether the decoders yield data for a discovered file. *)
Definition decodes (read_table : string -> string -> result DataFrame)
  (rasterio_open : string -> result raster_src)
  (entry : string * file_info) : bool :=
  match read_data_file read_table rasterio_open
          (path (snd entry)) (type (snd entry)) with
  | Some _ => true
  | None => false
  end.

Section PipelineFacts.

Variable read_table : string -> string -> result DataFrame.
Variable rasterio_open : string -> result raster_src.
Variable rng : Random.generator.

(** One turn of the loop, when it does not raise. *)
Lemma process_file_cases (self self' : analyzer) (name : string)
  (info : file_info) :
  process_file read_table rasterio_open rng self (name, info) = Ok self' ->
  data_files self' = data_files self
  /\ ((decodes read_table rasterio_open (name, info) = false /\ self' = self)
      \/ (decodes read_table rasterio_open (name, info) = true
          /\ exists data a v,
               read_data_file read_table rasterio_open (path info) (type info)
               = Some data
               /\ create_visualizations rng data name (type info) = Ok v
               /\ file_name a = name /\ file_type a = type info
               /\ visualizations a = v
               /\ analysis_results self'
                  = dict_set name a
                      (dict_set name (set_visualizations a [])
                         (analysis_results self)))).
Proof.
  unfold process_file, decodes. cbn [snd].
  destruct (read_data_file read_table rasterio_open (path info) (type info))
    as [data|] eqn:Er.
  - intros H.
    destruct (analyze_data self data name (type info)) as [[a s1]|e] eqn:Ea;
      simpl in H; [|discriminate].
    destruct (create_visualizations rng data name (type info)) as [v|e] eqn:Ev;
      simpl in H; [|discriminate].
    injection H as <-. cbn [data_files analysis_results].
    destruct (analyze_data_stores_record _ _ _ _ Ea)
      as [_ [Hn [Ht [Hv [Hdf _]]]]].
    split; [exact Hdf|]. right. split; [reflexivity|].
    exists data, (set_visualizations a v), v.
    split; [reflexivity|]. split; [exact Ev|].
    cbn [set_visualizations file_name file_type visualizations].
    split; [exact Hn|]. split; [exact Ht|]. split; [reflexivity|].
    unfold analyze_data in Ea.
    destruct (if String.eqb (type info) "tif" then _ else _) as [b|e];
      simpl in Ea; [|discriminate].
    injection Ea as <- <-. reflexivity.
  - intros H. injection H as <-. split; [reflexivity|]. left. auto.
Qed.

Lemma dict_set_twice_keys {V : Type} (key : string) (v1 v2 : V)
  (d : list (string * V)) :
  ~ In key (map fst d) ->
  map fst (dict_set key v2 (dict_set key v1 d)) = (map fst d ++ [key])%list.
Proof.
  intros Hnot. rewrite !dict_set_keys.
  assert (E : existsb (String.eqb key) (map fst d) = false).
  { destruct (existsb _ _) eqn:E; [|reflexivity].
    apply existsb_eqb_In in E. contradiction. }
  rewrite E.
  assert (E' : existsb (String.eqb key) (map fst d ++ [key]) = true).
  { apply existsb_eqb_In. apply in_or_app. right. now left. }
  now rewrite E'.
Qed.

Lemma process_files_keys (entries : list (string * file_info)) :
  forall self self',
    process_files read_table rasterio_open rng self entries = Ok self' ->
    NoDup (map fst entries) ->
    (forall k, In k (map fst (analysis_results self)) ->
               ~ In k (map fst entries)) ->
    data_files self' = data_files self
    /\ map fst (analysis_results self')
       = (map fst (analysis_results self)
          ++ map fst (filter (decodes read_table rasterio_open) entries))%list.
Proof.
  induction entries as [|[name info] entries IH]; intros self self' H Hnd Hfresh.
  - simpl in H. injection H as <-. simpl. now rewrite app_nil_r.
  - cbn [process_files] in H. unfold bind in H.
    destruct (process_file read_table rasterio_open rng self (name, info))
      as [s1|e] eqn:Ep; [|discriminate H].
    inversion Hnd as [|? ? Hnot Hnd']; subst.
    destruct (process_file_cases _ _ _ Ep) as [Hdf Hcase].
    assert (Hname : ~ In name (map fst (analysis_results self))).
    { intros Hin. apply (Hfresh name Hin). now left. }
    destruct Hcase as [[Hdec ->]|[Hdec [data [a [v [_ [_ [_ [_ [_ Hres]]]]]]]]]].
    + destruct (IH self self' H Hnd') as [I1 I2].
      { intros k Hk Hin. apply (Hfresh k Hk). now right. }
      split; [exact I1|]. cbn [filter]. now rewrite Hdec.
    + assert (Hkeys : map fst (analysis_results s1)
                      = (map fst (analysis_results self) ++ [name])%list).
      { rewrite Hres. now apply dict_set_twice_keys. }
      destruct (IH s1 self' H Hnd') as [I1 I2].
      { intros k Hk Hin. rewrite Hkeys in Hk. apply in_app_or in Hk.
        destruct Hk as [Hk|[<-|[]]]; [|contradiction].
        apply (Hfresh k Hk). now right. }
      split; [congruence|].
      cbn [filter]. rewrite Hdec, I2, Hkeys, <- app_assoc. reflexivity.
Qed.

End PipelineFacts.

(** X21.  Over discovered files with distinct names and a fresh analyzer, a
    run of the loop of [run_full_analysis] that does not raise leaves one
    record per file that the decoders could read, in discovery order; files
    that could not be read leave no record, and the discovered files are
    unchanged. *)
Theorem records_follow_discovery_order
  (read_table : string -> string -> result DataFrame)
  (rasterio_open : string -> result raster_src) (rng : Random.generator)
  (entries : list (string * file_info)) (self' : analyzer) :
  NoDup (map fst entries) ->
  process_files read_table rasterio_open rng
    {| data_files := entries; analysis_results := [] |} entries = Ok self' ->
  data_files self' = entries
  /\ map fst (analysis_results self')
     = map fst (filter (decodes read_table rasterio_open) entries)
  /\ (length (analysis_results self') <= length entries)%nat.
Proof.
  intros Hnd H.
  destruct (@process_files_keys read_table rasterio_open rng entries _ _ H Hnd)
    as [H1 H2].
  { intros k []. }
  cbn [data_files analysis_results map app] in H1, H2.
  split; [exact H1|]. split; [exact H2|].
  rewrite <- (length_map fst), H2, length_map. apply filter_length_le.
Qed.

Lemma records_follow_discovery_order_witness :
  map fst (analysis_results demo_state)
  = map fst (filter (decodes demo_read_table demo_rasterio_open) demo_discovered).
Proof.
  apply (@records_follow_discovery_order demo_read_table demo_rasterio_open
           demo_rng demo_discovered demo_state).
  - repeat constructor; simpl; intuition discriminate.
  - vm_compute. reflexivity.
Defined.




Section RecordFacts.

Variable read_table : string -> string -> result DataFrame.
Variable rasterio_open : string -> result raster_src.
Variable rng : Random.generator.



Lemma process_files_data_files (entries : list (string * file_info)) :
  forall self self',
    process_files read_table rasterio_open rng self entries = Ok self' ->
    data_files self' = data_files self.
Proof.
  induction entries as [|[name info] entries IH]; intros self self' H.
  - simpl in H. now injection H as <-.
  - cbn [process_files] in H. unfold bind in H.
    destruct (process_file read_table rasterio_open rng self (name, info))
      as [s1|e] eqn:Ep; [|discriminate H].
    destruct (@process_file_cases read_table rasterio_open rng self s1 name
                info Ep) as [Hdf _].
    rewrite (IH _ _ H). exact Hdf.
Qed.

End RecordFacts.



(** X23.  A run of [run_full_analysis] that does not raise ends in one of two
    ways.  With no discovered file it returns nothing, writes no file and
    draws no identifier.  With at least one discovered file it writes the
    report to ["universal_dashboard.html"] and returns that path, even when
    none of the files could be decoded, and it leaves every other file as it
    was.  In both cases the analyzer holds the discovered files. *)
Theorem report_written_iff_files_discovered
  (plot_div : string -> fig -> string) (uuid4 : nat -> string)
  (format_grouped : Z -> string) (format_fixed : nat -> f64 -> string)
  (py_str : pyval -> string) (py_title : string -> string)
  (page_prologue page_banner page_epilogue : string)
  (read_table : string -> string -> result DataFrame)
  (rasterio_open : string -> result raster_src) (rng : Random.generator)
  (discovered : list (string * file_info)) (self self' : analyzer)
  (w w' : world) (r : option string) :
  run_full_analysis plot_div uuid4 format_grouped format_fixed py_str py_title
    page_prologue page_banner page_epilogue read_table rasterio_open rng
    discovered self w = Ok (r, self', w') ->
  data_files self' = discovered
  /\ (discovered = [] -> r = None /\ w' = w)
  /\ (discovered <> [] ->
      r = Some "universal_dashboard.html"%string
      /\ (exists html,
             dict_get "universal_dashboard.html" (files w') = Some html)
      /\ forall other, other <> "universal_dashboard.html"%string ->
           dict_get other (files w') = dict_get other (files w)).
Proof.
  unfold run_full_analysis. cbn [data_files analysis_results].
  destruct discovered as [|e entries].
  - intros H. injection H as <- <- <-.
    split; [reflexivity|]. split; [auto|]. intros Hne. congruence.
  - set (discovered := e :: entries). unfold bind.
    destruct (process_files read_table rasterio_open rng _ discovered)
      as [s1|ex] eqn:Ep; [|discriminate].
    destruct (@generate_dashboard_effect plot_div format_grouped format_fixed
                py_str py_title page_prologue page_banner page_epilogue
                uuid4 s1 "universal_dashboard.html" w) as [html Hg].
    rewrite Hg. intros H. injection H as <- <- <-.
    pose proof (process_files_data_files _ _ _ _ _ Ep) as Hdf.
    cbn [data_files] in Hdf.
    split; [exact Hdf|]. split; [intros E; discriminate E|]. intros _.
    split; [reflexivity|]. cbn [files]. split.
    + exists html. apply dict_get_set_same.
    + intros other Hne. now apply dict_get_set_other.
Qed.

Lemma report_written_iff_files_discovered_witness :
  exists w',
    run_full_analysis demo_plot_div demo_uuid4 str_Z
      (fun _ _ => "0.0"%string) (fun _ => "-"%string) (fun s => s)
      "<html>" "<body>" "</html>"
      demo_read_table demo_rasterio_open demo_rng
      demo_discovered {| data_files := []; analysis_results := [] |}
      fresh_world
    = Ok (Some "universal_dashboard.html"%string, demo_state, w')
    /\ exists html, dict_get "universal_dashboard.html" (files w') = Some html.
Proof.
  destruct demo_run as [w' Hrun]. exists w'. split; [exact Hrun|].
  pose proof Hrun as H. apply report_written_iff_files_discovered in H.
  destruct H as [_ [_ H]].
  destruct H as [_ [Hhtml _]]; [discriminate|exact Hhtml].
Defined.
